(** * stactools-sentinel2: the STAC item builder ([stactools/sentinel2/stac.py])

    A shallow embedding of [create_item], [image_asset_from_href],
    [mk_asset_id], [metadata_from_safe_manifest] and
    [metadata_from_granule_metadata], followed by the properties of the
    asset classifier and of the item assembler.

    Conventions.
    - A Python [str] is a Rocq [string]; each character stands for the code
      point of the same number (0..255).
    - A Python [int] is a [Z], a Python [float] a primitive [float].
    - A Python [dict] is an association list in insertion order whose keys
      are pairwise distinct ([Dict]); [dict(pairs)] keeps the position of
      the first occurrence of a key and the value of the last one.
    - An exception is a value of [Exception]; code that may raise or log
      runs in the monad [M], which carries the log records written so far.
    - [assert] statements are executed (the interpreter runs without -O). *)

From Stdlib Require Import String Ascii ZArith List Bool Lia Floats.
From Stdlib Require Import Decimal DecimalString.
Import ListNotations.
Local Open Scope string_scope.
Local Open Scope Z_scope.

Set Implicit Arguments.

(* ------------------------------------------------------------------ *)
(** ** Python strings *)

Module Py.

Definition code (c : ascii) : N := N_of_ascii c.

Definition in_range (lo hi : N) (c : ascii) : bool :=
  (lo <=? code c)%N && (code c <=? hi)%N.

(** [c in cs], for a one-character string [c]. *)
Fixpoint char_in (cs : string) (c : ascii) : bool :=
  match cs with
  | EmptyString => false
  | String x r => Ascii.eqb x c || char_in r c
  end.

(** [\d] of [re] on [str]: the decimal digits; below 256 these are 0-9. *)
Definition is_decimal (c : ascii) : bool := in_range 48 57 c.

Definition is_ascii_upper (c : ascii) : bool := in_range 65 90 c.
Definition is_ascii_lower (c : ascii) : bool := in_range 97 122 c.

(** Alphanumeric code points in 128..255 (letters, superscript digits and
    vulgar fractions of Latin-1). *)
Definition is_latin1_alnum (c : ascii) : bool :=
  char_in (String (ascii_of_N 170) (String (ascii_of_N 178)
          (String (ascii_of_N 179) (String (ascii_of_N 181)
          (String (ascii_of_N 185) (String (ascii_of_N 186)
          (String (ascii_of_N 188) (String (ascii_of_N 189)
          (String (ascii_of_N 190) EmptyString))))))))) c
  || in_range 192 214 c || in_range 216 246 c || in_range 248 255 c.

(** [\w] of [re] on [str]: alphanumeric or underscore. *)
Definition is_word (c : ascii) : bool :=
  is_decimal c || is_ascii_upper c || is_ascii_lower c
  || Ascii.eqb c "_" || is_latin1_alnum c.

(** [str.lower], character by character. *)
Definition lower_char (c : ascii) : ascii :=
  if is_ascii_upper c
     || (in_range 192 222 c && negb (N.eqb (code c) 215))
  then ascii_of_N (code c + 32) else c.

Fixpoint lower (s : string) : string :=
  match s with
  | EmptyString => EmptyString
  | String c r => String (lower_char c) (lower r)
  end.

(** [s.startswith(p)] is [String.prefix p s]. *)
Definition startswith (s p : string) : bool := String.prefix p s.

(** [s.endswith(suf)] *)
Definition endswith (s suf : string) : bool :=
  let n := String.length s in
  let m := String.length suf in
  (m <=? n)%nat && String.eqb (substring (n - m) m s) suf.

(** [sub in s] *)
Fixpoint contains (sub s : string) : bool :=
  String.prefix sub s ||
  match s with
  | EmptyString => false
  | String _ r => contains sub r
  end.

(** [s.rfind(c)] for a single character: the last index, or -1. *)
Fixpoint find_last (c : ascii) (s : string) (i acc : Z) : Z :=
  match s with
  | EmptyString => acc
  | String x r => find_last c r (i + 1) (if Ascii.eqb x c then i else acc)
  end.

Definition rfind (c : ascii) (s : string) : Z := find_last c s 0 (-1).

(** [s[:i]] and [s[i:]] for [0 <= i]. *)
Definition slice_to (i : Z) (s : string) : string :=
  substring 0 (Z.to_nat i) s.

Definition slice_from (i : Z) (s : string) : string :=
  substring (Z.to_nat i) (String.length s - Z.to_nat i) s.

(** [s[i:j]] for [0 <= i]. *)
Definition slice (i j : Z) (s : string) : string :=
  substring (Z.to_nat i) (Z.to_nat (j - i)) s.

(** [os.path.splitext] (posixpath): the extension starts at the last dot
    of the last path component, leading dots of that component apart. *)
Definition splitext (p : string) : string * string :=
  let sepIndex := rfind "/" p in
  let dotIndex := rfind "." p in
  if (sepIndex <? dotIndex)
     && existsb (fun c => negb (Ascii.eqb c "."))
          (list_ascii_of_string (slice (sepIndex + 1) dotIndex p))
  then (slice_to dotIndex p, slice_from dotIndex p)
  else (p, "").

(** [s.split(c)[-1]]: what follows the last [c], or all of [s]. *)
Definition split_last (c : ascii) (s : string) : string :=
  slice_from (rfind c s + 1) s.

(** [os.path.join(a, b)] (posixpath). *)
Definition path_join (a b : string) : string :=
  if startswith b "/" then b
  else if String.eqb a "" || endswith a "/" then a ++ b
  else a ++ "/" ++ b.

(** [str(n)] for an [int]. *)
Definition str_of_int (n : Z) : string := NilZero.string_of_int (Z.to_int n).

Definition digit_value (c : ascii) : Z := Z.of_N (code c) - 48.

Fixpoint int_digits (s : string) (acc : Z) : Z :=
  match s with
  | EmptyString => acc
  | String c r => int_digits r (10 * acc + digit_value c)
  end.

Definition all_decimal (s : string) : bool :=
  forallb is_decimal (list_ascii_of_string s).

(** [int(s)] on a non-empty string of decimal digits; [None] stands for
    the [ValueError] of any other string the callers could pass. *)
Definition int_of_str (s : string) : option Z :=
  match s with
  | EmptyString => None
  | _ => if all_decimal s then Some (int_digits s 0) else None
  end.

(** [f'{x}'] for an [Optional[int]]. *)
Definition format_opt_int (x : option Z) : string :=
  match x with
  | Some n => str_of_int n
  | None => "None"
  end.

(** [f'{x}'] for an [Optional[str]]. *)
Definition format_opt_str (x : option string) : string :=
  match x with
  | Some s => s
  | None => "None"
  end.

End Py.

(* ------------------------------------------------------------------ *)
(** ** Regular expressions

    [pattern.search(s)] scans [s] from the left and returns the match at
    the first position where the pattern matches.  Each pattern of the
    module is given by its matcher at a fixed position. *)

Module Re.

Fixpoint search (A : Type) (m : string -> option A) (s : string) : option A :=
  match m s with
  | Some r => Some r
  | None =>
      match s with
      | EmptyString => None
      | String _ r => search m r
      end
  end.

Definition matches (A : Type) (m : string -> option A) (s : string) : bool :=
  match search m s with
  | Some _ => true
  | None => false
  end.

(** What is left of [s] after the literal [p], when [s] starts with it. *)
Fixpoint strip (p s : string) : option string :=
  match p, s with
  | EmptyString, _ => Some s
  | String a p', String b s' => if Ascii.eqb a b then strip p' s' else None
  | String _ _, EmptyString => None
  end.

(** [[_/]NAME[_.]] *)
Definition marker_closed (name : string) (s : string) : option unit :=
  match s with
  | String c0 r =>
      if Py.char_in "_/" c0 then
        match strip name r with
        | Some (String e _) => if Py.char_in "_." e then Some tt else None
        | _ => None
        end
      else None
  | EmptyString => None
  end.

(** [[_/]NAME] *)
Definition marker_open (name : string) (s : string) : option unit :=
  match s with
  | String c0 r =>
      if Py.char_in "_/" c0 then
        match strip name r with
        | Some _ => Some tt
        | None => None
        end
      else None
  | EmptyString => None
  end.

End Re.

Definition TCI_PATTERN := Re.marker_closed "TCI".
Definition AOT_PATTERN := Re.marker_closed "AOT".
Definition WVP_PATTERN := Re.marker_closed "WVP".
Definition SCL_PATTERN := Re.marker_closed "SCL".
Definition IS_TCI_PATTERN := Re.marker_open "TCI".

(** [[_/](B\w{2})]; the result is group 1. *)
Definition BAND_PATTERN (s : string) : option string :=
  match s with
  | String c0 (String b (String c1 (String c2 _))) =>
      if Py.char_in "_/" c0 && Ascii.eqb b "B" && Py.is_word c1 && Py.is_word c2
      then Some (String b (String c1 (String c2 EmptyString)))
      else None
  | _ => None
  end.

(** [[_/](B\d[A\d])]; the result is group 1. *)
Definition BAND_ID_PATTERN (s : string) : option string :=
  match s with
  | String c0 (String b (String c1 (String c2 _))) =>
      if Py.char_in "_/" c0 && Ascii.eqb b "B" && Py.is_decimal c1
         && (Ascii.eqb c2 "A" || Py.is_decimal c2)
      then Some (String b (String c1 (String c2 EmptyString)))
      else None
  | _ => None
  end.

(** The tail [([C-X])([A-Z][A-V])] of [MGRS_PATTERN] (no I, no O). *)
Definition mgrs_letters (s : string) : option (string * string) :=
  match s with
  | String b (String q1 (String q2 _)) =>
      if Py.char_in "CDEFGHJKLMNPQRSTUVWX" b
         && Py.char_in "ABCDEFGHJKLMNPQRSTUVWXYZ" q1
         && Py.char_in "ABCDEFGHJKLMNPQRSTUV" q2
      then Some (String b EmptyString, String q1 (String q2 EmptyString))
      else None
  | _ => None
  end.

(** [_T(\d{1,2})([C-X])([A-Z][A-V])]: the greedy [\d{1,2}] takes two
    digits first and falls back to one.  The result is [groups()]. *)
Definition MGRS_PATTERN (s : string) : option (string * string * string) :=
  match s with
  | String u (String t (String d1 rest)) =>
      if Ascii.eqb u "_" && Ascii.eqb t "T" && Py.is_decimal d1 then
        let two :=
          match rest with
          | String d2 rest2 =>
              if Py.is_decimal d2 then
                match mgrs_letters rest2 with
                | Some (b, q) =>
                    Some (String d1 (String d2 EmptyString), b, q)
                | None => None
                end
              else None
          | EmptyString => None
          end in
        match two with
        | Some g => Some g
        | None =>
            match mgrs_letters rest with
            | Some (b, q) => Some (String d1 EmptyString, b, q)
            | None => None
            end
        end
      else None
  | _ => None
  end.

(* ------------------------------------------------------------------ *)
(** ** Python dictionaries *)

Class Key (K : Type) := {
  key_eqb : K -> K -> bool;
  key_eqb_spec : forall a b, reflect (a = b) (key_eqb a b)
}.

#[export] Instance Key_string : Key string :=
  {| key_eqb := String.eqb; key_eqb_spec := String.eqb_spec |}.

#[export] Instance Key_Z : Key Z :=
  {| key_eqb := Z.eqb; key_eqb_spec := Z.eqb_spec |}.

Module Dict.

Section Ops.
Context {K V : Type} `{Key K}.

Definition t := list (K * V).

(** [d.get(k)] *)
Fixpoint get (k : K) (d : t) : option V :=
  match d with
  | [] => None
  | (k', v) :: r => if key_eqb k k' then Some v else get k r
  end.

(** [k in d] *)
Definition mem (k : K) (d : t) : bool :=
  match get k d with
  | Some _ => true
  | None => false
  end.

(** [d[k] = v]: a present key keeps its place, a new key goes last. *)
Fixpoint set (k : K) (v : V) (d : t) : t :=
  match d with
  | [] => [(k, v)]
  | (k', v') :: r =>
      if key_eqb k k' then (k, v) :: r else (k', v') :: set k v r
  end.

(** [d.pop(k, None)] *)
Fixpoint pop (k : K) (d : t) : t :=
  match d with
  | [] => []
  | (k', v') :: r => if key_eqb k k' then r else (k', v') :: pop k r
  end.

(** [d.update(pairs)] *)
Definition update (d : t) (pairs : list (K * V)) : t :=
  fold_left (fun acc kv => set (fst kv) (snd kv) acc) pairs d.

(** [dict(pairs)] *)
Definition of_pairs (pairs : list (K * V)) : t := update [] pairs.

(** [{**a, **b}] *)
Definition merge (a b : t) : t := update (of_pairs a) b.

Definition keys (d : t) : list K := map fst d.

(** [d.items()] *)
Definition items (d : t) : list (K * V) := d.

End Ops.

Arguments t : clear implicits.

End Dict.

(* ------------------------------------------------------------------ *)
(** ** Exceptions and logging *)

Inductive Exception : Type :=
| ValueError (msg : string)
| TypeError (msg : string)
| KeyError (key : string)
| IndexError
| AssertionError
| PlainException (msg : string)
| ExternalError (msg : string).

Inductive Result (A : Type) : Type :=
| Ok (a : A)
| Raise (e : Exception).

Arguments Ok {A} a.
Arguments Raise {A} e.

(** A record handed to [logger]. *)
Inductive Event : Type :=
| LogDebug (msg : string)
| LogError (msg : string).

(** A computation: its outcome and the records it logged, oldest first. *)
Definition M (A : Type) : Type := Result A * list Event.

Definition ret {A} (a : A) : M A := (Ok a, []).

Definition raise {A} (e : Exception) : M A := (Raise e, []).

Definition log (ev : Event) : M unit := (Ok tt, [ev]).

Definition lift {A} (r : Result A) : M A := (r, []).

Definition bind {A B} (m : M A) (f : A -> M B) : M B :=
  match m with
  | (Ok a, l) => let (r, l') := f a in (r, (l ++ l')%list)
  | (Raise e, l) => (Raise e, l)
  end.

Declare Scope py_scope.
Delimit Scope py_scope with py.
Notation "x <- m ;; k" := (bind m (fun x => k))
  (at level 61, m at next level, right associativity) : py_scope.
Notation "m ;;; k" := (bind m (fun _ => k))
  (at level 61, right associativity) : py_scope.
Local Open Scope py_scope.

(** A list comprehension whose element expression may raise. *)
Fixpoint map_M {A B} (f : A -> M B) (l : list A) : M (list B) :=
  match l with
  | [] => ret []
  | a :: r => b <- f a ;; bs <- map_M f r ;; ret (b :: bs)
  end.

(* ------------------------------------------------------------------ *)
(** ** The data model: pystac objects and [Metadata] *)

(** A JSON-like property value ([Any]). *)
Inductive Value : Type :=
| VNone
| VBool (b : bool)
| VInt (n : Z)
| VFloat (f : float)
| VStr (s : string)
| VStrs (l : list string)
| VDicts (l : list (Dict.t string string)).

(** [bool(v)] *)
Definition truthy (v : Value) : bool :=
  match v with
  | VNone => false
  | VBool b => b
  | VInt n => negb (n =? 0)
  | VFloat f => negb (PrimFloat.eqb f 0%float)
  | VStr s => negb (String.eqb s "")
  | VStrs l => match l with [] => false | _ => true end
  | VDicts l => match l with [] => false | _ => true end
  end.

(** [pystac.Provider], as its [to_dict()]. *)
Definition Provider := Dict.t string string.

(** [pystac.Link] *)
Record Link : Type := {
  link_rel : string;
  link_target : string;
  link_title : option string
}.

(** [pystac.extensions.eo.Band] *)
Record Band : Type := {
  band_name : string;
  band_common_name : option string;
  band_description : option string;
  band_center_wavelength : option float;
  band_full_width_half_max : option float
}.

(** [pystac.Asset] with the extension fields the module writes. *)
Record Asset : Type := {
  asset_href : string;
  asset_media_type : option string;
  asset_title : option string;
  asset_roles : option (list string);
  asset_eo_bands : option (list Band);
  asset_gsd : option Z;
  asset_proj_shape : option (list Z);
  asset_proj_bbox : option (list float);
  asset_proj_transform : option (list float)
}.

(** GeoJSON-like geometry. *)
Record Geometry : Type := {
  geom_type : string;
  geom_coordinates : list (list (float * float))
}.

(** [datetime.datetime], as a timestamp. *)
Definition Datetime := Z.

(** [pystac.Item] *)
Record Item : Type := {
  item_id : string;
  item_geometry : Geometry;
  item_bbox : list float;
  item_datetime : Datetime;
  item_properties : Dict.t string Value;
  item_stac_extensions : list string;
  item_assets : Dict.t string Asset;
  item_links : list Link
}.

(** The dataclass [Metadata]. *)
Record Metadata : Type := {
  scene_id : string;
  cloudiness_percentage : option float;
  extra_assets : Dict.t string Asset;
  geometry : Geometry;
  bbox : list float;
  datetime : Datetime;
  platform : string;
  metadata_dict : Dict.t string Value;
  image_media_type : string;
  image_paths : list string;
  epsg : option Z;
  proj_bbox : list float;
  resolution_to_shape : Dict.t Z (Z * Z);
  orbit_state : option string;
  relative_orbit : option Z
}.

(** [pystac.MediaType] *)
Module MediaType.
Definition JPEG2000 := "image/jp2".
Definition GEOTIFF := "image/tiff; application=geotiff".
Definition COG := "image/tiff; application=geotiff; profile=cloud-optimized".
Definition XML := "application/xml".
End MediaType.

(** Schema URIs of the extensions, as [Ext.ext(item, add_if_missing=True)]
    records them in [item.stac_extensions]. *)
Module Schema.
Definition EO := "https://stac-extensions.github.io/eo/v1.0.0/schema.json".
Definition SAT := "https://stac-extensions.github.io/sat/v1.0.0/schema.json".
Definition PROJECTION :=
  "https://stac-extensions.github.io/projection/v1.0.0/schema.json".
Definition VIEW := "https://stac-extensions.github.io/view/v1.0.0/schema.json".
Definition MGRS := "https://stac-extensions.github.io/mgrs/v1.0.0/schema.json".
Definition GRID := "https://stac-extensions.github.io/grid/v1.0.0/schema.json".
End Schema.

(** [pystac.extensions.sat.OrbitState(s)]: the enumeration's values. *)
Definition OrbitState (s : string) : Result string :=
  if String.eqb s "ascending" || String.eqb s "descending"
     || String.eqb s "geostationary"
  then Ok s
  else Raise (ValueError ("'" ++ s ++ "' is not a valid OrbitState")).

(** *** pystac setters *)

(** [Ext.ext(item, add_if_missing=True)] *)
Definition add_extension (uri : string) (item : Item) : Item :=
  if existsb (String.eqb uri) (item_stac_extensions item) then item
  else {| item_id := item_id item;
          item_geometry := item_geometry item;
          item_bbox := item_bbox item;
          item_datetime := item_datetime item;
          item_properties := item_properties item;
          item_stac_extensions := (item_stac_extensions item ++ [uri])%list;
          item_assets := item_assets item;
          item_links := item_links item |}.

Definition with_properties (p : Dict.t string Value) (item : Item) : Item :=
  {| item_id := item_id item;
     item_geometry := item_geometry item;
     item_bbox := item_bbox item;
     item_datetime := item_datetime item;
     item_properties := p;
     item_stac_extensions := item_stac_extensions item;
     item_assets := item_assets item;
     item_links := item_links item |}.

(** [_set_property(key, v, pop_if_none)]: [None] removes the key unless
    [pop_if_none] is false, in which case [None] is stored. *)
Definition set_property (key : string) (v : option Value) (pop_if_none : bool)
    (item : Item) : Item :=
  match v with
  | Some x => with_properties (Dict.set key x (item_properties item)) item
  | None =>
      if pop_if_none
      then with_properties (Dict.pop key (item_properties item)) item
      else with_properties (Dict.set key VNone (item_properties item)) item
  end.

(** The getter of [item.common_metadata.providers]: a new list, built from
    the dictionaries stored under [providers]. *)
Definition get_providers (item : Item) : option (list Provider) :=
  match Dict.get "providers" (item_properties item) with
  | Some (VDicts providers) => Some providers
  | _ => None
  end.

(** [item.add_asset(key, asset)] *)
Definition add_asset (key : string) (asset : Asset) (item : Item) : Item :=
  {| item_id := item_id item;
     item_geometry := item_geometry item;
     item_bbox := item_bbox item;
     item_datetime := item_datetime item;
     item_properties := item_properties item;
     item_stac_extensions := item_stac_extensions item;
     item_assets := Dict.set key asset (item_assets item);
     item_links := item_links item |}.

(** [item.links.append(link)] *)
Definition append_link (l : Link) (item : Item) : Item :=
  {| item_id := item_id item;
     item_geometry := item_geometry item;
     item_bbox := item_bbox item;
     item_datetime := item_datetime item;
     item_properties := item_properties item;
     item_stac_extensions := item_stac_extensions item;
     item_assets := item_assets item;
     item_links := (item_links item ++ [l])%list |}.

(* ------------------------------------------------------------------ *)
(** ** What the module imports from the rest of the package *)

(** [stactools.sentinel2.constants].  The tables are not part of this
    file; the development is parametric in them. *)
Record Constants : Type := {
  BANDS_TO_RESOLUTIONS : Dict.t string (list Z);
  SENTINEL_BANDS : Dict.t string Band;
  SENTINEL_PROVIDER : Provider;
  SENTINEL_LICENSE : Link;
  SENTINEL_INSTRUMENTS : list string;
  SENTINEL_CONSTELLATION : string;
  INSPIRE_METADATA_ASSET_KEY : string;
  DATASTRIP_METADATA_ASSET_KEY : string;
  L2A_IMAGE_PATHS : list string;
  L1C_IMAGE_PATHS : list string;
  s2_prefix : string
}.

(** Helper functions of other modules: [stactools.sentinel2.utils],
    [stactools.core.projection] and [shapely]. *)
Record Collaborators : Type := {
  extract_gsd : string -> option Z;
  transform_from_bbox : list float -> list Z -> Result (list float);
  reproject_geom : string -> string -> Geometry -> Result Geometry;
  (** [make_shape(g).simplify(tolerance)], read back with [mapping] *)
  simplify : Geometry -> float -> Result Geometry;
  (** [geometry.bounds] *)
  bounds : Geometry -> list float
}.

(** [ReadHrefModifier] *)
Definition ReadHrefModifier := string -> string.

(** What [SafeManifest(href, modifier)] exposes. *)
Record SafeManifest : Type := {
  product_metadata_href : string;
  granule_metadata_href : string;
  inspire_metadata_href : string;
  datastrip_metadata_href : string;
  thumbnail_href : option string;
  sm_create_asset : string * Asset
}.

(** What [ProductMetadata(href, modifier)] exposes. *)
Record ProductMetadata : Type := {
  pm_scene_id : string;
  pm_geometry : Geometry;
  pm_bbox : list float;
  pm_datetime : Datetime;
  pm_platform : string;
  pm_orbit_state : option string;
  pm_relative_orbit : option Z;
  pm_metadata_dict : Dict.t string Value;
  pm_image_media_type : string;
  pm_image_paths : list string;
  pm_create_asset : string * Asset
}.

(** What [GranuleMetadata(href, modifier)] exposes. *)
Record GranuleMetadata : Type := {
  gm_scene_id : string;
  gm_platform : string;
  gm_epsg : option Z;
  gm_proj_bbox : list float;
  gm_resolution_to_shape : Dict.t Z (Z * Z);
  gm_cloudiness_percentage : option float;
  gm_processing_baseline : Value;
  gm_metadata_dict : Dict.t string Value;
  gm_create_asset : string * Asset
}.

(** What [TileInfoMetadata(href, modifier)] exposes. *)
Record TileInfoMetadata : Type := {
  ti_geometry : Geometry;
  ti_datetime : Datetime;
  ti_metadata_dict : Dict.t string Value;
  ti_create_asset : string * Asset
}.

(** The documents behind the hrefs: each reader parses the document at an
    href, read through the optional modifier, or raises. *)
Record World : Type := {
  read_SafeManifest :
    string -> option ReadHrefModifier -> Result SafeManifest;
  read_ProductMetadata :
    string -> option ReadHrefModifier -> Result ProductMetadata;
  read_GranuleMetadata :
    string -> option ReadHrefModifier -> Result GranuleMetadata;
  read_TileInfoMetadata :
    string -> option ReadHrefModifier -> Result TileInfoMetadata
}.

(* ------------------------------------------------------------------ *)
(** ** The module *)

Section Stac.

Variable K : Constants.
Variable X : Collaborators.

(** [mk_asset_id] *)
Definition mk_asset_id (maybe_res : option Z) (name : string) : string :=
  match maybe_res with
  | Some r =>
      if negb (r =? 0) && negb (r =? 20)
      then name ++ "_" ++ Py.str_of_int r ++ "m"
      else name
  | None => name
  end.

(** The asset id of the true color image (line 292). *)
Definition visual_asset_id (maybe_res : option Z) : string :=
  match maybe_res with
  | Some r =>
      if negb (r =? 0) && negb (r =? 10)
      then "visual_" ++ Py.str_of_int r ++ "m"
      else "visual"
  | None => "visual"
  end.

(** [SENTINEL_BANDS[band_id]] *)
Definition sentinel_band (band_id : string) : Result Band :=
  match Dict.get band_id (SENTINEL_BANDS K) with
  | Some b => Ok b
  | None => Raise (KeyError band_id)
  end.

(** [BANDS_TO_RESOLUTIONS[band_id][0]] *)
Definition native_resolution (band_id : string) : Result Z :=
  match Dict.get band_id (BANDS_TO_RESOLUTIONS K) with
  | Some (r :: _) => Ok r
  | Some [] => Raise IndexError
  | None => Raise (KeyError band_id)
  end.

(** [[SENTINEL_BANDS['B04'], SENTINEL_BANDS['B03'], SENTINEL_BANDS['B02']]] *)
Definition rgb_bands : Result (list Band) :=
  match sentinel_band "B04" with
  | Raise e => Raise e
  | Ok r =>
      match sentinel_band "B03" with
      | Raise e => Raise e
      | Ok g =>
          match sentinel_band "B02" with
          | Raise e => Raise e
          | Ok b => Ok [r; g; b]
          end
      end
  end.

(** Lines 188-198: the media type of the asset. *)
Definition resolve_media_type (href : string) (media_type : option string)
  : Result string :=
  let ext := snd (Py.splitext href) in
  match media_type with
  | Some m => Ok m
  | None =>
      if String.eqb (Py.lower ext) ".jp2" then Ok MediaType.JPEG2000
      else if String.eqb (Py.lower ext) ".tiff"
              || String.eqb (Py.lower ext) ".tif"
      then Ok MediaType.GEOTIFF
      else Raise (PlainException
                    ("Must supply a media type for asset : " ++ href))
  end.

(** Lines 214-222: the resolution of the raster, [None] when neither the
    file name, nor a band id, nor a TCI marker gives one. *)
Definition detect_resolution (href : string) : Result (option Z) :=
  match extract_gsd X href with
  | Some r => Ok (Some r)
  | None =>
      match Re.search BAND_PATTERN href with
      | Some g =>
          match native_resolution g with
          | Ok r => Ok (Some r)
          | Raise e => Raise e
          end
      | None =>
          if Re.matches IS_TCI_PATTERN href then Ok (Some 10) else Ok None
      end
  end.

(** Line 224: [list(resolution_to_shape[int(resolution)])], together with
    the resolution as the integer it is from here on. *)
Definition lookup_shape (rts : Dict.t Z (Z * Z)) (resolution : option Z)
  : Result (Z * list Z) :=
  match resolution with
  | None =>
      Raise (TypeError
        "int() argument must be a string, a bytes-like object or a real number, not 'NoneType'")
  | Some r =>
      match Dict.get r rts with
      | Some (rows, cols) => Ok (r, [rows; cols])
      | None => Raise (KeyError (Py.str_of_int r))
      end
  end.

(** The asset every branch starts from: [pystac.Asset(href, media_type,
    title, roles)]. *)
Definition new_asset (href media_type title : string) (roles : list string)
  : Asset :=
  {| asset_href := href;
     asset_media_type := Some media_type;
     asset_title := Some title;
     asset_roles := Some roles;
     asset_eo_bands := None;
     asset_gsd := None;
     asset_proj_shape := None;
     asset_proj_bbox := None;
     asset_proj_transform := None |}.

(** [EOExtension.ext(asset).bands = bands] *)
Definition set_eo_bands (bands : list Band) (a : Asset) : Asset :=
  {| asset_href := asset_href a;
     asset_media_type := asset_media_type a;
     asset_title := asset_title a;
     asset_roles := asset_roles a;
     asset_eo_bands := Some bands;
     asset_gsd := asset_gsd a;
     asset_proj_shape := asset_proj_shape a;
     asset_proj_bbox := asset_proj_bbox a;
     asset_proj_transform := asset_proj_transform a |}.

(** The local function [set_asset_properties]; [shape], [proj_bbox] and
    [transform] are the variables it closes over. *)
Definition set_asset_properties (shape : list Z) (proj_bbox transform : list float)
    (a : Asset) (band_gsd : option Z) : Asset :=
  {| asset_href := asset_href a;
     asset_media_type := asset_media_type a;
     asset_title := asset_title a;
     asset_roles := asset_roles a;
     asset_eo_bands := asset_eo_bands a;
     asset_gsd :=
       match band_gsd with
       | Some g => if g =? 0 then asset_gsd a else Some g
       | None => asset_gsd a
       end;
     asset_proj_shape := Some shape;
     asset_proj_bbox := Some proj_bbox;
     asset_proj_transform := Some transform |}.

(** Lines 240-248: the band id, the resolution of the asset and the band,
    with the Level-1C fallback of the [except KeyError] clause. *)
Definition band_of_href (href group1 : string) (resolution : Z)
  : Result (string * Z * Band) :=
  match Dict.get group1 (SENTINEL_BANDS K) with
  | Some band => Ok (group1, resolution, band)
  | None =>
      let band_id := Py.split_last "_" (fst (Py.splitext href)) in
      match sentinel_band band_id with
      | Raise e => Raise e
      | Ok band =>
          match native_resolution group1 with
          | Raise e => Raise e
          | Ok asset_res => Ok (band_id, asset_res, band)
          end
      end
  end.

(** Lines 257-266: the key and the ground sample distance of a band. *)
Definition band_key_gsd (band_id : string) (asset_res native : Z)
  : string * option Z :=
  if asset_res =? native
  then (band_id, Some asset_res)
  else (band_id ++ "_" ++ Py.str_of_int asset_res ++ "m", None).

(** Lines 239-276: the band branch. *)
Definition band_asset (href media_type group1 : string) (resolution : Z)
    (shape : list Z) (proj_bbox transform : list float)
  : Result (string * Asset) :=
  match band_of_href href group1 resolution with
  | Raise e => Raise e
  | Ok (band_id, asset_res, band) =>
      match native_resolution band_id with
      | Raise e => Raise e
      | Ok native =>
          let (asset_key, band_gsd) := band_key_gsd band_id asset_res native in
          let asset :=
            new_asset href media_type
              (Py.format_opt_str (band_description band) ++ " - "
                 ++ Py.str_of_int asset_res ++ "m")
              ["data"] in
          let asset := set_eo_bands [band] asset in
          Ok (asset_key,
              set_asset_properties shape proj_bbox transform asset band_gsd)
      end
  end.

(** Lines 279-328: the auxiliary images, once no band id was found. *)
Definition auxiliary_asset (href media_type : string)
    (shape : list Z) (proj_bbox transform : list float)
  : Result (string * Asset) :=
  if Re.matches TCI_PATTERN href then
    match rgb_bands with
    | Raise e => Raise e
    | Ok bands =>
        let asset := new_asset href media_type "True color image" ["visual"] in
        let asset := set_eo_bands bands asset in
        Ok (visual_asset_id (extract_gsd X href),
            set_asset_properties shape proj_bbox transform asset None)
    end
  else if Re.matches AOT_PATTERN href then
    let asset :=
      new_asset href media_type "Aerosol optical thickness (AOT)" ["data"] in
    Ok (mk_asset_id (extract_gsd X href) "AOT",
        set_asset_properties shape proj_bbox transform asset None)
  else if Re.matches WVP_PATTERN href then
    let asset := new_asset href media_type "Water vapour (WVP)" ["data"] in
    Ok (mk_asset_id (extract_gsd X href) "WVP",
        set_asset_properties shape proj_bbox transform asset None)
  else if Re.matches SCL_PATTERN href then
    let asset :=
      new_asset href media_type "Scene classification map (SCL)" ["data"] in
    Ok (mk_asset_id (extract_gsd X href) "SCL",
        set_asset_properties shape proj_bbox transform asset None)
  else Raise (ValueError ("Unexpected asset: " ++ href)).

(** Lines 202-211: the preview image. *)
Definition preview_asset (href media_type : string)
  : Result (string * Asset) :=
  match rgb_bands with
  | Raise e => Raise e
  | Ok bands =>
      Ok ("preview",
          set_eo_bands bands
            (new_asset href media_type "True color preview" ["data"]))
  end.

(** Lines 213-225: the resolution, the shape and the transform. *)
Definition projection_info (href : string) (rts : Dict.t Z (Z * Z))
    (proj_bbox : list float) : Result (Z * list Z * list float) :=
  match detect_resolution href with
  | Raise e => Raise e
  | Ok resolution =>
      match lookup_shape rts resolution with
      | Raise e => Raise e
      | Ok (r, shape) =>
          match transform_from_bbox X proj_bbox shape with
          | Raise e => Raise e
          | Ok transform => Ok (r, shape, transform)
          end
      end
  end.

(** [image_asset_from_href] *)
Definition image_asset_from_href (href : string) (rts : Dict.t Z (Z * Z))
    (proj_bbox : list float) (media_type : option string)
  : M (string * Asset) :=
  log (LogDebug ("Creating asset for image " ++ href)) ;;;
  asset_media_type <- lift (resolve_media_type href media_type) ;;
  if Py.contains "_PVI" href then lift (preview_asset href asset_media_type)
  else
    info <- lift (projection_info href rts proj_bbox) ;;
    let '(resolution, shape, transform) := info in
    match Re.search BAND_ID_PATTERN href with
    | Some group1 =>
        lift (band_asset href asset_media_type group1 resolution
                shape proj_bbox transform)
    | None =>
        lift (auxiliary_asset href asset_media_type shape proj_bbox transform)
    end.

(** [metadata_from_safe_manifest] *)
Definition metadata_from_safe_manifest (W : World) (granule_href : string)
    (read_href_modifier : option ReadHrefModifier) : Result Metadata :=
  match read_SafeManifest W granule_href read_href_modifier with
  | Raise e => Raise e
  | Ok safe_manifest =>
  match read_ProductMetadata W (product_metadata_href safe_manifest)
          read_href_modifier with
  | Raise e => Raise e
  | Ok product_metadata =>
  match read_GranuleMetadata W (granule_metadata_href safe_manifest)
          read_href_modifier with
  | Raise e => Raise e
  | Ok granule_metadata =>
      let extra_assets :=
        Dict.of_pairs
          [ sm_create_asset safe_manifest;
            pm_create_asset product_metadata;
            gm_create_asset granule_metadata;
            (INSPIRE_METADATA_ASSET_KEY K,
             {| asset_href := inspire_metadata_href safe_manifest;
                asset_media_type := Some MediaType.XML;
                asset_title := None;
                asset_roles := Some ["metadata"];
                asset_eo_bands := None; asset_gsd := None;
                asset_proj_shape := None; asset_proj_bbox := None;
                asset_proj_transform := None |});
            (DATASTRIP_METADATA_ASSET_KEY K,
             {| asset_href := datastrip_metadata_href safe_manifest;
                asset_media_type := Some MediaType.XML;
                asset_title := None;
                asset_roles := Some ["metadata"];
                asset_eo_bands := None; asset_gsd := None;
                asset_proj_shape := None; asset_proj_bbox := None;
                asset_proj_transform := None |}) ] in
      let extra_assets :=
        match thumbnail_href safe_manifest with
        | Some href =>
            Dict.set "preview"
              {| asset_href := href;
                 asset_media_type := Some MediaType.COG;
                 asset_title := None;
                 asset_roles := Some ["thumbnail"];
                 asset_eo_bands := None; asset_gsd := None;
                 asset_proj_shape := None; asset_proj_bbox := None;
                 asset_proj_transform := None |}
              extra_assets
        | None => extra_assets
        end in
      Ok {| scene_id := pm_scene_id product_metadata;
            extra_assets := extra_assets;
            geometry := pm_geometry product_metadata;
            bbox := pm_bbox product_metadata;
            datetime := pm_datetime product_metadata;
            platform := pm_platform product_metadata;
            orbit_state := pm_orbit_state product_metadata;
            relative_orbit := pm_relative_orbit product_metadata;
            metadata_dict :=
              Dict.merge (pm_metadata_dict product_metadata)
                         (gm_metadata_dict granule_metadata);
            image_media_type := pm_image_media_type product_metadata;
            image_paths := pm_image_paths product_metadata;
            cloudiness_percentage := gm_cloudiness_percentage granule_metadata;
            epsg := gm_epsg granule_metadata;
            proj_bbox := gm_proj_bbox granule_metadata;
            resolution_to_shape := gm_resolution_to_shape granule_metadata |}
  end end end.

(** [metadata_from_granule_metadata] *)
Definition metadata_from_granule_metadata (W : World)
    (granule_metadata_href : string)
    (read_href_modifier : option ReadHrefModifier) (tolerance : float)
  : Result Metadata :=
  match read_GranuleMetadata W
          (Py.path_join granule_metadata_href "metadata.xml")
          read_href_modifier with
  | Raise e => Raise e
  | Ok granule_metadata =>
  match read_TileInfoMetadata W
          (Py.path_join granule_metadata_href "tileInfo.json")
          read_href_modifier with
  | Raise e => Raise e
  | Ok tileinfo_metadata =>
  match reproject_geom X
          ("epsg:" ++ Py.format_opt_int (gm_epsg granule_metadata))
          "epsg:4326" (ti_geometry tileinfo_metadata) with
  | Raise e => Raise e
  | Ok reprojected =>
  match simplify X reprojected tolerance with
  | Raise e => Raise e
  | Ok geometry =>
      let extra_assets :=
        Dict.of_pairs [ gm_create_asset granule_metadata;
                        ti_create_asset tileinfo_metadata ] in
      let image_paths :=
        if Py.contains "_L2A_" (gm_scene_id granule_metadata)
        then L2A_IMAGE_PATHS K else L1C_IMAGE_PATHS K in
      Ok {| scene_id := gm_scene_id granule_metadata;
            extra_assets := extra_assets;
            metadata_dict :=
              Dict.set (s2_prefix K ++ ":processing_baseline")
                (gm_processing_baseline granule_metadata)
                (Dict.merge (gm_metadata_dict granule_metadata)
                            (ti_metadata_dict tileinfo_metadata));
            cloudiness_percentage := gm_cloudiness_percentage granule_metadata;
            epsg := gm_epsg granule_metadata;
            proj_bbox := gm_proj_bbox granule_metadata;
            resolution_to_shape := gm_resolution_to_shape granule_metadata;
            geometry := geometry;
            bbox := bounds X geometry;
            datetime := ti_datetime tileinfo_metadata;
            platform := gm_platform granule_metadata;
            image_media_type := MediaType.JPEG2000;
            image_paths := image_paths;
            orbit_state := None;
            relative_orbit := None |}
  end end end end.

(** Lines 89-95: the choice of the reader. *)
Definition read_metadata (W : World) (granule_href : string)
    (tolerance : float) (read_href_modifier : option ReadHrefModifier)
  : Result Metadata :=
  if Py.endswith (Py.lower granule_href) ".safe"
  then metadata_from_safe_manifest W granule_href read_href_modifier
  else metadata_from_granule_metadata W granule_href read_href_modifier
         tolerance.

(** *** The stages of [create_item] *)

(** Lines 97-101: [pystac.Item(id, geometry, bbox, datetime, properties={})] *)
Definition new_item (metadata : Metadata) : Item :=
  {| item_id := scene_id metadata;
     item_geometry := geometry metadata;
     item_bbox := bbox metadata;
     item_datetime := datetime metadata;
     item_properties := [];
     item_stac_extensions := [];
     item_assets := [];
     item_links := [] |}.

(** Lines 105-112: the common metadata.  The setter of line 105 stores the
    providers in the properties of the item; line 108 reads them back
    through the getter, which builds a new list, and extends that list: the
    properties of the item are not written again. *)
Definition common_metadata_stage (additional_providers : option (list Provider))
    (metadata : Metadata) (item : Item) : Item :=
  let item :=
    set_property "providers" (Some (VDicts [SENTINEL_PROVIDER K])) true item in
  let _extended :=
    match additional_providers with
    | Some more =>
        option_map (fun providers => (providers ++ more)%list)
          (get_providers item)
    | None => None
    end in
  let item :=
    set_property "platform" (Some (VStr (Py.lower (platform metadata)))) true
      item in
  let item :=
    set_property "constellation" (Some (VStr (SENTINEL_CONSTELLATION K))) true
      item in
  set_property "instruments" (Some (VStrs (SENTINEL_INSTRUMENTS K))) true item.

(** Lines 117-118: the [eo] extension. *)
Definition eo_stage (metadata : Metadata) (item : Item) : Item :=
  let item := add_extension Schema.EO item in
  set_property "eo:cloud_cover"
    (option_map VFloat (cloudiness_percentage metadata)) true item.

(** The truth value of an [Optional[str]] and of an [Optional[int]]. *)
Definition truthy_str (x : option string) : bool :=
  match x with
  | Some s => negb (String.eqb s "")
  | None => false
  end.

Definition truthy_int (x : option Z) : bool :=
  match x with
  | Some n => negb (n =? 0)
  | None => false
  end.

(** Lines 121-125: the [sat] extension. *)
Definition sat_stage (metadata : Metadata) (item : Item) : Result Item :=
  if truthy_str (orbit_state metadata) || truthy_int (relative_orbit metadata)
  then
    let item := add_extension Schema.SAT item in
    let state :=
      match orbit_state metadata with
      | Some s =>
          if negb (String.eqb s "") then
            match OrbitState (Py.lower s) with
            | Ok v => Ok (Some (VStr v))
            | Raise e => Raise e
            end
          else Ok None
      | None => Ok None
      end in
    match state with
    | Raise e => Raise e
    | Ok v =>
        let item := set_property "sat:orbit_state" v true item in
        Ok (set_property "sat:relative_orbit"
              (option_map VInt (relative_orbit metadata)) true item)
    end
  else Ok item.

(** Lines 128-133: the [proj] extension; a missing EPSG code is fatal. *)
Definition proj_stage (granule_href : string) (metadata : Metadata)
    (item : Item) : Result Item :=
  let item := add_extension Schema.PROJECTION item in
  let item :=
    set_property "proj:epsg" (option_map VInt (epsg metadata)) false item in
  match Dict.get "proj:epsg" (item_properties item) with
  | None | Some VNone =>
      Raise (ValueError ("Could not determine EPSG code for " ++ granule_href
                         ++ "; which is required."))
  | Some _ => Ok item
  end.

(** The message of line 145. *)
Definition mgrs_error_message (scene : string) : string :=
  "Error populating MGRS and Grid Extensions fields from ID: " ++ scene.

(** Line 143: the grid code. *)
Definition grid_code (utm_zone : Z) (latitude_band grid_square : string)
  : string :=
  "MGRS-" ++ Py.str_of_int utm_zone ++ latitude_band ++ grid_square.

(** Modelled from the spec: the MGRS and grid extensions
    ([stactools.sentinel2.mgrs], [stactools.sentinel2.grid]) are not in this
    file; their setters are taken to store the property groups
    "grid/MGRS fields parsed from the scene id" under the extensions' names,
    without further checks. *)
Definition set_mgrs (utm_zone : Z) (latitude_band grid_square : string)
    (item : Item) : Item :=
  let item := add_extension Schema.MGRS item in
  let item := set_property "mgrs:utm_zone" (Some (VInt utm_zone)) true item in
  let item :=
    set_property "mgrs:latitude_band" (Some (VStr latitude_band)) false item in
  set_property "mgrs:grid_square" (Some (VStr grid_square)) false item.

(** Modelled from the spec: the grid extension ([stactools.sentinel2.grid])
    is not in this file; its setter is taken to store the "grid code" under
    the extension's name. *)
Definition set_grid (code : string) (item : Item) : Item :=
  let item := add_extension Schema.GRID item in
  set_property "grid:code" (Some (VStr code)) false item.

(** Lines 136-147: the MGRS and grid extensions. *)
Definition mgrs_stage (metadata : Metadata) (item : Item) : M Item :=
  match Re.search MGRS_PATTERN (scene_id metadata) with
  | Some (g0, g1, g2) =>
      match Py.int_of_str g0 with
      | None =>
          raise (ValueError
                   ("invalid literal for int() with base 10: '" ++ g0 ++ "'"))
      | Some utm_zone =>
          let item := set_mgrs utm_zone g1 g2 item in
          ret (set_grid (grid_code utm_zone g1 g2) item)
      end
  | None =>
      log (LogError (mgrs_error_message (scene_id metadata))) ;;;
      ret item
  end.

(** [90 - msz] *)
Definition sun_elevation (msz : Value) : Result Value :=
  match msz with
  | VInt n => Ok (VInt (90 - n))
  | VBool b => Ok (VInt (90 - (if b then 1 else 0)))
  | VFloat f => Ok (VFloat (PrimFloat.sub 90%float f))
  | _ => Raise (TypeError "unsupported operand type(s) for -")
  end.

(** Lines 150-154: the [view] extension. *)
Definition view_stage (metadata : Metadata) (item : Item) : Result Item :=
  let item := add_extension Schema.VIEW item in
  let azimuth :=
    match Dict.get (s2_prefix K ++ ":mean_solar_azimuth")
            (metadata_dict metadata) with
    | Some VNone | None => None
    | Some v => Some v
    end in
  let item := set_property "view:sun_azimuth" azimuth true item in
  match Dict.get (s2_prefix K ++ ":mean_solar_zenith")
          (metadata_dict metadata) with
  | Some msz =>
      if truthy msz then
        match sun_elevation msz with
        | Raise e => Raise e
        | Ok v => Ok (set_property "view:sun_elevation" (Some v) true item)
        end
      else Ok item
  | None => Ok item
  end.

(** Line 157: [item.properties.update(metadata.metadata_dict)] *)
Definition properties_stage (metadata : Metadata) (item : Item) : Item :=
  with_properties
    (Dict.update (item_properties item) (Dict.items (metadata_dict metadata)))
    item.

(** Lines 161-167: one asset for each image path, collected by [dict]. *)
Definition image_assets_stage (granule_href : string)
    (asset_href_prefix : option string) (metadata : Metadata)
  : M (Dict.t string Asset) :=
  let base :=
    match asset_href_prefix with
    | Some p => if negb (String.eqb p "") then p else granule_href
    | None => granule_href
    end in
  pairs <- map_M (fun image_path =>
                    image_asset_from_href (Py.path_join base image_path)
                      (resolution_to_shape metadata) (proj_bbox metadata)
                      (Some (image_media_type metadata)))
             (image_paths metadata) ;;
  ret (Dict.of_pairs pairs).

(** Lines 169-172: every asset is added under a key not yet in use. *)
Fixpoint add_assets (entries : list (string * Asset)) (item : Item)
  : Result Item :=
  match entries with
  | [] => Ok item
  | (key, asset) :: rest =>
      if Dict.mem key (item_assets item) then Raise AssertionError
      else add_assets rest (add_asset key asset item)
  end.

(** Lines 114-157: the extensions and the properties of the scene. *)
Definition extensions_stage (granule_href : string) (metadata : Metadata)
    (item : Item) : M Item :=
  let item := eo_stage metadata item in
  item <- lift (sat_stage metadata item) ;;
  item <- lift (proj_stage granule_href metadata item) ;;
  item <- mgrs_stage metadata item ;;
  item <- lift (view_stage metadata item) ;;
  ret (properties_stage metadata item).

(** What [create_item] does with the metadata it has read. *)
Definition assemble (granule_href : string)
    (additional_providers : option (list Provider))
    (asset_href_prefix : option string) (metadata : Metadata) : M Item :=
  let item := new_item metadata in
  let item := common_metadata_stage additional_providers metadata item in
  item <- extensions_stage granule_href metadata item ;;
  image_assets <- image_assets_stage granule_href asset_href_prefix metadata ;;
  item <- lift (add_assets (Dict.items image_assets
                              ++ Dict.items (extra_assets metadata))%list
                  item) ;;
  ret (append_link (SENTINEL_LICENSE K) item).

(** [create_item] *)
Definition create_item (W : World) (granule_href : string) (tolerance : float)
    (additional_providers : option (list Provider))
    (read_href_modifier : option ReadHrefModifier)
    (asset_href_prefix : option string) : M Item :=
  metadata <- lift (read_metadata W granule_href tolerance read_href_modifier) ;;
  assemble granule_href additional_providers asset_href_prefix metadata.

End Stac.

Arguments mk_asset_id maybe_res name : simpl never.
Arguments visual_asset_id maybe_res : simpl never.

(* ------------------------------------------------------------------ *)
(** ** The precedence of the classifier, as the specification words it *)

Inductive AssetKind : Type :=
| Preview
| BandImage
| TrueColor
| Aerosol
| WaterVapour
| Classification.

(** "Evaluated in this precedence order (first match wins)". *)
Definition classification_rules : list ((string -> bool) * AssetKind) :=
  [ (Py.contains "_PVI", Preview);
    (Re.matches BAND_ID_PATTERN, BandImage);
    (Re.matches TCI_PATTERN, TrueColor);
    (Re.matches AOT_PATTERN, Aerosol);
    (Re.matches WVP_PATTERN, WaterVapour);
    (Re.matches SCL_PATTERN, Classification) ].

Definition first_match (href : string) : option AssetKind :=
  option_map snd (find (fun rule => fst rule href) classification_rules).

(** "Key is the bare semantic name unless the detected resolution differs
    from that product's default resolution, in which case append
    [_{resolution}m]". *)
Definition auxiliary_name (kind : AssetKind) : string :=
  match kind with
  | TrueColor => "visual"
  | Aerosol => "AOT"
  | WaterVapour => "WVP"
  | Classification => "SCL"
  | Preview => "preview"
  | BandImage => ""
  end.

Definition default_resolution (kind : AssetKind) : Z :=
  match kind with
  | TrueColor => 10
  | _ => 20
  end.

Definition is_auxiliary (kind : AssetKind) : bool :=
  match kind with
  | TrueColor | Aerosol | WaterVapour | Classification => true
  | Preview | BandImage => false
  end.

Definition spec_auxiliary_key (kind : AssetKind) (maybe_res : option Z)
  : string :=
  match maybe_res with
  | None => auxiliary_name kind
  | Some r =>
      if r =? default_resolution kind then auxiliary_name kind
      else auxiliary_name kind ++ "_" ++ Py.str_of_int r ++ "m"
  end.

(** The rule as lines 292 and 332 apply it: the resolution is tested for
    truth, so a resolution of 0 is taken for a missing one. *)
Definition auxiliary_key (kind : AssetKind) (maybe_res : option Z) : string :=
  if truthy_int maybe_res then spec_auxiliary_key kind maybe_res
  else auxiliary_name kind.

(** What the asset of each kind looks like. *)
Definition built_as (kind : AssetKind) (key : string) (asset : Asset) : Prop :=
  match kind with
  | Preview =>
      key = "preview" /\ asset_title asset = Some "True color preview"
      /\ asset_roles asset = Some ["data"] /\ asset_proj_shape asset = None
  | BandImage =>
      (exists band, asset_eo_bands asset = Some [band])
      /\ asset_roles asset = Some ["data"] /\ asset_proj_shape asset <> None
  | TrueColor =>
      asset_title asset = Some "True color image"
      /\ asset_roles asset = Some ["visual"] /\ asset_proj_shape asset <> None
  | Aerosol =>
      asset_title asset = Some "Aerosol optical thickness (AOT)"
      /\ asset_roles asset = Some ["data"] /\ asset_proj_shape asset <> None
  | WaterVapour =>
      asset_title asset = Some "Water vapour (WVP)"
      /\ asset_roles asset = Some ["data"] /\ asset_proj_shape asset <> None
  | Classification =>
      asset_title asset = Some "Scene classification map (SCL)"
      /\ asset_roles asset = Some ["data"] /\ asset_proj_shape asset <> None
  end.

(** An error of a lookup in the band tables of the constants. *)
Definition table_error (e : Exception) : Prop :=
  (exists k, e = KeyError k) \/ e = IndexError.

(** The log record every call of the classifier starts with. *)
Definition classifier_call (href : string) : Event :=
  LogDebug ("Creating asset for image " ++ href).

(** [str(int(digits))] on the one or two digits of a UTM zone: a leading
    zero is dropped. *)
Definition unpadded (digits : string) : string :=
  match digits with
  | String "0" (String d EmptyString) => String d EmptyString
  | _ => digits
  end.

(** The property keys of the stages of [create_item]. *)
Definition common_keys : list string :=
  ["providers"; "platform"; "constellation"; "instruments"].

Definition sat_keys : list string := ["sat:orbit_state"; "sat:relative_orbit"].

Definition view_keys : list string := ["view:sun_azimuth"; "view:sun_elevation"].

Definition mgrs_keys : list string :=
  ["mgrs:utm_zone"; "mgrs:latitude_band"; "mgrs:grid_square"; "grid:code"].

(** The exception of line 131. *)
Definition epsg_error (granule_href : string) : Exception :=
  ValueError ("Could not determine EPSG code for " ++ granule_href
              ++ "; which is required.").

(** What a stage leaves alone: the assets, and the properties and
    extensions other than its own. *)
Record frame (own_keys own_extensions : list string) (item item' : Item)
  : Prop := {
  frame_assets : item_assets item' = item_assets item;
  frame_properties :
    forall k, ~ In k own_keys ->
      Dict.get k (item_properties item') = Dict.get k (item_properties item);
  frame_extensions :
    forall u, In u (item_stac_extensions item') ->
      In u own_extensions \/ In u (item_stac_extensions item);
  frame_extensions_kept :
    forall u, In u (item_stac_extensions item) ->
      In u (item_stac_extensions item')
}.

Arguments frame_assets {own_keys own_extensions item item'}.
Arguments frame_properties {own_keys own_extensions item item'}.
Arguments frame_extensions {own_keys own_extensions item item'}.
Arguments frame_extensions_kept {own_keys own_extensions item item'}.

(** The fields common to the assets of the branches that carry a
    projection. *)
Definition projected (href amt : string) (shape : list Z)
    (bbox tr : list float) (asset : Asset) : Prop :=
  asset_href asset = href
  /\ asset_media_type asset = Some amt
  /\ asset_proj_shape asset = Some shape
  /\ asset_proj_bbox asset = Some bbox
  /\ asset_proj_transform asset = Some tr.

(** Lines 163-164: the href the image paths are joined to. *)
Definition asset_base (granule_href : string)
    (asset_href_prefix : option string) : string :=
  match asset_href_prefix with
  | Some p => if negb (String.eqb p "") then p else granule_href
  | None => granule_href
  end.

(** The fields of an item the stages never write after its creation. *)
Definition same_scene (item item' : Item) : Prop :=
  item_id item' = item_id item
  /\ item_geometry item' = item_geometry item
  /\ item_bbox item' = item_bbox item
  /\ item_datetime item' = item_datetime item
  /\ item_links item' = item_links item.

(** The extensions of an item, in the order the stages add them. *)
Definition expected_extensions (md : Metadata) : list string :=
  ([Schema.EO]
   ++ (if truthy_str (orbit_state md) || truthy_int (relative_orbit md)
       then [Schema.SAT] else [])
   ++ [Schema.PROJECTION]
   ++ match Re.search MGRS_PATTERN (scene_id md) with
      | Some _ => [Schema.MGRS; Schema.GRID]
      | None => []
      end
   ++ [Schema.VIEW])%list.

(* ------------------------------------------------------------------ *)
(** ** A sample scene

    Concrete tables, helpers and documents on which the definitions can be
    run. *)

Module Sample.

Definition band (name common description : string) : Band :=
  {| band_name := name;
     band_common_name := Some common;
     band_description := Some description;
     band_center_wavelength := None;
     band_full_width_half_max := None |}.

Definition constants : Constants :=
  {| BANDS_TO_RESOLUTIONS :=
       [ ("B02", [10; 20; 60]); ("B03", [10; 20; 60]);
         ("B04", [10; 20; 60]); ("B05", [20; 60]); ("B8A", [20; 60]) ];
     SENTINEL_BANDS :=
       [ ("B02", band "B02" "blue" "Band 2 - Blue");
         ("B03", band "B03" "green" "Band 3 - Green");
         ("B04", band "B04" "red" "Band 4 - Red");
         ("B05", band "B05" "rededge" "Band 5 - Vegetation red edge 1");
         ("B8A", band "B8A" "rededge" "Band 8A - Vegetation red edge 4") ];
     SENTINEL_PROVIDER := [("name", "ESA"); ("url", "https://earth.esa.int")];
     SENTINEL_LICENSE :=
       {| link_rel := "license";
          link_target := "https://sentinel.esa.int/documents/legal-notice";
          link_title := None |};
     SENTINEL_INSTRUMENTS := ["msi"];
     SENTINEL_CONSTELLATION := "sentinel-2";
     INSPIRE_METADATA_ASSET_KEY := "inspire-metadata";
     DATASTRIP_METADATA_ASSET_KEY := "datastrip-metadata";
     L2A_IMAGE_PATHS := ["R10m/B02.jp2"; "R20m/SCL.jp2"];
     L1C_IMAGE_PATHS := ["B02.jp2"];
     s2_prefix := "s2" |}.

(** [\d\dm] at a fixed position. *)
Definition resolution_tag (s : string) : option Z :=
  match s with
  | String d1 (String d2 (String m _)) =>
      if Py.is_decimal d1 && Py.is_decimal d2 && Ascii.eqb m "m"
      then Py.int_of_str (String d1 (String d2 EmptyString))
      else None
  | _ => None
  end.

(** Modelled from the spec: [extract_gsd] of [stactools.sentinel2.utils] is
    not in this file.  The resolution is parsed "from the filename if an
    explicit resolution tag is embedded (10m/20m/60m style)": the leftmost
    two decimal digits followed by [m]. *)
Definition utils_extract_gsd (image_path : string) : option Z :=
  Re.search resolution_tag image_path.

Definition float_of_Z (n : Z) : float := PrimFloat.of_uint63 (Uint63.of_Z n).

(** Modelled from the spec: [transform_from_bbox] of
    [stactools.core.projection] is not in this file.  "Standard north-up
    raster transform: [(bbox_width/cols, 0, bbox_minx, 0, -bbox_height/rows,
    bbox_maxy)]". *)
Definition core_transform_from_bbox (bbox : list float) (shape : list Z)
  : Result (list float) :=
  match bbox, shape with
  | [minx; miny; maxx; maxy], [rows; cols] =>
      Ok [ ((maxx - minx) / float_of_Z cols)%float; 0%float; minx;
           0%float; (- ((maxy - miny) / float_of_Z rows))%float; maxy ]
  | _, _ => Raise (ValueError "not enough values to unpack")
  end.

Definition collaborators : Collaborators :=
  {| extract_gsd := utils_extract_gsd;
     transform_from_bbox := core_transform_from_bbox;
     reproject_geom := fun _ _ g => Ok g;
     simplify := fun g _ => Ok g;
     bounds := fun _ => [0%float; 0%float; 1%float; 1%float] |}.

Definition footprint : Geometry :=
  {| geom_type := "Polygon";
     geom_coordinates :=
       [[ (0%float, 0%float); (1%float, 0%float); (1%float, 1%float);
          (0%float, 1%float); (0%float, 0%float) ]] |}.

Definition metadata_asset (href : string) : Asset :=
  {| asset_href := href;
     asset_media_type := Some MediaType.XML;
     asset_title := None;
     asset_roles := Some ["metadata"];
     asset_eo_bands := None; asset_gsd := None;
     asset_proj_shape := None; asset_proj_bbox := None;
     asset_proj_transform := None |}.

Definition safe_href :=
  "S2A_MSIL2A_20160327T204522_N0212_R128_T01CCV_20210214T042702.SAFE".

Definition manifest (thumbnail : option string) : SafeManifest :=
  {| product_metadata_href := "MTD_MSIL2A.xml";
     granule_metadata_href := "GRANULE/MTD_TL.xml";
     inspire_metadata_href := "INSPIRE.xml";
     datastrip_metadata_href := "DATASTRIP/MTD_DS.xml";
     thumbnail_href := thumbnail;
     sm_create_asset := ("safe-manifest", metadata_asset "manifest.safe") |}.

Definition product (scene : string) (orbit : option string)
    (relative : option Z) (paths : list string) : ProductMetadata :=
  {| pm_scene_id := scene;
     pm_geometry := footprint;
     pm_bbox := [0%float; 0%float; 1%float; 1%float];
     pm_datetime := 1459111522;
     pm_platform := "Sentinel-2A";
     pm_orbit_state := orbit;
     pm_relative_orbit := relative;
     pm_metadata_dict := [("s2:product_type", VStr "S2MSI2A")];
     pm_image_media_type := MediaType.JPEG2000;
     pm_image_paths := paths;
     pm_create_asset := ("product-metadata", metadata_asset "MTD_MSIL2A.xml") |}.

Definition granule (code : option Z) : GranuleMetadata :=
  {| gm_scene_id := "S2A_OPER_MSI_L2A_TL_T01CCV_N02.12";
     gm_platform := "Sentinel-2A";
     gm_epsg := code;
     gm_proj_bbox := [300000%float; 1990200%float; 409800%float; 2100000%float];
     gm_resolution_to_shape :=
       [(10, (10980, 10980)); (20, (5490, 5490)); (60, (1830, 1830))];
     gm_cloudiness_percentage := Some 12.5%float;
     gm_processing_baseline := VStr "02.12";
     gm_metadata_dict := [("s2:mean_solar_zenith", VFloat 60%float)];
     gm_create_asset := ("granule-metadata", metadata_asset "GRANULE/MTD_TL.xml") |}.

Definition missing {A : Type} (href : string) : Result A :=
  Raise (ExternalError ("No such file: " ++ href)).

(** A SAFE archive at [safe_href]. *)
Definition world (m : SafeManifest) (p : ProductMetadata) (g : GranuleMetadata)
  : World :=
  {| read_SafeManifest := fun href _ =>
       if String.eqb href safe_href then Ok m else missing href;
     read_ProductMetadata := fun href _ =>
       if String.eqb href (product_metadata_href m) then Ok p else missing href;
     read_GranuleMetadata := fun href _ =>
       if String.eqb href (granule_metadata_href m) then Ok g else missing href;
     read_TileInfoMetadata := fun href _ => missing href |}.

Definition scene := "S2A_MSIL2A_20160327T204522_N0212_R128_T01CCV_20210214T042702".

Definition run (W : World) : M Item :=
  create_item constants collaborators W safe_href 0%float None None None.

(** The classifier on the sample tables. *)
Definition shapes : Dict.t Z (Z * Z) :=
  gm_resolution_to_shape (granule (Some 32701)).

Definition projected_bbox : list float := gm_proj_bbox (granule (Some 32701)).

Definition classify (href : string) : Result (string * Asset) :=
  fst (image_asset_from_href constants collaborators href shapes
         projected_bbox None).

Definition asset_of (r : Result (string * Asset)) : Asset :=
  match r with
  | Ok (_, a) => a
  | Raise _ => metadata_asset ""
  end.

Definition b02_20m : Asset :=
  Eval vm_compute in asset_of (classify "IMG_DATA/R20m/T01CCV_B02_20m.jp2").


(** Worlds around [safe_href]. *)
Definition image_files : list string :=
  [ "GRANULE/IMG_DATA/R10m/T01CCV_B02_10m.jp2";
    "GRANULE/IMG_DATA/R20m/T01CCV_B02_20m.jp2";
    "GRANULE/IMG_DATA/R20m/T01CCV_SCL_20m.jp2";
    "GRANULE/IMG_DATA/R10m/T01CCV_TCI_10m.jp2" ].

Definition world_typical : World :=
  world (manifest None)
    (product scene (Some "DESCENDING") (Some 128) image_files)
    (granule (Some 32701)).

(** Relative orbit 0, no orbit state. *)
Definition world_zero_orbit : World :=
  world (manifest None) (product scene None (Some 0) image_files)
    (granule (Some 32701)).

(** No EPSG code in the granule metadata. *)
Definition world_no_epsg : World :=
  world (manifest None)
    (product scene (Some "DESCENDING") (Some 128) image_files)
    (granule None).

(** A scene id without a tile designator. *)
Definition world_no_tile : World :=
  world (manifest None)
    (product "S2A_MSIL2A_20160327T204522_N0212_R128" (Some "DESCENDING")
       (Some 128) image_files)
    (granule (Some 32701)).

(** Two image paths that both classify to [B02]. *)
Definition world_duplicate : World :=
  world (manifest None)
    (product scene (Some "DESCENDING") (Some 128)
       [ "GRANULE/IMG_DATA/R10m/T01CCV_B02_10m.jp2";
         "GRANULE/IMG_DATA/R10m/T01CCV_20160327T204522_B02_10m.jp2" ])
    (granule (Some 32701)).

(** A thumbnail in the manifest and a preview image among the paths. *)
Definition world_thumbnail : World :=
  world (manifest (Some "preview.tif"))
    (product scene (Some "DESCENDING") (Some 128)
       [ "GRANULE/IMG_DATA/R10m/T01CCV_B02_10m.jp2";
         "GRANULE/QI_DATA/T01CCV_PVI.jp2" ])
    (granule (Some 32701)).

Definition metadata_of (W : World) : Result Metadata :=
  read_metadata constants collaborators W safe_href 0%float None.

(** The metadata and the item of a world in which both exist. *)
Definition metadata_or_empty (W : World) : Metadata :=
  match metadata_of W with
  | Ok md => md
  | Raise _ =>
      {| scene_id := ""; cloudiness_percentage := None; extra_assets := [];
         geometry := footprint; bbox := []; datetime := 0; platform := "";
         metadata_dict := []; image_media_type := ""; image_paths := [];
         epsg := None; proj_bbox := []; resolution_to_shape := [];
         orbit_state := None; relative_orbit := None |}
  end.

Definition item_or_empty (W : World) : Item :=
  match fst (run W) with
  | Ok item => item
  | Raise _ => new_item (metadata_or_empty W)
  end.

Definition typical_metadata : Metadata :=
  Eval vm_compute in metadata_or_empty world_typical.

Definition typical_item : Item :=
  Eval vm_compute in item_or_empty world_typical.

Definition no_tile_metadata : Metadata :=
  Eval vm_compute in metadata_or_empty world_no_tile.

Definition no_tile_item : Item :=
  Eval vm_compute in item_or_empty world_no_tile.

Definition no_epsg_metadata : Metadata :=
  Eval vm_compute in metadata_or_empty world_no_epsg.

(** An image path in the middle that no rule matches. *)
Definition world_unexpected : World :=
  world (manifest None)
    (product scene (Some "DESCENDING") (Some 128)
       [ "GRANULE/IMG_DATA/R10m/T01CCV_B02_10m.jp2";
         "GRANULE/QI_DATA/MSK_CLDPRB_20m.jp2";
         "GRANULE/IMG_DATA/R20m/T01CCV_SCL_20m.jp2" ])
    (granule (Some 32701)).

Definition unexpected_metadata : Metadata :=
  Eval vm_compute in metadata_or_empty world_unexpected.

End Sample.

(** A tile of the Sinergise layout: [metadata.xml] and [tileInfo.json]
    under the tile href. *)
Module Tiles.

Definition tile_href := "s3://sentinel-s2-l2a/tiles/1/C/CV/2016/3/27/0/".

Definition tile_info : TileInfoMetadata :=
  {| ti_geometry := Sample.footprint;
     ti_datetime := 1459111522;
     ti_metadata_dict :=
       [ ("s2:processing_baseline", VStr "00.00");
         ("s2:mean_solar_zenith", VFloat 0%float) ];
     ti_create_asset :=
       ("tileinfo-metadata", Sample.metadata_asset "tileInfo.json") |}.

Definition world : World :=
  {| read_SafeManifest := fun href _ => Sample.missing href;
     read_ProductMetadata := fun href _ => Sample.missing href;
     read_GranuleMetadata := fun href _ =>
       if String.eqb href (Py.path_join tile_href "metadata.xml")
       then Ok (Sample.granule (Some 32701)) else Sample.missing href;
     read_TileInfoMetadata := fun href _ =>
       if String.eqb href (Py.path_join tile_href "tileInfo.json")
       then Ok tile_info else Sample.missing href |}.

Definition tile_metadata : Metadata :=
  Eval vm_compute in
    match read_metadata Sample.constants Sample.collaborators world tile_href
            0%float None with
    | Ok md => md
    | Raise _ => Sample.metadata_or_empty world
    end.

Definition tile_item : Item :=
  Eval vm_compute in
    match fst (create_item Sample.constants Sample.collaborators world
                 tile_href 0%float None None None) with
    | Ok item => item
    | Raise _ => new_item tile_metadata
    end.

Definition tile_item0 : Item :=
  Eval vm_compute in
    match fst (extensions_stage Sample.constants tile_href tile_metadata
                 (common_metadata_stage Sample.constants None tile_metadata
                    (new_item tile_metadata))) with
    | Ok item => item
    | Raise _ => new_item tile_metadata
    end.

Definition tile_assets : Dict.t string Asset :=
  Eval vm_compute in
    match fst (image_assets_stage Sample.constants Sample.collaborators
                 tile_href None tile_metadata) with
    | Ok assets => assets
    | Raise _ => []
    end.

End Tiles.

(* ------------------------------------------------------------------ *)
(** ** The string functions and the patterns on examples *)

Example MGRS_PATTERN_two_digits :
  Re.search MGRS_PATTERN "S2A_MSIL2A_20160327T204522_N0212_R128_T01CCV_20210214T042702"
  = Some ("01", "C", "CV").
Proof. reflexivity. Qed.

Example MGRS_PATTERN_one_digit :
  Re.search MGRS_PATTERN "S2B_OPER_MSI_L2A_TL_T7VEG_N02.08" = Some ("7", "V", "EG").
Proof. reflexivity. Qed.

Example splitext_jp2 :
  Py.splitext "a.SAFE/IMG_DATA/R10m/T01CCV_B02_10m.jp2"
  = ("a.SAFE/IMG_DATA/R10m/T01CCV_B02_10m", ".jp2").
Proof. reflexivity. Qed.

Example splitext_hidden : Py.splitext "dir.d/..bashrc" = ("dir.d/..bashrc", "").
Proof. reflexivity. Qed.

Example split_last_token :
  Py.split_last "_" "tiles/T01CCV_20160327T204522_B8A" = "B8A".
Proof. reflexivity. Qed.

Example str_of_int_examples :
  Py.str_of_int 0 = "0" /\ Py.str_of_int 60 = "60" /\ Py.str_of_int (-5) = "-5".
Proof. repeat split; reflexivity. Qed.

Example int_of_str_examples :
  Py.int_of_str "01" = Some 1 /\ Py.int_of_str "60" = Some 60
  /\ Py.int_of_str "" = None.
Proof. repeat split; reflexivity. Qed.

(* ------------------------------------------------------------------ *)
(** ** Facts about dictionaries *)

Section DictFacts.
Context {K V : Type} `{Key K}.
Implicit Types (k : K) (v : V) (d : Dict.t K V).

Lemma key_eqb_refl k : key_eqb k k = true.
Proof. destruct (key_eqb_spec k k); congruence. Qed.

Lemma key_eqb_neq k k' : k <> k' -> key_eqb k k' = false.
Proof. intro Hn. destruct (key_eqb_spec k k'); congruence. Qed.

Lemma dict_get_set_same k v d : Dict.get k (Dict.set k v d) = Some v.
Proof.
  induction d as [|[k' v'] r IH]; simpl.
  - now rewrite key_eqb_refl.
  - destruct (key_eqb k k') eqn:E; simpl.
    + now rewrite key_eqb_refl.
    + now rewrite E.
Qed.

Lemma dict_get_set_other k k' v d :
  k <> k' -> Dict.get k' (Dict.set k v d) = Dict.get k' d.
Proof.
  intro Hn. induction d as [|[k0 v0] r IH]; simpl.
  - rewrite key_eqb_neq; congruence.
  - destruct (key_eqb_spec k k0) as [->|Hk]; simpl.
    + rewrite !(@key_eqb_neq k' k0); congruence.
    + destruct (key_eqb k' k0); auto.
Qed.

Lemma dict_mem_set k k' v d :
  Dict.mem k' (Dict.set k v d) = key_eqb k' k || Dict.mem k' d.
Proof.
  unfold Dict.mem. destruct (key_eqb_spec k' k) as [->|Hn].
  - now rewrite dict_get_set_same.
  - rewrite dict_get_set_other; auto.
Qed.

Lemma dict_get_pop_other k k' d :
  k <> k' -> Dict.get k' (Dict.pop k d) = Dict.get k' d.
Proof.
  intro Hn. induction d as [|[k0 v0] r IH]; simpl; auto.
  destruct (key_eqb_spec k k0) as [->|Hk]; simpl.
  - rewrite (@key_eqb_neq k' k0); congruence.
  - destruct (key_eqb k' k0); auto.
Qed.

Lemma dict_get_pop_missing k d :
  Dict.get k d = None -> Dict.get k (Dict.pop k d) = None.
Proof.
  induction d as [|[k0 v0] r IH]; simpl; auto.
  destruct (key_eqb k k0) eqn:E; [discriminate|].
  simpl. now rewrite E.
Qed.

Lemma dict_mem_update k d (l : list (K * V)) :
  Dict.mem k (Dict.update d l)
  = Dict.mem k d || existsb (key_eqb k) (map fst l).
Proof.
  unfold Dict.update. revert d.
  induction l as [|[k0 v0] r IH]; intro d; simpl.
  - now rewrite orb_false_r.
  - rewrite IH, dict_mem_set. simpl.
    destruct (Dict.mem k d), (key_eqb k k0); reflexivity.
Qed.

Lemma dict_get_update_other k d (l : list (K * V)) :
  existsb (key_eqb k) (map fst l) = false ->
  Dict.get k (Dict.update d l) = Dict.get k d.
Proof.
  unfold Dict.update. revert d.
  induction l as [|[k0 v0] r IH]; intro d; simpl; auto.
  intro E. apply orb_false_elim in E as [E1 E2].
  rewrite IH by assumption. apply dict_get_set_other.
  intros ->. now rewrite key_eqb_refl in E1.
Qed.

Lemma dict_mem_In k d : Dict.mem k d = true <-> In k (Dict.keys d).
Proof.
  unfold Dict.mem. induction d as [|[k0 v0] r IH]; simpl.
  - split; [discriminate | tauto].
  - destruct (key_eqb_spec k k0) as [->|Hn].
    + split; auto.
    + rewrite IH. split; [auto | intros [E|?]; congruence].
Qed.

Lemma dict_keys_set k k' v d :
  In k' (Dict.keys (Dict.set k v d)) <-> k' = k \/ In k' (Dict.keys d).
Proof.
  rewrite <- !dict_mem_In, dict_mem_set, orb_true_iff.
  destruct (key_eqb_spec k' k); intuition congruence.
Qed.

Lemma dict_set_NoDup k v d :
  NoDup (Dict.keys d) -> NoDup (Dict.keys (Dict.set k v d)).
Proof.
  induction d as [|[k0 v0] r IH]; simpl; intro Hd.
  - constructor; [intros [] | constructor].
  - inversion Hd as [|? ? Hnot Hr]; subst.
    destruct (key_eqb_spec k k0) as [->|Hn]; simpl.
    + now constructor.
    + constructor; auto.
      fold (Dict.keys (Dict.set k v r)). rewrite dict_keys_set.
      intros [E|Hin]; congruence.
Qed.

Lemma dict_update_NoDup d (l : list (K * V)) :
  NoDup (Dict.keys d) -> NoDup (Dict.keys (Dict.update d l)).
Proof.
  unfold Dict.update. revert d.
  induction l as [|[k0 v0] r IH]; intro d; simpl; auto.
  intro Hd. apply IH. now apply dict_set_NoDup.
Qed.

(** [dict(pairs)] never holds a key twice. *)
Lemma dict_of_pairs_NoDup (l : list (K * V)) :
  NoDup (Dict.keys (Dict.of_pairs l)).
Proof. apply dict_update_NoDup. constructor. Qed.

Lemma dict_mem_of_pairs k (l : list (K * V)) :
  Dict.mem k (Dict.of_pairs l) = existsb (key_eqb k) (map fst l).
Proof. unfold Dict.of_pairs. now rewrite dict_mem_update. Qed.

Lemma existsb_key_In k (l : list K) :
  existsb (key_eqb k) l = true <-> In k l.
Proof.
  rewrite existsb_exists. split.
  - intros (x & Hin & E). destruct (key_eqb_spec k x); congruence.
  - intro Hin. exists k. split; auto. apply key_eqb_refl.
Qed.

End DictFacts.

(* ------------------------------------------------------------------ *)
(** ** Facts about strings and the monad *)

Lemma contains_app_r (sub a b : string) :
  Py.contains sub b = true -> Py.contains sub (a ++ b) = true.
Proof.
  intro Hb. induction a as [|c a IH]; simpl; auto.
  rewrite IH. apply orb_true_r.
Qed.

Lemma contains_path_join (sub base p : string) :
  Py.contains sub p = true -> Py.contains sub (Py.path_join base p) = true.
Proof.
  intro Hp. unfold Py.path_join.
  destruct (Py.startswith p "/"); auto.
  destruct (String.eqb base "" || Py.endswith base "/").
  - now apply contains_app_r.
  - apply contains_app_r. now apply (contains_app_r sub "/").
Qed.

Lemma bind_Ok {A B} (m : M A) (f : A -> M B) (b : B) :
  fst (bind m f) = Ok b ->
  exists a, fst m = Ok a /\ fst (f a) = Ok b.
Proof.
  destruct m as [[a|e] l]; simpl.
  - destruct (f a) as [r l'] eqn:E. simpl. intros ->. exists a. now rewrite E.
  - discriminate.
Qed.

Lemma bind_lift_Ok {A B} (a : A) (f : A -> M B) : bind (lift (Ok a)) f = f a.
Proof. unfold bind, lift. now destruct (f a). Qed.

Lemma bind_lift_Raise {A B} (e : Exception) (f : A -> M B) :
  bind (lift (Raise e)) f = (Raise e, []).
Proof. reflexivity. Qed.

Lemma bind_fst_Ok {A B} (m : M A) (f : A -> M B) (a : A) :
  fst m = Ok a -> fst (bind m f) = fst (f a).
Proof.
  destruct m as [r l]. simpl. intros ->. simpl. now destruct (f a).
Qed.

Lemma bind_fst_Raise {A B} (m : M A) (f : A -> M B) (e : Exception) :
  fst m = Raise e -> fst (bind m f) = Raise e.
Proof. destruct m as [r l]. simpl. now intros ->. Qed.

Lemma bind_snd_Ok {A B} (m : M A) (f : A -> M B) (a : A) :
  fst m = Ok a -> snd (bind m f) = (snd m ++ snd (f a))%list.
Proof.
  destruct m as [r l]. simpl. intros ->. simpl. now destruct (f a).
Qed.

(** An element of a comprehension that was evaluated gave a value. *)
Lemma map_M_Ok {A B} (f : A -> M B) (l : list A) (bs : list B) :
  fst (map_M f l) = Ok bs ->
  forall a, In a l -> exists b, fst (f a) = Ok b /\ In b bs.
Proof.
  revert bs. induction l as [|x r IH]; intros bs Hm a Hin.
  - destruct Hin.
  - simpl in Hm. apply bind_Ok in Hm as (b & Hb & Hm).
    apply bind_Ok in Hm as (bs' & Hbs & Hm). simpl in Hm.
    injection Hm as <-.
    destruct Hin as [<-|Hin].
    + exists b. split; [assumption | now left].
    + destruct (IH bs' Hbs a Hin) as (b' & Hb' & Hin').
      exists b'. split; [assumption | now right].
Qed.

(* ------------------------------------------------------------------ *)
(** ** The asset classifier *)

Section Classifier.

Variable K : Constants.
Variable X : Collaborators.

(** The outcome of [image_asset_from_href], branch by branch. *)
Lemma image_asset_from_href_fst href rts bbox mt :
  fst (image_asset_from_href K X href rts bbox mt)
  = match resolve_media_type href mt with
    | Raise e => Raise e
    | Ok amt =>
        if Py.contains "_PVI" href then preview_asset K href amt
        else
          match projection_info K X href rts bbox with
          | Raise e => Raise e
          | Ok (r, shape, transform) =>
              match Re.search BAND_ID_PATTERN href with
              | Some g => band_asset K href amt g r shape bbox transform
              | None => auxiliary_asset K X href amt shape bbox transform
              end
          end
    end.
Proof.
  unfold image_asset_from_href.
  rewrite (@bind_fst_Ok _ _ _ _ tt) by reflexivity.
  destruct (resolve_media_type href mt) as [amt|e].
  - rewrite bind_lift_Ok.
    destruct (Py.contains "_PVI" href); [reflexivity|].
    destruct (projection_info K X href rts bbox) as [[[r shape] tr]|e].
    + rewrite bind_lift_Ok.
      destruct (Re.search BAND_ID_PATTERN href); reflexivity.
    + reflexivity.
  - reflexivity.
Qed.

(** Every call starts with the debug record of the href. *)
Lemma image_asset_from_href_logged href rts bbox mt :
  snd (image_asset_from_href K X href rts bbox mt) = [classifier_call href].
Proof.
  unfold image_asset_from_href, classifier_call, bind, lift, log.
  destruct (resolve_media_type href mt) as [amt|e]; [|reflexivity].
  destruct (Py.contains "_PVI" href); [reflexivity|].
  destruct (projection_info K X href rts bbox) as [[[r shape] tr]|e];
    [|reflexivity].
  destruct (Re.search BAND_ID_PATTERN href); reflexivity.
Qed.

Lemma first_match_cases href :
  first_match href
  = if Py.contains "_PVI" href then Some Preview
    else if Re.matches BAND_ID_PATTERN href then Some BandImage
    else if Re.matches TCI_PATTERN href then Some TrueColor
    else if Re.matches AOT_PATTERN href then Some Aerosol
    else if Re.matches WVP_PATTERN href then Some WaterVapour
    else if Re.matches SCL_PATTERN href then Some Classification
    else None.
Proof.
  unfold first_match, classification_rules. simpl.
  destruct (Py.contains "_PVI" href); [reflexivity|].
  destruct (Re.matches BAND_ID_PATTERN href); [reflexivity|].
  destruct (Re.matches TCI_PATTERN href); [reflexivity|].
  destruct (Re.matches AOT_PATTERN href); [reflexivity|].
  destruct (Re.matches WVP_PATTERN href); [reflexivity|].
  destruct (Re.matches SCL_PATTERN href); reflexivity.
Qed.

Lemma band_asset_outcome href amt g r shape bbox tr :
  (exists key asset,
      band_asset K href amt g r shape bbox tr = Ok (key, asset)
      /\ built_as BandImage key asset)
  \/ (exists e, band_asset K href amt g r shape bbox tr = Raise e
                /\ table_error e).
Proof.
  unfold band_asset, band_of_href, sentinel_band, native_resolution, table_error.
  destruct (Dict.get g (SENTINEL_BANDS K)) as [band|].
  - destruct (Dict.get g (BANDS_TO_RESOLUTIONS K)) as [[|n ?]|];
      [right; eauto | | right; eauto].
    left. destruct (band_key_gsd g r n) as [key gsd].
    do 2 eexists. split; [reflexivity|].
    simpl. repeat split; eauto; discriminate.
  - destruct (Dict.get _ (SENTINEL_BANDS K)) as [band|]; [|right; eauto].
    destruct (Dict.get g (BANDS_TO_RESOLUTIONS K)) as [[|n ?]|];
      [right; eauto | | right; eauto].
    destruct (Dict.get _ (BANDS_TO_RESOLUTIONS K)) as [[|n' ?]|];
      [right; eauto | | right; eauto].
    left. destruct (band_key_gsd _ n n') as [key gsd].
    do 2 eexists. split; [reflexivity|].
    simpl. repeat split; eauto; discriminate.
Qed.

End Classifier.

(** An href that matches no rule and carries no resolution tag: the
    classifier fails on the resolution, not with "Unexpected asset". *)
Lemma unexpected_asset_error_preempted :
  first_match "foo.jp2" = None
  /\ fst (image_asset_from_href Sample.constants Sample.collaborators "foo.jp2"
            (gm_resolution_to_shape (Sample.granule (Some 32701)))
            (gm_proj_bbox (Sample.granule (Some 32701))) None)
     = Raise (TypeError
         "int() argument must be a string, a bytes-like object or a real number, not 'NoneType'")
  /\ fst (image_asset_from_href Sample.constants Sample.collaborators "foo.jp2"
            (gm_resolution_to_shape (Sample.granule (Some 32701)))
            (gm_proj_bbox (Sample.granule (Some 32701))) None)
     <> Raise (ValueError "Unexpected asset: foo.jp2").
Proof.
  split; [reflexivity|]. split; [vm_compute; reflexivity|].
  vm_compute. discriminate.
Qed.

(** C4 (amended).  For an href whose media type resolves and, unless it
    contains [_PVI], whose resolution resolves to a shape and a transform,
    and with B02, B03 and B04 in the band table: the classifier takes the
    first rule that matches in the order preview, band id, TCI, AOT, WVP,
    SCL.  It returns the asset of that kind (for a band id, the band asset
    or the error of a lookup in the band tables), and raises
    "Unexpected asset" when no rule matches. *)
Theorem classifier_first_match_wins
    (K : Constants) (X : Collaborators) (href : string)
    (rts : Dict.t Z (Z * Z)) (bbox : list float) (mt : option string)
    (amt : string) (bands : list Band) :
  resolve_media_type href mt = Ok amt ->
  rgb_bands K = Ok bands ->
  (Py.contains "_PVI" href = false ->
   exists info, projection_info K X href rts bbox = Ok info) ->
  match first_match href with
  | None =>
      fst (image_asset_from_href K X href rts bbox mt)
      = Raise (ValueError ("Unexpected asset: " ++ href))
  | Some BandImage =>
      (exists key asset,
          fst (image_asset_from_href K X href rts bbox mt) = Ok (key, asset)
          /\ built_as BandImage key asset)
      \/ (exists e,
             fst (image_asset_from_href K X href rts bbox mt) = Raise e
             /\ table_error e)
  | Some kind =>
      exists key asset,
        fst (image_asset_from_href K X href rts bbox mt) = Ok (key, asset)
        /\ built_as kind key asset
  end.
Proof.
  intros Hmt Hrgb Hinfo.
  rewrite image_asset_from_href_fst, Hmt, first_match_cases.
  destruct (Py.contains "_PVI" href) eqn:Hpvi.
  - unfold preview_asset. rewrite Hrgb.
    do 2 eexists. split; [reflexivity|]. simpl. auto.
  - destruct (Hinfo eq_refl) as [[[r shape] tr] ->].
    unfold Re.matches at 1.
    destruct (Re.search BAND_ID_PATTERN href) as [g|].
    + apply band_asset_outcome.
    + unfold auxiliary_asset. rewrite Hrgb.
      destruct (Re.matches TCI_PATTERN href).
      { do 2 eexists. split; [reflexivity|].
        simpl. repeat split; discriminate. }
      destruct (Re.matches AOT_PATTERN href).
      { do 2 eexists. split; [reflexivity|].
        simpl. repeat split; discriminate. }
      destruct (Re.matches WVP_PATTERN href).
      { do 2 eexists. split; [reflexivity|].
        simpl. repeat split; discriminate. }
      destruct (Re.matches SCL_PATTERN href).
      { do 2 eexists. split; [reflexivity|].
        simpl. repeat split; discriminate. }
      reflexivity.
Qed.

(** The rule is met by an href that matches nothing but names a
    resolution: it is the one that reaches "Unexpected asset". *)
Lemma classifier_first_match_wins_witness :
  fst (image_asset_from_href Sample.constants Sample.collaborators
         "QI_DATA/MSK_CLDPRB_20m.jp2"
         (gm_resolution_to_shape (Sample.granule (Some 32701)))
         (gm_proj_bbox (Sample.granule (Some 32701))) None)
  = Raise (ValueError "Unexpected asset: QI_DATA/MSK_CLDPRB_20m.jp2").
Proof.
  refine (@classifier_first_match_wins Sample.constants Sample.collaborators
            "QI_DATA/MSK_CLDPRB_20m.jp2"
            (gm_resolution_to_shape (Sample.granule (Some 32701)))
            (gm_proj_bbox (Sample.granule (Some 32701))) None
            MediaType.JPEG2000 _ _ _ _).
  - vm_compute. reflexivity.
  - vm_compute. reflexivity.
  - intros _. eexists. vm_compute. reflexivity.
Defined.

(** An href with the marker [/TCI] followed by a letter and no resolution
    tag: it matches neither the band id pattern nor the TCI pattern, yet
    line 221 finds the marker, line 222 sets the resolution to 10, the
    shape lookup succeeds and the call ends in "Unexpected asset". *)
Lemma tci_prefix_reaches_unexpected_asset :
  Py.contains "_PVI" "a/TCIX.jp2" = false
  /\ Re.matches BAND_ID_PATTERN "a/TCIX.jp2" = false
  /\ Re.matches TCI_PATTERN "a/TCIX.jp2" = false
  /\ extract_gsd Sample.collaborators "a/TCIX.jp2" = None
  /\ detect_resolution Sample.constants Sample.collaborators "a/TCIX.jp2"
     = Ok (Some 10)
  /\ fst (image_asset_from_href Sample.constants Sample.collaborators
            "a/TCIX.jp2" Sample.shapes Sample.projected_bbox None)
     = Raise (ValueError "Unexpected asset: a/TCIX.jp2").
Proof. repeat split; vm_compute; reflexivity. Qed.

(** C10 (amended).  An href without [_PVI], without a match of the band
    pattern of line 42 (a separator, [B] and two word characters, which
    every band id is), without the marker of line 43 (a separator and
    [TCI], whatever follows) and without a resolution tag never reaches the
    "Unexpected asset" branch and never yields an asset: its resolution
    stays [None] and the shape lookup raises [TypeError] (or the media
    type could not be resolved before that). *)
Theorem no_resolution_never_unexpected_asset
    (K : Constants) (X : Collaborators) (href : string)
    (rts : Dict.t Z (Z * Z)) (bbox : list float) (mt : option string) :
  Py.contains "_PVI" href = false ->
  Re.search BAND_PATTERN href = None ->
  Re.matches IS_TCI_PATTERN href = false ->
  extract_gsd X href = None ->
  detect_resolution K X href = Ok None
  /\ (forall amt, resolve_media_type href mt = Ok amt ->
        fst (image_asset_from_href K X href rts bbox mt)
        = Raise (TypeError
            "int() argument must be a string, a bytes-like object or a real number, not 'NoneType'"))
  /\ (forall msg, fst (image_asset_from_href K X href rts bbox mt)
                  <> Raise (ValueError msg))
  /\ (forall a, fst (image_asset_from_href K X href rts bbox mt) <> Ok a).
Proof.
  intros Hpvi Hband Htci Hgsd.
  assert (Hres : detect_resolution K X href = Ok None).
  { unfold detect_resolution. now rewrite Hgsd, Hband, Htci. }
  assert (Hinfo : projection_info K X href rts bbox
                  = Raise (TypeError
            "int() argument must be a string, a bytes-like object or a real number, not 'NoneType'")).
  { unfold projection_info. now rewrite Hres. }
  split; [assumption|].
  rewrite image_asset_from_href_fst, Hpvi, Hinfo.
  repeat split.
  - now intros amt ->.
  - intros msg. unfold resolve_media_type.
    destruct mt; [discriminate|].
    repeat match goal with |- context [if ?c then _ else _] => destruct c end;
      discriminate.
  - intros a. destruct (resolve_media_type href mt); discriminate.
Qed.

Lemma no_resolution_never_unexpected_asset_witness :
  fst (image_asset_from_href Sample.constants Sample.collaborators
         "GRANULE/IMG_DATA/T01CCV_SCL.jp2"
         (gm_resolution_to_shape (Sample.granule (Some 32701)))
         (gm_proj_bbox (Sample.granule (Some 32701))) None)
  = Raise (TypeError
      "int() argument must be a string, a bytes-like object or a real number, not 'NoneType'").
Proof.
  refine (proj1 (proj2
    (@no_resolution_never_unexpected_asset Sample.constants
       Sample.collaborators "GRANULE/IMG_DATA/T01CCV_SCL.jp2"
       (gm_resolution_to_shape (Sample.granule (Some 32701)))
       (gm_proj_bbox (Sample.granule (Some 32701))) None _ _ _ _))
    MediaType.JPEG2000 _); vm_compute; reflexivity.
Defined.

Lemma mk_asset_id_spec (kind : AssetKind) (maybe_res : option Z) :
  default_resolution kind = 20 ->
  mk_asset_id maybe_res (auxiliary_name kind) = auxiliary_key kind maybe_res.
Proof.
  intros Hd. unfold mk_asset_id, auxiliary_key, spec_auxiliary_key, truthy_int.
  rewrite Hd. destruct maybe_res as [r|]; [|reflexivity].
  destruct (r =? 0); [reflexivity|]. simpl. now destruct (r =? 20).
Qed.

Lemma visual_asset_id_spec (maybe_res : option Z) :
  visual_asset_id maybe_res = auxiliary_key TrueColor maybe_res.
Proof.
  unfold visual_asset_id, auxiliary_key, spec_auxiliary_key, truthy_int.
  destruct maybe_res as [r|]; [|reflexivity].
  destruct (r =? 0); [reflexivity|]. simpl. now destruct (r =? 10).
Qed.

(** A file name whose resolution tag reads 0, with a shape on record for
    that resolution: the asset is built under the bare name [SCL], where
    the rule of the names gives [SCL_0m]. *)
Lemma zero_resolution_key_is_bare :
  first_match "IMG_DATA/SCL_00m.jp2" = Some Classification
  /\ extract_gsd Sample.collaborators "IMG_DATA/SCL_00m.jp2" = Some 0
  /\ spec_auxiliary_key Classification (Some 0) = "SCL_0m"
  /\ exists asset,
       fst (image_asset_from_href Sample.constants Sample.collaborators
              "IMG_DATA/SCL_00m.jp2" [(0, (1830, 1830))]
              Sample.projected_bbox None)
       = Ok ("SCL", asset)
       /\ built_as Classification "SCL" asset.
Proof.
  split; [vm_compute; reflexivity|]. split; [vm_compute; reflexivity|].
  split; [vm_compute; reflexivity|].
  eexists. split; [vm_compute; reflexivity|].
  simpl. repeat split; discriminate.
Qed.

(** C6 (amended).  An href classified as TCI, AOT, WVP or SCL gets the bare
    name ([visual], [AOT], [WVP], [SCL]) when the file name gives no
    resolution, the resolution 0 or the default one (10 for visual, 20 for
    the others), and [{name}_{resolution}m] otherwise.  For TCI the band
    table holds B02, B03 and B04. *)
Theorem auxiliary_asset_key
    (K : Constants) (X : Collaborators) (href : string)
    (rts : Dict.t Z (Z * Z)) (bbox : list float) (mt : option string)
    (amt : string) (info : Z * list Z * list float) (bands : list Band)
    (kind : AssetKind) :
  resolve_media_type href mt = Ok amt ->
  projection_info K X href rts bbox = Ok info ->
  (kind = TrueColor -> rgb_bands K = Ok bands) ->
  first_match href = Some kind ->
  is_auxiliary kind = true ->
  exists asset,
    fst (image_asset_from_href K X href rts bbox mt)
    = Ok (auxiliary_key kind (extract_gsd X href), asset)
    /\ built_as kind (auxiliary_key kind (extract_gsd X href)) asset
    /\ auxiliary_key kind (extract_gsd X href)
       = match extract_gsd X href with
         | None => auxiliary_name kind
         | Some r =>
             if (r =? 0) || (r =? default_resolution kind)
             then auxiliary_name kind
             else auxiliary_name kind ++ "_" ++ Py.str_of_int r ++ "m"
         end.
Proof.
  intros Hmt Hinfo Hrgb Hfirst Haux.
  assert (Hkey : auxiliary_key kind (extract_gsd X href)
                 = match extract_gsd X href with
                   | None => auxiliary_name kind
                   | Some r =>
                       if (r =? 0) || (r =? default_resolution kind)
                       then auxiliary_name kind
                       else auxiliary_name kind ++ "_" ++ Py.str_of_int r ++ "m"
                   end).
  { unfold auxiliary_key, spec_auxiliary_key, truthy_int.
    destruct (extract_gsd X href) as [r|]; [|reflexivity].
    now destruct (r =? 0). }
  rewrite image_asset_from_href_fst, Hmt, Hinfo.
  rewrite first_match_cases in Hfirst.
  destruct info as [[r shape] tr].
  destruct (Py.contains "_PVI" href).
  { injection Hfirst as <-. discriminate. }
  unfold Re.matches at 1 in Hfirst.
  destruct (Re.search BAND_ID_PATTERN href).
  { injection Hfirst as <-. discriminate. }
  unfold auxiliary_asset.
  destruct (Re.matches TCI_PATTERN href).
  { injection Hfirst as <-. rewrite (Hrgb eq_refl).
    rewrite visual_asset_id_spec.
    eexists. split; [reflexivity|]. split; [|exact Hkey].
    simpl. repeat split; discriminate. }
  destruct (Re.matches AOT_PATTERN href).
  { injection Hfirst as <-.
    rewrite (@mk_asset_id_spec Aerosol) by reflexivity.
    eexists. split; [reflexivity|]. split; [|exact Hkey].
    simpl. repeat split; discriminate. }
  destruct (Re.matches WVP_PATTERN href).
  { injection Hfirst as <-.
    rewrite (@mk_asset_id_spec WaterVapour) by reflexivity.
    eexists. split; [reflexivity|]. split; [|exact Hkey].
    simpl. repeat split; discriminate. }
  destruct (Re.matches SCL_PATTERN href).
  { injection Hfirst as <-.
    rewrite (@mk_asset_id_spec Classification) by reflexivity.
    eexists. split; [reflexivity|]. split; [|exact Hkey].
    simpl. repeat split; discriminate. }
  discriminate.
Qed.

(** [/SCL_60m.jp2] gives the key [SCL_60m]. *)
Lemma auxiliary_asset_key_witness :
  exists asset,
    fst (image_asset_from_href Sample.constants Sample.collaborators
           "IMG_DATA/SCL_60m.jp2"
           (gm_resolution_to_shape (Sample.granule (Some 32701)))
           (gm_proj_bbox (Sample.granule (Some 32701))) None)
    = Ok ("SCL_60m", asset)
    /\ built_as Classification "SCL_60m" asset.
Proof.
  destruct (@auxiliary_asset_key Sample.constants Sample.collaborators
              "IMG_DATA/SCL_60m.jp2"
              (gm_resolution_to_shape (Sample.granule (Some 32701)))
              (gm_proj_bbox (Sample.granule (Some 32701))) None
              MediaType.JPEG2000
              (60, [1830; 1830],
               match Sample.core_transform_from_bbox
                       (gm_proj_bbox (Sample.granule (Some 32701)))
                       [1830; 1830] with
               | Ok tr => tr
               | Raise _ => []
               end)
              [] Classification)
    as (asset & Hrun & Hbuilt & _).
  - vm_compute. reflexivity.
  - vm_compute. reflexivity.
  - discriminate.
  - vm_compute. reflexivity.
  - reflexivity.
  - exists asset. split; [exact Hrun | exact Hbuilt].
Defined.

(** [/SCL_20m.jp2] gives the key [SCL], [/TCI_60m.jp2] the key
    [visual_60m]. *)
Example auxiliary_asset_key_examples :
  option_map fst
    (match fst (image_asset_from_href Sample.constants Sample.collaborators
                  "IMG_DATA/SCL_20m.jp2"
                  (gm_resolution_to_shape (Sample.granule (Some 32701)))
                  (gm_proj_bbox (Sample.granule (Some 32701))) None) with
     | Ok r => Some r | Raise _ => None end) = Some "SCL"
  /\ option_map fst
    (match fst (image_asset_from_href Sample.constants Sample.collaborators
                  "IMG_DATA/TCI_60m.jp2"
                  (gm_resolution_to_shape (Sample.granule (Some 32701)))
                  (gm_proj_bbox (Sample.granule (Some 32701))) None) with
     | Ok r => Some r | Raise _ => None end) = Some "visual_60m".
Proof. split; vm_compute; reflexivity. Qed.





(* ------------------------------------------------------------------ *)
(** ** The stages of the assembler *)

Unset Implicit Arguments.

Lemma add_extension_In (u v : string) (item : Item) :
  In u (item_stac_extensions (add_extension v item))
  <-> u = v \/ In u (item_stac_extensions item).
Proof.
  unfold add_extension.
  destruct (existsb (String.eqb v) (item_stac_extensions item)) eqn:E.
  - apply existsb_exists in E as (x & Hin & Hx).
    apply String.eqb_eq in Hx. subst x.
    split; [auto | intros [->|]; auto].
  - simpl. rewrite in_app_iff. simpl. intuition.
Qed.

Lemma add_extension_assets v item :
  item_assets (add_extension v item) = item_assets item.
Proof.
  unfold add_extension.
  now destruct (existsb (String.eqb v) (item_stac_extensions item)).
Qed.

Lemma add_extension_properties v item :
  item_properties (add_extension v item) = item_properties item.
Proof.
  unfold add_extension.
  now destruct (existsb (String.eqb v) (item_stac_extensions item)).
Qed.

Lemma set_property_extensions k v p item :
  item_stac_extensions (set_property k v p item) = item_stac_extensions item.
Proof. unfold set_property. now destruct v, p. Qed.

Lemma set_property_assets k v p item :
  item_assets (set_property k v p item) = item_assets item.
Proof. unfold set_property. now destruct v, p. Qed.

Lemma set_property_get_other k k' v p item :
  k <> k' ->
  Dict.get k' (item_properties (set_property k v p item))
  = Dict.get k' (item_properties item).
Proof.
  intro Hn. unfold set_property. destruct v, p; simpl;
    auto using dict_get_set_other, dict_get_pop_other.
Qed.

Lemma set_property_get_same k x p item :
  Dict.get k (item_properties (set_property k (Some x) p item)) = Some x.
Proof. unfold set_property. simpl. apply dict_get_set_same. Qed.

Lemma set_property_get_popped k item :
  Dict.get k (item_properties item) = None ->
  Dict.get k (item_properties (set_property k None true item)) = None.
Proof. intros Hk. unfold set_property. simpl. now apply dict_get_pop_missing. Qed.

Lemma frame_refl item : frame [] [] item item.
Proof. constructor; auto. Qed.

Lemma frame_weaken ks us ks' us' item item' :
  incl ks ks' -> incl us us' ->
  frame ks us item item' -> frame ks' us' item item'.
Proof.
  intros Hk Hu [Ha Hp He Hm]. constructor; auto.
  intros u Hin. destruct (He u Hin); auto.
Qed.

(** Settles the frame of a stage made of [set_property] and
    [add_extension] steps, once the stage is unfolded. *)
Ltac frame_solve :=
  constructor;
  [ repeat first [rewrite set_property_assets | rewrite add_extension_assets];
    reflexivity
  | let k := fresh "k" in
    let Hk := fresh "Hk" in
    intros k Hk;
    repeat first
      [ rewrite set_property_get_other
          by (intros <-; apply Hk; simpl; tauto)
      | rewrite add_extension_properties ];
    reflexivity
  | let u := fresh "u" in
    let Hin := fresh "Hin" in
    intros u Hin;
    repeat first
      [ rewrite set_property_extensions in Hin
      | apply add_extension_In in Hin as [->|Hin] ];
    simpl; auto
  | let u := fresh "u" in
    let Hin := fresh "Hin" in
    intros u Hin;
    repeat first
      [ rewrite set_property_extensions
      | apply add_extension_In; right ];
    exact Hin ].

Lemma frame_common_metadata_stage K ap md item :
  frame common_keys [] item (common_metadata_stage K ap md item).
Proof. unfold common_metadata_stage, common_keys. frame_solve. Qed.

Lemma frame_eo_stage md item :
  frame ["eo:cloud_cover"] [Schema.EO] item (eo_stage md item).
Proof. unfold eo_stage. frame_solve. Qed.

Lemma Ok_inj {A} (a b : A) : Ok a = Ok b -> a = b.
Proof. now intros [= ->]. Qed.

Ltac ok_subst E := apply Ok_inj in E; rewrite <- E; clear E.

Lemma frame_sat_stage md item item' :
  sat_stage md item = Ok item' -> frame sat_keys [Schema.SAT] item item'.
Proof.
  unfold sat_stage, sat_keys.
  destruct (truthy_str (orbit_state md) || truthy_int (relative_orbit md)).
  - destruct (orbit_state md) as [s|].
    + destruct (negb (String.eqb s "")).
      * destruct (OrbitState (Py.lower s)); [|discriminate].
        intros E. ok_subst E. frame_solve.
      * intros E. ok_subst E. frame_solve.
    + intros E. ok_subst E. frame_solve.
  - intros E. injection E as <-.
    eapply frame_weaken; [| |apply frame_refl]; intros ? [].
Qed.

(** The [sat] group is attached exactly when the guard of line 121 holds. *)
Lemma sat_stage_attached md item item' :
  sat_stage md item = Ok item' ->
  ~ In Schema.SAT (item_stac_extensions item) ->
  (In Schema.SAT (item_stac_extensions item')
   <-> truthy_str (orbit_state md) || truthy_int (relative_orbit md) = true).
Proof.
  unfold sat_stage.
  destruct (truthy_str (orbit_state md) || truthy_int (relative_orbit md)).
  - intros E _. split; [reflexivity|]. intros _.
    destruct (orbit_state md) as [s|];
      [destruct (negb (String.eqb s ""));
         [destruct (OrbitState (Py.lower s)); [|discriminate]|]|];
      ok_subst E;
      rewrite !set_property_extensions; apply add_extension_In; auto.
  - intros E Hnot. injection E as <-. split; [tauto | discriminate].
Qed.

Lemma sat_stage_raise md item e :
  sat_stage md item = Raise e -> exists msg, e = ValueError msg.
Proof.
  unfold sat_stage, OrbitState.
  destruct (truthy_str (orbit_state md) || truthy_int (relative_orbit md));
    [|discriminate].
  destruct (orbit_state md) as [s|]; [|discriminate].
  destruct (negb (String.eqb s "")); [|discriminate].
  match goal with |- context [if ?c then _ else _] => destruct c end;
    [discriminate|].
  intros E. injection E as <-. eauto.
Qed.

Lemma OrbitState_Ok s v :
  OrbitState s = Ok v ->
  v = s /\ In s ["ascending"; "descending"; "geostationary"].
Proof.
  unfold OrbitState.
  destruct (String.eqb_spec s "ascending") as [->|_];
    [intros E; injection E as <-; simpl; auto|].
  destruct (String.eqb_spec s "descending") as [->|_];
    [intros E; injection E as <-; simpl; auto|].
  destruct (String.eqb_spec s "geostationary") as [->|_];
    [intros E; injection E as <-; simpl; auto|].
  discriminate.
Qed.

(** What the [sat] stage writes once the guard of line 121 holds: the
    validated orbit state in lower case (nothing for an empty or missing
    one) and the relative orbit as it is. *)
Lemma sat_stage_properties md item item' :
  sat_stage md item = Ok item' ->
  truthy_str (orbit_state md) || truthy_int (relative_orbit md) = true ->
  Dict.get "sat:orbit_state" (item_properties item) = None ->
  Dict.get "sat:relative_orbit" (item_properties item) = None ->
  Dict.get "sat:orbit_state" (item_properties item')
  = match orbit_state md with
    | Some s => if String.eqb s "" then None else Some (VStr (Py.lower s))
    | None => None
    end
  /\ Dict.get "sat:relative_orbit" (item_properties item')
     = option_map VInt (relative_orbit md)
  /\ (forall s, orbit_state md = Some s -> s <> "" ->
        In (Py.lower s) ["ascending"; "descending"; "geostationary"]).
Proof.
  intros Hsat Hguard Hstate Hrel. unfold sat_stage in Hsat.
  rewrite Hguard in Hsat.
  assert (Hrelative : forall v,
            Dict.get "sat:orbit_state"
              (item_properties
                 (set_property "sat:orbit_state" v true
                    (add_extension Schema.SAT item))) = v
            /\ Dict.get "sat:relative_orbit"
                 (item_properties
                    (set_property "sat:relative_orbit"
                       (option_map VInt (relative_orbit md)) true
                       (set_property "sat:orbit_state" v true
                          (add_extension Schema.SAT item))))
               = option_map VInt (relative_orbit md)).
  { intros v. split.
    - destruct v as [x|]; [apply set_property_get_same|].
      apply set_property_get_popped. now rewrite add_extension_properties.
    - destruct (relative_orbit md) as [n|]; simpl option_map;
        [apply set_property_get_same|].
      apply set_property_get_popped.
      rewrite set_property_get_other by discriminate.
      now rewrite add_extension_properties. }
  destruct (orbit_state md) as [s|].
  - destruct (String.eqb_spec s "") as [Hs|Hs]; simpl negb in Hsat.
    + ok_subst Hsat. destruct (Hrelative None) as (Ho & Hr).
      rewrite set_property_get_other by discriminate.
      repeat split; [exact Ho | exact Hr |].
      intros s' [= <-] Hne. contradiction.
    + destruct (OrbitState (Py.lower s)) as [v|] eqn:Hv; [|discriminate].
      apply OrbitState_Ok in Hv as (-> & Hin).
      ok_subst Hsat. destruct (Hrelative (Some (VStr (Py.lower s)))) as (Ho & Hr).
      rewrite set_property_get_other by discriminate.
      repeat split; [exact Ho | exact Hr |].
      intros s' [= <-] _. exact Hin.
  - ok_subst Hsat. destruct (Hrelative None) as (Ho & Hr).
    rewrite set_property_get_other by discriminate.
    repeat split; [exact Ho | exact Hr |]. discriminate.
Qed.

Lemma proj_stage_missing href md item :
  epsg md = None -> proj_stage href md item = Raise (epsg_error href).
Proof.
  intros E. unfold proj_stage. rewrite E. simpl.
  now rewrite dict_get_set_same.
Qed.

Lemma proj_stage_present href md item code :
  epsg md = Some code ->
  proj_stage href md item
  = Ok (set_property "proj:epsg" (Some (VInt code)) false
          (add_extension Schema.PROJECTION item)).
Proof.
  intros E. unfold proj_stage. rewrite E. simpl.
  now rewrite dict_get_set_same.
Qed.

Lemma frame_proj_stage href md item item' :
  proj_stage href md item = Ok item' ->
  frame ["proj:epsg"] [Schema.PROJECTION] item item'.
Proof.
  destruct (epsg md) as [code|] eqn:E.
  - rewrite (proj_stage_present href md item code E). intros H. ok_subst H.
    frame_solve.
  - now rewrite (proj_stage_missing href md item E).
Qed.

Lemma frame_view_stage K md item item' :
  view_stage K md item = Ok item' -> frame view_keys [Schema.VIEW] item item'.
Proof.
  unfold view_stage, view_keys.
  destruct (Dict.get (s2_prefix K ++ ":mean_solar_zenith") (metadata_dict md))
    as [msz|].
  - destruct (truthy msz).
    + destruct (sun_elevation msz); [|discriminate].
      intros E. ok_subst E. frame_solve.
    + intros E. ok_subst E. frame_solve.
  - intros E. ok_subst E. frame_solve.
Qed.

Lemma frame_properties_stage md item :
  frame (Dict.keys (metadata_dict md)) [] item (properties_stage md item).
Proof.
  constructor; simpl; auto.
  intros k Hk. apply dict_get_update_other.
  destruct (existsb (key_eqb k) (map fst (Dict.items (metadata_dict md))))
    eqn:E; [|reflexivity].
  apply existsb_key_In in E. contradiction.
Qed.

Lemma frame_set_mgrs_grid zone band square item :
  frame mgrs_keys [Schema.MGRS; Schema.GRID] item
    (set_grid (grid_code zone band square) (set_mgrs zone band square item)).
Proof. unfold set_grid, set_mgrs, mgrs_keys. frame_solve. Qed.

Lemma frame_mgrs_stage md item item' :
  fst (mgrs_stage md item) = Ok item' ->
  frame mgrs_keys [Schema.MGRS; Schema.GRID] item item'.
Proof.
  unfold mgrs_stage.
  destruct (Re.search MGRS_PATTERN (scene_id md)) as [[[g0 g1] g2]|].
  - destruct (Py.int_of_str g0); [|discriminate].
    simpl. intros E. injection E as <-. apply frame_set_mgrs_grid.
  - simpl. intros E. injection E as <-.
    eapply frame_weaken; [| |apply frame_refl]; intros ? [].
Qed.

(** *** The asset loop *)

Lemma add_assets_raise l item e :
  add_assets l item = Raise e -> e = AssertionError.
Proof.
  revert item. induction l as [|[k a] r IH]; intros item; simpl.
  - discriminate.
  - destruct (Dict.mem k (item_assets item)); [congruence | apply IH].
Qed.

(** A key already in use stops the loop. *)
Lemma add_assets_collision l item k :
  In k (Dict.keys l) -> Dict.mem k (item_assets item) = true ->
  add_assets l item = Raise AssertionError.
Proof.
  revert item. induction l as [|[k0 a0] r IH]; intros item Hin Hmem.
  - destruct Hin.
  - simpl. destruct (Dict.mem k0 (item_assets item)) eqn:E0; [reflexivity|].
    destruct Hin as [Hk|Hin].
    + simpl in Hk. subst k0. congruence.
    + apply IH; [assumption|].
      simpl. rewrite dict_mem_set, Hmem. apply orb_true_r.
Qed.

Lemma add_assets_kept l item item' k :
  add_assets l item = Ok item' ->
  Dict.mem k (item_assets item) = true ->
  Dict.mem k (item_assets item') = true.
Proof.
  revert item. induction l as [|[k0 a0] r IH]; intros item; simpl.
  - intros E. now injection E as <-.
  - destruct (Dict.mem k0 (item_assets item)); [discriminate|].
    intros E Hk. apply (IH _ E). simpl.
    rewrite dict_mem_set, Hk. apply orb_true_r.
Qed.

Lemma add_assets_Ok l item item' :
  add_assets l item = Ok item' ->
  item_properties item' = item_properties item
  /\ item_stac_extensions item' = item_stac_extensions item
  /\ forall k, In k (Dict.keys l) -> Dict.mem k (item_assets item') = true.
Proof.
  revert item. induction l as [|[k0 a0] r IH]; intros item; simpl.
  - intros E. injection E as <-. repeat split. intros k [].
  - destruct (Dict.mem k0 (item_assets item)); [discriminate|].
    intros E. pose proof E as E'. apply IH in E as (Hp & He & Hm).
    repeat split; auto.
    intros k [<-|Hin]; [|auto].
    apply (add_assets_kept _ _ _ _ E'). simpl.
    rewrite dict_mem_set. now rewrite key_eqb_refl.
Qed.

Lemma add_assets_app l1 l2 item :
  add_assets (l1 ++ l2) item
  = match add_assets l1 item with
    | Ok item1 => add_assets l2 item1
    | Raise e => Raise e
    end.
Proof.
  revert item. induction l1 as [|[k0 a0] r IH]; intros item; simpl.
  - reflexivity.
  - destruct (Dict.mem k0 (item_assets item)); [reflexivity | apply IH].
Qed.

(** Entries with pairwise distinct keys, none of them in use, all go in. *)
Lemma add_assets_fresh l item :
  NoDup (Dict.keys l) ->
  (forall k, In k (Dict.keys l) -> Dict.mem k (item_assets item) = false) ->
  exists item', add_assets l item = Ok item'.
Proof.
  revert item. induction l as [|[k0 a0] r IH]; intros item Hd Hfresh; simpl.
  - eauto.
  - rewrite (Hfresh k0) by (simpl; auto).
    inversion Hd as [|? ? Hnot Hr]; subst.
    apply IH; [assumption|].
    intros k Hin. simpl. rewrite dict_mem_set.
    rewrite (Hfresh k) by (simpl; auto). rewrite orb_false_r.
    apply key_eqb_neq. intros ->. contradiction.
Qed.

(** The image assets alone never trip the assertion: [dict] has merged
    equal keys before the loop starts. *)
Lemma add_assets_of_pairs (pairs : list (string * Asset)) item :
  item_assets item = [] ->
  exists item', add_assets (Dict.items (Dict.of_pairs pairs)) item = Ok item'.
Proof.
  intros Hempty. apply add_assets_fresh.
  - apply dict_of_pairs_NoDup.
  - intros k _. now rewrite Hempty.
Qed.

(** *** What a successful run went through *)

Lemma assemble_Ok K X href ap prefix md item :
  fst (assemble K X href ap prefix md) = Ok item ->
  exists item1 item2 item3 item4 assets item5,
    sat_stage md (eo_stage md (common_metadata_stage K ap md (new_item md)))
    = Ok item1
    /\ proj_stage href md item1 = Ok item2
    /\ fst (mgrs_stage md item2) = Ok item3
    /\ view_stage K md item3 = Ok item4
    /\ fst (image_assets_stage K X href prefix md) = Ok assets
    /\ add_assets (Dict.items assets ++ Dict.items (extra_assets md))
         (properties_stage md item4) = Ok item5
    /\ item = append_link (SENTINEL_LICENSE K) item5.
Proof.
  unfold assemble, extensions_stage. intros H.
  apply bind_Ok in H as (i5 & H1 & H).
  apply bind_Ok in H as (assets & Himg & H).
  apply bind_Ok in H as (item5 & Hadd & H).
  apply bind_Ok in H1 as (item1 & Hsat & H1).
  apply bind_Ok in H1 as (item2 & Hproj & H1).
  apply bind_Ok in H1 as (item3 & Hmgrs & H1).
  apply bind_Ok in H1 as (item4 & Hview & H1).
  simpl in H, H1, Hadd, Hsat, Hproj, Hview.
  injection H as <-. injection H1 as <-.
  exists item1, item2, item3, item4, assets, item5. auto 10.
Qed.

Lemma create_item_read K X W href tol ap rhm prefix md :
  read_metadata K X W href tol rhm = Ok md ->
  create_item K X W href tol ap rhm prefix = assemble K X href ap prefix md.
Proof. intros H. unfold create_item. rewrite H. apply bind_lift_Ok. Qed.

(* ------------------------------------------------------------------ *)
(** ** The item assembler *)

(** C2.  When the metadata read for the granule has no EPSG code,
    [create_item] raises a [ValueError] (the one about the EPSG code,
    unless the orbit state was rejected just before), and the log holds no
    call of the asset classifier. *)
Theorem missing_epsg_is_fatal
    (K : Constants) (X : Collaborators) (W : World) (href : string)
    (tol : float) (ap : option (list Provider))
    (rhm : option ReadHrefModifier) (prefix : option string) (md : Metadata) :
  read_metadata K X W href tol rhm = Ok md ->
  epsg md = None ->
  (exists msg,
      fst (create_item K X W href tol ap rhm prefix) = Raise (ValueError msg))
  /\ ((exists item1,
          sat_stage md
            (eo_stage md (common_metadata_stage K ap md (new_item md)))
          = Ok item1) ->
      fst (create_item K X W href tol ap rhm prefix) = Raise (epsg_error href))
  /\ snd (create_item K X W href tol ap rhm prefix) = []
  /\ forall h,
       ~ In (classifier_call h) (snd (create_item K X W href tol ap rhm prefix)).
Proof.
  intros Hread Hepsg.
  rewrite (create_item_read K X W href tol ap rhm prefix md Hread).
  unfold assemble, extensions_stage. cbv zeta.
  destruct (sat_stage md
              (eo_stage md (common_metadata_stage K ap md (new_item md))))
    as [item1|e] eqn:Hsat.
  - rewrite bind_lift_Ok, (proj_stage_missing href md item1 Hepsg).
    rewrite bind_lift_Raise. simpl.
    repeat split; eauto. unfold epsg_error. eauto.
  - rewrite bind_lift_Raise. simpl.
    destruct (sat_stage_raise md _ e Hsat) as [msg ->].
    repeat split; eauto. intros [item1 H]. discriminate.
Qed.

Lemma missing_epsg_is_fatal_witness :
  fst (Sample.run Sample.world_no_epsg)
  = Raise (epsg_error Sample.safe_href)
  /\ snd (Sample.run Sample.world_no_epsg) = [].
Proof.
  destruct (missing_epsg_is_fatal Sample.constants Sample.collaborators
              Sample.world_no_epsg Sample.safe_href 0%float None None None
              Sample.no_epsg_metadata)
    as (_ & Hfatal & Hlog & _).
  - vm_compute. reflexivity.
  - reflexivity.
  - split; [|exact Hlog].
    apply Hfatal. eexists. vm_compute. reflexivity.
Defined.

Ltac not_in_concrete :=
  unfold view_keys, mgrs_keys, common_keys, sat_keys; simpl;
  intuition discriminate.

(** A successful run, cut after the MGRS stage: what follows touches only
    the [view] group, the keys of the metadata mapping, the assets and the
    links. *)
Lemma assemble_stages K X href ap prefix md item :
  fst (assemble K X href ap prefix md) = Ok item ->
  exists item1 item2 item3,
    sat_stage md (eo_stage md (common_metadata_stage K ap md (new_item md)))
    = Ok item1
    /\ proj_stage href md item1 = Ok item2
    /\ fst (mgrs_stage md item2) = Ok item3
    /\ (forall k, ~ In k view_keys -> ~ In k (Dict.keys (metadata_dict md)) ->
          Dict.get k (item_properties item) = Dict.get k (item_properties item3))
    /\ (forall u, In u (item_stac_extensions item) ->
          u = Schema.VIEW \/ In u (item_stac_extensions item3))
    /\ (forall u, In u (item_stac_extensions item3) ->
          In u (item_stac_extensions item)).
Proof.
  intros H.
  destruct (assemble_Ok K X href ap prefix md item H)
    as (item1 & item2 & item3 & item4 & assets & item5
        & Hsat & Hproj & Hmgrs & Hview & _ & Hadd & ->).
  exists item1, item2, item3. do 3 (split; [assumption|]).
  apply add_assets_Ok in Hadd as (Hp & He & _).
  pose proof (frame_view_stage K md item3 item4 Hview) as Fv.
  pose proof (frame_properties_stage md item4) as Fp.
  unfold append_link. cbn [item_properties item_stac_extensions].
  rewrite Hp, He. repeat split.
  - intros k Hk1 Hk2.
    rewrite (frame_properties Fp k Hk2). apply (frame_properties Fv k Hk1).
  - intros u Hin.
    destruct (frame_extensions Fp u Hin) as [[]|Hin4].
    destruct (frame_extensions Fv u Hin4) as [[<-|[]]|Hin3]; auto.
  - intros u Hin.
    apply (frame_extensions_kept Fp). now apply (frame_extensions_kept Fv).
Qed.

Lemma new_item_extensions K ap md u :
  In u (item_stac_extensions
          (eo_stage md (common_metadata_stage K ap md (new_item md)))) ->
  u = Schema.EO.
Proof.
  intros Hin.
  destruct (frame_extensions (frame_eo_stage md _) u Hin) as [[<-|[]]|Hin1];
    [reflexivity|].
  destruct (frame_extensions (frame_common_metadata_stage K ap md _) u Hin1)
    as [[]|[]].
Qed.

Lemma new_item_properties K ap md k :
  ~ In k common_keys -> k <> "eo:cloud_cover" ->
  Dict.get k (item_properties
                (eo_stage md (common_metadata_stage K ap md (new_item md))))
  = None.
Proof.
  intros Hk1 Hk2.
  rewrite (frame_properties (frame_eo_stage md _) k)
    by (simpl; intuition congruence).
  now rewrite (frame_properties (frame_common_metadata_stage K ap md _) k).
Qed.

(** A relative orbit of 0 without an orbit state: the item is built and
    carries no [sat] group. *)
Lemma zero_relative_orbit_is_not_attached :
  option_map (fun md => (orbit_state md, relative_orbit md))
    (match Sample.metadata_of Sample.world_zero_orbit with
     | Ok md => Some md
     | Raise _ => None
     end) = Some (None, Some 0)
  /\ exists item,
       fst (Sample.run Sample.world_zero_orbit) = Ok item
       /\ ~ In Schema.SAT (item_stac_extensions item)
       /\ Dict.get "sat:relative_orbit" (item_properties item) = None.
Proof.
  split; [vm_compute; reflexivity|].
  eexists. split; [vm_compute; reflexivity|].
  split; [|vm_compute; reflexivity].
  simpl. intros H.
  repeat (destruct H as [H|H]; [vm_compute in H; discriminate|]).
  exact H.
Qed.

(** C3 (amended).  The item [create_item] returns carries the [sat] group
    if and only if the orbit state is a non-empty string or the relative
    orbit is a non-zero integer.  With the group come its schema and its two
    properties: [sat:orbit_state] holds the orbit state in lower case, one
    of the values of [OrbitState] (and is left out for a missing or empty
    orbit state), [sat:relative_orbit] holds the relative orbit (and is
    left out for a missing one).  Without the group the item has neither
    the schema nor the properties.  A key of the metadata mapping keeps the
    value of the mapping. *)
Theorem sat_group_iff_truthy
    (K : Constants) (X : Collaborators) (W : World) (href : string)
    (tol : float) (ap : option (list Provider))
    (rhm : option ReadHrefModifier) (prefix : option string)
    (md : Metadata) (item : Item) :
  read_metadata K X W href tol rhm = Ok md ->
  fst (create_item K X W href tol ap rhm prefix) = Ok item ->
  (In Schema.SAT (item_stac_extensions item)
   <-> truthy_str (orbit_state md) || truthy_int (relative_orbit md) = true)
  /\ (truthy_str (orbit_state md) || truthy_int (relative_orbit md) = true ->
      (~ In "sat:orbit_state" (Dict.keys (metadata_dict md)) ->
       Dict.get "sat:orbit_state" (item_properties item)
       = match orbit_state md with
         | Some s => if String.eqb s "" then None else Some (VStr (Py.lower s))
         | None => None
         end)
      /\ (~ In "sat:relative_orbit" (Dict.keys (metadata_dict md)) ->
          Dict.get "sat:relative_orbit" (item_properties item)
          = option_map VInt (relative_orbit md))
      /\ (forall s, orbit_state md = Some s -> s <> "" ->
            In (Py.lower s) ["ascending"; "descending"; "geostationary"]))
  /\ (truthy_str (orbit_state md) || truthy_int (relative_orbit md) = false ->
      forall k, In k sat_keys -> ~ In k (Dict.keys (metadata_dict md)) ->
        Dict.get k (item_properties item) = None).
Proof.
  intros Hread Hrun.
  rewrite (create_item_read K X W href tol ap rhm prefix md Hread) in Hrun.
  destruct (assemble_stages K X href ap prefix md item Hrun)
    as (item1 & item2 & item3 & Hsat & Hproj & Hmgrs & Hprops & Hext & Hkept).
  pose proof (frame_proj_stage href md item1 item2 Hproj) as Fp.
  pose proof (frame_mgrs_stage md item2 item3 Hmgrs) as Fm.
  assert (Hfresh : ~ In Schema.SAT
            (item_stac_extensions
               (eo_stage md (common_metadata_stage K ap md (new_item md))))).
  { intros Hin. apply new_item_extensions in Hin. discriminate. }
  assert (Hlater : forall k, In k sat_keys ->
            ~ In k (Dict.keys (metadata_dict md)) ->
            Dict.get k (item_properties item)
            = Dict.get k (item_properties item1)).
  { intros k Hk Hmd. unfold sat_keys in Hk. simpl in Hk.
    destruct Hk as [<-|[<-|[]]];
      (rewrite Hprops by (assumption || not_in_concrete);
       rewrite (frame_properties Fm) by not_in_concrete;
       now rewrite (frame_properties Fp) by not_in_concrete). }
  split; [|split].
  - rewrite <- (sat_stage_attached md _ item1 Hsat Hfresh). split.
    + intros Hin. destruct (Hext _ Hin) as [E|Hin3]; [discriminate|].
      destruct (frame_extensions Fm _ Hin3) as [[E|[E|[]]]|Hin2];
        [discriminate | discriminate |].
      destruct (frame_extensions Fp _ Hin2) as [[E|[]]|Hin1];
        [discriminate | assumption].
    + intros Hin. apply Hkept. apply (frame_extensions_kept Fm).
      now apply (frame_extensions_kept Fp).
  - intros Hguard.
    destruct (sat_stage_properties md _ item1 Hsat Hguard)
      as (Hstate & Hrelative & Hvalid).
    + apply new_item_properties; (not_in_concrete || discriminate).
    + apply new_item_properties; (not_in_concrete || discriminate).
    + split; [|split].
      * intros Hmd. rewrite Hlater by (assumption || not_in_concrete).
        exact Hstate.
      * intros Hmd. rewrite Hlater by (assumption || not_in_concrete).
        exact Hrelative.
      * exact Hvalid.
  - intros Hguard k Hk Hmd.
    assert (Hitem1 : item1
              = eo_stage md (common_metadata_stage K ap md (new_item md))).
    { unfold sat_stage in Hsat. rewrite Hguard in Hsat. congruence. }
    rewrite (Hlater k Hk Hmd), Hitem1.
    unfold sat_keys in Hk. simpl in Hk.
    destruct Hk as [<-|[<-|[]]];
      apply new_item_properties; (not_in_concrete || discriminate).
Qed.

(** The sample scene, on a descending orbit of relative number 128. *)
Lemma sat_group_iff_truthy_witness :
  In Schema.SAT (item_stac_extensions Sample.typical_item)
  /\ Dict.get "sat:orbit_state" (item_properties Sample.typical_item)
     = Some (VStr "descending")
  /\ Dict.get "sat:relative_orbit" (item_properties Sample.typical_item)
     = Some (VInt 128).
Proof.
  destruct (sat_group_iff_truthy Sample.constants Sample.collaborators
              Sample.world_typical Sample.safe_href 0%float None None None
              Sample.typical_metadata Sample.typical_item)
    as (Hschema & Hattached & _).
  - vm_compute. reflexivity.
  - vm_compute. reflexivity.
  - destruct (Hattached eq_refl) as (Hstate & Hrelative & _).
    split; [apply Hschema; reflexivity|]. split.
    + apply Hstate. vm_compute. intuition discriminate.
    + apply Hrelative. vm_compute. intuition discriminate.
Defined.

(** *** The tile designator *)

Lemma is_decimal_cases (c : ascii) :
  Py.is_decimal c = true ->
  In c ["0"; "1"; "2"; "3"; "4"; "5"; "6"; "7"; "8"; "9"]%char.
Proof.
  destruct c as [[] [] [] [] [] [] [] []]; intros H;
    try (vm_compute in H; discriminate); simpl; auto 12.
Qed.

Lemma search_Some {A} (m : string -> option A) (s : string) (r : A) :
  Re.search m s = Some r -> exists s', m s' = Some r.
Proof.
  induction s as [|c s IH]; simpl.
  - destruct (m "") eqn:E; [|discriminate]. intros [= <-]. eauto.
  - destruct (m (String c s)) eqn:E; [intros [= <-]; eauto | apply IH].
Qed.

(** Group 1 of the tile designator is one or two decimal digits. *)
Lemma MGRS_PATTERN_zone s z b q :
  MGRS_PATTERN s = Some (z, b, q) ->
  (exists d1, z = String d1 "" /\ Py.is_decimal d1 = true)
  \/ (exists d1 d2, z = String d1 (String d2 "")
                    /\ Py.is_decimal d1 = true /\ Py.is_decimal d2 = true).
Proof.
  unfold MGRS_PATTERN.
  destruct s as [|u [|t [|d1 rest]]]; try discriminate.
  destruct (Ascii.eqb u "_" && Ascii.eqb t "T" && Py.is_decimal d1) eqn:E;
    [|discriminate].
  apply andb_prop in E as [_ Hd1].
  destruct rest as [|d2 rest2].
  - destruct (mgrs_letters ""); [|discriminate].
    destruct p. intros [= <- _ _]. left. eauto.
  - destruct (Py.is_decimal d2) eqn:Hd2.
    + destruct (mgrs_letters rest2) as [[b2 q2]|].
      * intros [= <- _ _]. right. eauto.
      * destruct (mgrs_letters (String d2 rest2)) as [[b1 q1]|]; [|discriminate].
        intros [= <- _ _]. left. eauto.
    + destruct (mgrs_letters (String d2 rest2)) as [[b1 q1]|]; [|discriminate].
      intros [= <- _ _]. left. eauto.
Qed.

(** [str(int(zone))] drops the leading zero of the zone. *)
Lemma zone_unpadded s z b q :
  MGRS_PATTERN s = Some (z, b, q) ->
  exists n, Py.int_of_str z = Some n /\ Py.str_of_int n = unpadded z.
Proof.
  intros H. apply MGRS_PATTERN_zone in H as [(d1 & -> & H1)|(d1 & d2 & -> & H1 & H2)].
  - apply is_decimal_cases in H1. simpl in H1.
    repeat (destruct H1 as [<-|H1]; [eexists; split; reflexivity|]).
    destruct H1.
  - apply is_decimal_cases in H1. apply is_decimal_cases in H2.
    simpl in H1, H2.
    repeat (destruct H1 as [<-|H1];
            [repeat (destruct H2 as [<-|H2];
                     [eexists; split; vm_compute; reflexivity|]);
             destruct H2|]).
    destruct H1.
Qed.

Lemma mgrs_stage_matched md item zone band square :
  Re.search MGRS_PATTERN (scene_id md) = Some (zone, band, square) ->
  exists item',
    mgrs_stage md item = (Ok item', [])
    /\ In Schema.MGRS (item_stac_extensions item')
    /\ In Schema.GRID (item_stac_extensions item')
    /\ Dict.get "grid:code" (item_properties item')
       = Some (VStr ("MGRS-" ++ unpadded zone ++ band ++ square)).
Proof.
  intros Hs. unfold mgrs_stage. rewrite Hs.
  destruct (search_Some _ _ _ Hs) as (s' & Hm).
  destruct (zone_unpadded s' zone band square Hm) as (n & -> & Hn).
  eexists. split; [reflexivity|].
  unfold set_grid, set_mgrs, grid_code. rewrite Hn.
  split; [|split].
  - rewrite set_property_extensions. apply add_extension_In. right.
    rewrite !set_property_extensions. apply add_extension_In. now left.
  - rewrite set_property_extensions. apply add_extension_In. now left.
  - apply set_property_get_same.
Qed.

Lemma mgrs_stage_unmatched md item :
  Re.search MGRS_PATTERN (scene_id md) = None ->
  mgrs_stage md item
  = (Ok item, [LogError (mgrs_error_message (scene_id md))]).
Proof. intros Hs. unfold mgrs_stage. now rewrite Hs. Qed.

Lemma bind_snd_In {A B} (m : M A) (f : A -> M B) (ev : Event) :
  In ev (snd m) -> In ev (snd (bind m f)).
Proof.
  destruct m as [[a|e] l]; simpl; [|auto].
  destruct (f a). simpl. intros Hin. apply in_or_app. now left.
Qed.

(** C7.  When the tile designator pattern matches the scene id, the MGRS
    stage sets the grid code to [MGRS-{zone}{band}{square}] with the zone
    without its leading zero, and the item returned carries it (unless the
    metadata mapping has a [grid:code] of its own).  When the pattern does
    not match, the stage logs an error and hands the item on unchanged; the
    item returned has no MGRS or grid group. *)
Theorem mgrs_grid_code
    (K : Constants) (X : Collaborators) (W : World) (href : string)
    (tol : float) (ap : option (list Provider))
    (rhm : option ReadHrefModifier) (prefix : option string) (md : Metadata) :
  read_metadata K X W href tol rhm = Ok md ->
  match Re.search MGRS_PATTERN (scene_id md) with
  | Some (zone, band, square) =>
      (forall item0, exists item1,
          mgrs_stage md item0 = (Ok item1, [])
          /\ Dict.get "grid:code" (item_properties item1)
             = Some (VStr ("MGRS-" ++ unpadded zone ++ band ++ square)))
      /\ forall item,
           fst (create_item K X W href tol ap rhm prefix) = Ok item ->
           In Schema.MGRS (item_stac_extensions item)
           /\ In Schema.GRID (item_stac_extensions item)
           /\ (~ In "grid:code" (Dict.keys (metadata_dict md)) ->
               Dict.get "grid:code" (item_properties item)
               = Some (VStr ("MGRS-" ++ unpadded zone ++ band ++ square)))
  | None =>
      (forall item0,
          mgrs_stage md item0
          = (Ok item0, [LogError (mgrs_error_message (scene_id md))]))
      /\ forall item,
           fst (create_item K X W href tol ap rhm prefix) = Ok item ->
           ~ In Schema.MGRS (item_stac_extensions item)
           /\ ~ In Schema.GRID (item_stac_extensions item)
           /\ In (LogError (mgrs_error_message (scene_id md)))
                (snd (create_item K X W href tol ap rhm prefix))
           /\ forall k, In k mgrs_keys ->
                ~ In k (Dict.keys (metadata_dict md)) ->
                Dict.get k (item_properties item) = None
  end.
Proof.
  intros Hread.
  rewrite (create_item_read K X W href tol ap rhm prefix md Hread).
  destruct (Re.search MGRS_PATTERN (scene_id md)) as [[[zone band] square]|]
    eqn:Hs.
  - split.
    + intros item0.
      destruct (mgrs_stage_matched md item0 zone band square Hs)
        as (item1 & H1 & _ & _ & H2). eauto.
    + intros item Hrun.
      destruct (assemble_stages K X href ap prefix md item Hrun)
        as (item1 & item2 & item3 & _ & _ & Hmgrs & Hprops & _ & Hkept).
      destruct (mgrs_stage_matched md item2 zone band square Hs)
        as (item3' & H1 & Hm & Hg & Hcode).
      rewrite H1 in Hmgrs. simpl in Hmgrs. injection Hmgrs as ->.
      repeat split; auto.
      intros Hmd. rewrite Hprops by (assumption || not_in_concrete).
      exact Hcode.
  - split; [intros item0; now apply mgrs_stage_unmatched|].
    intros item Hrun.
    destruct (assemble_stages K X href ap prefix md item Hrun)
      as (item1 & item2 & item3 & Hsat & Hproj & Hmgrs & Hprops & Hext & _).
    rewrite (mgrs_stage_unmatched md item2 Hs) in Hmgrs. simpl in Hmgrs.
    injection Hmgrs as <-.
    pose proof (frame_proj_stage href md item1 item2 Hproj) as Fp.
    pose proof (frame_sat_stage md _ item1 Hsat) as Fs.
    assert (Hnot : forall u, u = Schema.MGRS \/ u = Schema.GRID ->
                     ~ In u (item_stac_extensions item)).
    { intros u Hu Hin.
      destruct (Hext _ Hin) as [E|Hin2];
        [destruct Hu; subst; discriminate|].
      destruct (frame_extensions Fp _ Hin2) as [[E|[]]|Hin1];
        [destruct Hu; subst; discriminate|].
      destruct (frame_extensions Fs _ Hin1) as [[E|[]]|Hin0];
        [destruct Hu; subst; discriminate|].
      apply new_item_extensions in Hin0.
      destruct Hu; subst; discriminate. }
    split; [apply Hnot; auto|]. split; [apply Hnot; auto|]. split.
    + unfold assemble, extensions_stage. cbv zeta.
      apply bind_snd_In.
      rewrite Hsat, bind_lift_Ok, Hproj, bind_lift_Ok.
      apply bind_snd_In. rewrite (mgrs_stage_unmatched md item2 Hs).
      simpl. auto.
    + intros k Hk Hmd. unfold mgrs_keys in Hk. simpl in Hk.
      destruct Hk as [<-|[<-|[<-|[<-|[]]]]];
        (rewrite Hprops by (assumption || not_in_concrete);
         rewrite (frame_properties Fp) by not_in_concrete;
         rewrite (frame_properties Fs) by not_in_concrete;
         apply new_item_properties; (not_in_concrete || discriminate)).
Qed.

(** A scene id without a tile designator: the error is logged and the item
    is built all the same.  A scene id with tile [T01CCV]: the grid code is
    [MGRS-1CCV]. *)
Lemma mgrs_grid_code_witness :
  (fst (Sample.run Sample.world_no_tile) = Ok Sample.no_tile_item
   /\ ~ In Schema.GRID (item_stac_extensions Sample.no_tile_item)
   /\ In (LogError (mgrs_error_message (scene_id Sample.no_tile_metadata)))
         (snd (Sample.run Sample.world_no_tile)))
  /\ (fst (Sample.run Sample.world_typical) = Ok Sample.typical_item
      /\ Dict.get "grid:code" (item_properties Sample.typical_item)
         = Some (VStr "MGRS-1CCV")).
Proof.
  unfold Sample.run. split.
  - assert (Hrun : fst (create_item Sample.constants Sample.collaborators
                          Sample.world_no_tile Sample.safe_href 0%float
                          None None None)
                   = Ok Sample.no_tile_item) by (vm_compute; reflexivity).
    assert (Hread : read_metadata Sample.constants Sample.collaborators
                      Sample.world_no_tile Sample.safe_href 0%float None
                    = Ok Sample.no_tile_metadata) by (vm_compute; reflexivity).
    assert (Hs : Re.search MGRS_PATTERN (scene_id Sample.no_tile_metadata)
                 = None) by (vm_compute; reflexivity).
    pose proof (mgrs_grid_code Sample.constants Sample.collaborators
                  Sample.world_no_tile Sample.safe_href 0%float None None None
                  Sample.no_tile_metadata Hread) as H.
    rewrite Hs in H. destruct H as (_ & Hitem).
    destruct (Hitem Sample.no_tile_item Hrun) as (_ & Hgrid & Hlog & _).
    split; [exact Hrun|]. split; [exact Hgrid | exact Hlog].
  - assert (Hrun : fst (create_item Sample.constants Sample.collaborators
                          Sample.world_typical Sample.safe_href 0%float
                          None None None)
                   = Ok Sample.typical_item) by (vm_compute; reflexivity).
    assert (Hread : read_metadata Sample.constants Sample.collaborators
                      Sample.world_typical Sample.safe_href 0%float None
                    = Ok Sample.typical_metadata) by (vm_compute; reflexivity).
    assert (Hs : Re.search MGRS_PATTERN (scene_id Sample.typical_metadata)
                 = Some ("01", "C", "CV")) by (vm_compute; reflexivity).
    pose proof (mgrs_grid_code Sample.constants Sample.collaborators
                  Sample.world_typical Sample.safe_href 0%float None None None
                  Sample.typical_metadata Hread) as H.
    rewrite Hs in H. destruct H as (_ & Hitem).
    destruct (Hitem Sample.typical_item Hrun) as (_ & _ & Hcode).
    split; [exact Hrun|]. apply Hcode.
    vm_compute. intuition discriminate.
Defined.

(** *** Key collisions *)

(** A key met in the image assets and again in the extra assets stops the
    loop, whatever the item held before. *)
Lemma add_assets_shared_key l1 l2 item k :
  In k (Dict.keys l1) -> In k (Dict.keys l2) ->
  add_assets (l1 ++ l2) item = Raise AssertionError.
Proof.
  intros H1 H2. rewrite add_assets_app.
  destruct (add_assets l1 item) as [item1|e] eqn:E.
  - apply add_assets_Ok in E as (_ & _ & Hmem).
    apply (add_assets_collision l2 item1 k H2). now apply Hmem.
  - now rewrite (add_assets_raise l1 item e E).
Qed.

(** An image path with [_PVI] in it takes the key [preview]. *)
Lemma image_assets_preview K X href prefix md assets path :
  fst (image_assets_stage K X href prefix md) = Ok assets ->
  In path (image_paths md) ->
  Py.contains "_PVI" path = true ->
  In "preview" (Dict.keys assets).
Proof.
  unfold image_assets_stage. intros H Hin Hpvi.
  apply bind_Ok in H as (pairs & Hmap & H). simpl in H. injection H as <-.
  destruct (map_M_Ok _ _ Hmap path Hin) as ([key asset] & Hb & Hinb).
  rewrite image_asset_from_href_fst in Hb.
  unfold resolve_media_type in Hb.
  rewrite (contains_path_join "_PVI" _ path Hpvi) in Hb.
  unfold preview_asset in Hb.
  destruct (rgb_bands K); [|discriminate]. injection Hb as <- _.
  apply dict_mem_In. rewrite dict_mem_of_pairs. apply existsb_key_In.
  change "preview" with (fst ("preview", asset)). now apply in_map.
Qed.

(** What the SAFE reader returns when the manifest has a thumbnail. *)
Lemma safe_metadata_with_thumbnail K X W href tol rhm m p g t :
  Py.endswith (Py.lower href) ".safe" = true ->
  read_SafeManifest W href rhm = Ok m ->
  read_ProductMetadata W (product_metadata_href m) rhm = Ok p ->
  read_GranuleMetadata W (granule_metadata_href m) rhm = Ok g ->
  thumbnail_href m = Some t ->
  exists md,
    read_metadata K X W href tol rhm = Ok md
    /\ In "preview" (Dict.keys (extra_assets md))
    /\ image_paths md = pm_image_paths p.
Proof.
  intros Hsafe Hm Hp Hg Ht.
  unfold read_metadata, metadata_from_safe_manifest.
  rewrite Hsafe, Hm, Hp, Hg, Ht.
  eexists. split; [reflexivity|]. split; [|reflexivity].
  cbn [extra_assets]. apply dict_keys_set. now left.
Qed.

(** C9.  In the SAFE route a manifest thumbnail is stored under the key
    [preview], the key of any image path with [_PVI] in it.  With both
    present, [create_item] never returns an item; once the extensions are
    set and every image path is classified, it is the assertion of the
    asset loop that fails. *)
Theorem safe_thumbnail_collides_with_preview
    (K : Constants) (X : Collaborators) (W : World) (href : string)
    (tol : float) (ap : option (list Provider))
    (rhm : option ReadHrefModifier) (prefix : option string)
    (m : SafeManifest) (p : ProductMetadata) (g : GranuleMetadata)
    (t path : string) :
  Py.endswith (Py.lower href) ".safe" = true ->
  read_SafeManifest W href rhm = Ok m ->
  read_ProductMetadata W (product_metadata_href m) rhm = Ok p ->
  read_GranuleMetadata W (granule_metadata_href m) rhm = Ok g ->
  thumbnail_href m = Some t ->
  In path (pm_image_paths p) ->
  Py.contains "_PVI" path = true ->
  exists md,
    read_metadata K X W href tol rhm = Ok md
    /\ In "preview" (Dict.keys (extra_assets md))
    /\ (forall item, fst (create_item K X W href tol ap rhm prefix) <> Ok item)
    /\ (forall item0 assets,
          fst (extensions_stage K href md
                 (common_metadata_stage K ap md (new_item md))) = Ok item0 ->
          fst (image_assets_stage K X href prefix md) = Ok assets ->
          In "preview" (Dict.keys assets)
          /\ fst (create_item K X W href tol ap rhm prefix)
             = Raise AssertionError).
Proof.
  intros Hsafe Hm Hp Hg Ht Hin Hpvi.
  destruct (safe_metadata_with_thumbnail K X W href tol rhm m p g t
              Hsafe Hm Hp Hg Ht) as (md & Hread & Hextra & Hpaths).
  exists md. split; [assumption|]. split; [assumption|].
  rewrite (create_item_read K X W href tol ap rhm prefix md Hread).
  rewrite <- Hpaths in Hin. split.
  - intros item Hrun.
    destruct (assemble_Ok K X href ap prefix md item Hrun)
      as (item1 & item2 & item3 & item4 & assets & item5
          & _ & _ & _ & _ & Himg & Hadd & _).
    pose proof (image_assets_preview K X href prefix md assets path
                  Himg Hin Hpvi) as Hkey.
    unfold Dict.items in Hadd.
    rewrite (add_assets_shared_key assets (extra_assets md) _ "preview"
               Hkey Hextra) in Hadd.
    discriminate.
  - intros item0 assets Hext Himg.
    pose proof (image_assets_preview K X href prefix md assets path
                  Himg Hin Hpvi) as Hkey.
    split; [assumption|].
    unfold assemble. cbv zeta.
    rewrite (bind_fst_Ok _ _ Hext), (bind_fst_Ok _ _ Himg).
    apply bind_fst_Raise. unfold Dict.items. simpl.
    apply (add_assets_shared_key assets (extra_assets md) _ "preview");
      assumption.
Qed.

Lemma safe_thumbnail_collides_with_preview_witness :
  fst (create_item Sample.constants Sample.collaborators
         Sample.world_thumbnail Sample.safe_href 0%float None None None)
  = Raise AssertionError.
Proof.
  destruct (safe_thumbnail_collides_with_preview
              Sample.constants Sample.collaborators Sample.world_thumbnail
              Sample.safe_href 0%float None None None
              (Sample.manifest (Some "preview.tif"))
              (Sample.product Sample.scene (Some "DESCENDING") (Some 128)
                 [ "GRANULE/IMG_DATA/R10m/T01CCV_B02_10m.jp2";
                   "GRANULE/QI_DATA/T01CCV_PVI.jp2" ])
              (Sample.granule (Some 32701))
              "preview.tif" "GRANULE/QI_DATA/T01CCV_PVI.jp2")
    as (md & Hread & _ & _ & Hassert).
  - vm_compute. reflexivity.
  - vm_compute. reflexivity.
  - vm_compute. reflexivity.
  - vm_compute. reflexivity.
  - reflexivity.
  - simpl. auto.
  - vm_compute. reflexivity.
  - vm_compute in Hread. injection Hread as <-.
    eapply Hassert; vm_compute; reflexivity.
Defined.

(** C1, at an input with two image paths of the key [B02]: [dict] keeps
    the asset of the later path and the item is built; no assertion
    fails. *)
Lemma duplicate_image_keys_are_merged :
  (exists a1 a2,
      fst (image_asset_from_href Sample.constants Sample.collaborators
             (Py.path_join Sample.safe_href
                "GRANULE/IMG_DATA/R10m/T01CCV_B02_10m.jp2")
             Sample.shapes Sample.projected_bbox (Some MediaType.JPEG2000))
      = Ok ("B02", a1)
      /\ fst (image_asset_from_href Sample.constants Sample.collaborators
                (Py.path_join Sample.safe_href
                   "GRANULE/IMG_DATA/R10m/T01CCV_20160327T204522_B02_10m.jp2")
                Sample.shapes Sample.projected_bbox (Some MediaType.JPEG2000))
         = Ok ("B02", a2))
  /\ exists item,
       fst (create_item Sample.constants Sample.collaborators
              Sample.world_duplicate Sample.safe_href 0%float None None None)
       = Ok item
       /\ Dict.keys (item_assets item)
          = [ "B02"; "safe-manifest"; "product-metadata"; "granule-metadata";
              "inspire-metadata"; "datastrip-metadata" ]
       /\ option_map asset_href (Dict.get "B02" (item_assets item))
          = Some (Py.path_join Sample.safe_href
                    "GRANULE/IMG_DATA/R10m/T01CCV_20160327T204522_B02_10m.jp2").
Proof.
  split.
  - do 2 eexists. split; vm_compute; reflexivity.
  - eexists. split; [vm_compute; reflexivity|].
    split; vm_compute; reflexivity.
Qed.

(* ------------------------------------------------------------------ *)
(** ** Further properties of the asset classifier *)

(** What a successful call went through. *)
Lemma image_asset_from_href_Ok K X href rts bbox mt key asset :
  fst (image_asset_from_href K X href rts bbox mt) = Ok (key, asset) ->
  exists amt,
    resolve_media_type href mt = Ok amt
    /\ ((Py.contains "_PVI" href = true
         /\ preview_asset K href amt = Ok (key, asset))
        \/ (Py.contains "_PVI" href = false
            /\ exists r shape tr,
                 projection_info K X href rts bbox = Ok (r, shape, tr)
                 /\ match Re.search BAND_ID_PATTERN href with
                    | Some g =>
                        band_asset K href amt g r shape bbox tr
                        = Ok (key, asset)
                    | None =>
                        auxiliary_asset K X href amt shape bbox tr
                        = Ok (key, asset)
                    end)).
Proof.
  rewrite image_asset_from_href_fst.
  destruct (resolve_media_type href mt) as [amt|]; [|discriminate].
  intros H. exists amt. split; [reflexivity|].
  destruct (Py.contains "_PVI" href); [left; auto|].
  right. split; [reflexivity|].
  destruct (projection_info K X href rts bbox) as [[[r shape] tr]|];
    [|discriminate].
  exists r, shape, tr. split; [reflexivity|].
  destruct (Re.search BAND_ID_PATTERN href); exact H.
Qed.

Lemma projection_info_Ok K X href rts bbox r shape tr :
  projection_info K X href rts bbox = Ok (r, shape, tr) ->
  exists rows cols,
    detect_resolution K X href = Ok (Some r)
    /\ Dict.get r rts = Some (rows, cols)
    /\ shape = [rows; cols]
    /\ transform_from_bbox X bbox shape = Ok tr.
Proof.
  unfold projection_info, lookup_shape.
  destruct (detect_resolution K X href) as [[r0|]|]; try discriminate.
  destruct (Dict.get r0 rts) as [[rows cols]|] eqn:Hget; [|discriminate].
  destruct (transform_from_bbox X bbox [rows; cols]) as [t|] eqn:Ht;
    [|discriminate].
  intros E. injection E as <- <- <-. exists rows, cols. auto.
Qed.

Lemma rgb_bands_Ok K bands :
  rgb_bands K = Ok bands ->
  exists r g b,
    Dict.get "B04" (SENTINEL_BANDS K) = Some r
    /\ Dict.get "B03" (SENTINEL_BANDS K) = Some g
    /\ Dict.get "B02" (SENTINEL_BANDS K) = Some b
    /\ bands = [r; g; b].
Proof.
  unfold rgb_bands, sentinel_band.
  destruct (Dict.get "B04" (SENTINEL_BANDS K)) as [r|]; [|discriminate].
  destruct (Dict.get "B03" (SENTINEL_BANDS K)) as [g|]; [|discriminate].
  destruct (Dict.get "B02" (SENTINEL_BANDS K)) as [b|]; [|discriminate].
  intros E. injection E as <-. exists r, g, b. auto.
Qed.

Lemma band_of_href_band K href g r band_id asset_res band :
  band_of_href K href g r = Ok (band_id, asset_res, band) ->
  Dict.get band_id (SENTINEL_BANDS K) = Some band.
Proof.
  unfold band_of_href, sentinel_band.
  destruct (Dict.get g (SENTINEL_BANDS K)) as [b0|] eqn:Hg.
  - intros E. injection E as <- _ <-. exact Hg.
  - cbv zeta.
    destruct (Dict.get (Py.split_last "_" (fst (Py.splitext href)))
                (SENTINEL_BANDS K)) as [b1|] eqn:Hb; [|discriminate].
    destruct (native_resolution K g); [|discriminate].
    intros E. injection E as <- _ <-. exact Hb.
Qed.

Lemma band_asset_Ok K href amt g r shape bbox tr key asset :
  band_asset K href amt g r shape bbox tr = Ok (key, asset) ->
  projected href amt shape bbox tr asset
  /\ asset_roles asset = Some ["data"]
  /\ exists band_id asset_res band native,
       band_of_href K href g r = Ok (band_id, asset_res, band)
       /\ native_resolution K band_id = Ok native
       /\ key = fst (band_key_gsd band_id asset_res native)
       /\ asset_eo_bands asset = Some [band]
       /\ asset_title asset
          = Some (Py.format_opt_str (band_description band) ++ " - "
                    ++ Py.str_of_int asset_res ++ "m").
Proof.
  unfold band_asset.
  destruct (band_of_href K href g r) as [[[band_id asset_res] band]|] eqn:Hb;
    [|discriminate].
  destruct (native_resolution K band_id) as [native|] eqn:Hn; [|discriminate].
  destruct (band_key_gsd band_id asset_res native) as [k gsd] eqn:Hk.
  intros E. injection E as <- <-.
  split; [repeat split|]. split; [reflexivity|].
  exists band_id, asset_res, band, native. rewrite Hk.
  repeat split; (assumption || reflexivity).
Qed.

Lemma auxiliary_asset_Ok K X href amt shape bbox tr key asset :
  auxiliary_asset K X href amt shape bbox tr = Ok (key, asset) ->
  projected href amt shape bbox tr asset
  /\ asset_gsd asset = None
  /\ asset_eo_bands asset
     = (if Re.matches TCI_PATTERN href
        then match rgb_bands K with Ok bands => Some bands | Raise _ => None end
        else None).
Proof.
  unfold auxiliary_asset.
  destruct (Re.matches TCI_PATTERN href).
  { destruct (rgb_bands K); [|discriminate].
    intros E. injection E as <- <-. repeat split. }
  destruct (Re.matches AOT_PATTERN href);
    [intros E; injection E as <- <-; repeat split|].
  destruct (Re.matches WVP_PATTERN href);
    [intros E; injection E as <- <-; repeat split|].
  destruct (Re.matches SCL_PATTERN href);
    [intros E; injection E as <- <-; repeat split|].
  discriminate.
Qed.

Lemma preview_asset_Ok K href amt key asset :
  preview_asset K href amt = Ok (key, asset) ->
  key = "preview"
  /\ asset_href asset = href
  /\ asset_media_type asset = Some amt
  /\ asset_gsd asset = None
  /\ asset_proj_shape asset = None
  /\ asset_proj_bbox asset = None
  /\ asset_proj_transform asset = None
  /\ exists bands, rgb_bands K = Ok bands /\ asset_eo_bands asset = Some bands.
Proof.
  unfold preview_asset.
  destruct (rgb_bands K) as [bands|]; [|discriminate].
  intros E. injection E as <- <-. repeat split. eauto.
Qed.

(** X1.  An asset the classifier returns points at the href it was given
    and has the media type passed in, or, without one, the type the
    extension of the href selects: JPEG 2000 for [.jp2], GeoTIFF for
    [.tiff] and [.tif], in any letter case. *)
Theorem asset_keeps_href_and_media_type
    (K : Constants) (X : Collaborators) (href : string)
    (rts : Dict.t Z (Z * Z)) (bbox : list float) (mt : option string)
    (key : string) (asset : Asset) :
  fst (image_asset_from_href K X href rts bbox mt) = Ok (key, asset) ->
  asset_href asset = href
  /\ match mt with
     | Some m => asset_media_type asset = Some m
     | None =>
         (Py.lower (snd (Py.splitext href)) = ".jp2"
          /\ asset_media_type asset = Some MediaType.JPEG2000)
         \/ (In (Py.lower (snd (Py.splitext href))) [".tiff"; ".tif"]
             /\ asset_media_type asset = Some MediaType.GEOTIFF)
     end.
Proof.
  intros H.
  apply image_asset_from_href_Ok in H as (amt & Hmt & H).
  assert (Hasset : asset_href asset = href /\ asset_media_type asset = Some amt).
  { destruct H as [(_ & H)|(_ & r & shape & tr & _ & H)].
    - apply preview_asset_Ok in H. tauto.
    - destruct (Re.search BAND_ID_PATTERN href) as [g|].
      + apply band_asset_Ok in H as ((? & ? & _) & _). auto.
      + apply auxiliary_asset_Ok in H as ((? & ? & _) & _). auto. }
  destruct Hasset as (Hhref & Hmedia). rewrite Hmedia.
  split; [assumption|]. unfold resolve_media_type in Hmt.
  destruct mt as [m|]; [congruence|].
  destruct (String.eqb_spec (Py.lower (snd (Py.splitext href))) ".jp2")
    as [Hjp2|_]; [left; split; congruence|].
  destruct (String.eqb_spec (Py.lower (snd (Py.splitext href))) ".tiff")
    as [Htiff|_].
  { right. simpl orb in Hmt. split; [simpl; auto | congruence]. }
  destruct (String.eqb_spec (Py.lower (snd (Py.splitext href))) ".tif")
    as [Htif|_]; [|discriminate].
  right. simpl orb in Hmt. split; [simpl; auto | congruence].
Qed.

(** An upper-case extension selects the same type. *)
Lemma asset_keeps_href_and_media_type_witness :
  exists asset,
    fst (image_asset_from_href Sample.constants Sample.collaborators
           "IMG_DATA/R20m/T01CCV_B02_20m.JP2" Sample.shapes
           Sample.projected_bbox None)
    = Ok ("B02_20m", asset)
    /\ asset_href asset = "IMG_DATA/R20m/T01CCV_B02_20m.JP2"
    /\ asset_media_type asset = Some MediaType.JPEG2000.
Proof.
  eexists. split; [vm_compute; reflexivity|].
  match goal with
  | |- context [asset_href ?a] =>
      destruct (asset_keeps_href_and_media_type Sample.constants
                  Sample.collaborators "IMG_DATA/R20m/T01CCV_B02_20m.JP2"
                  Sample.shapes Sample.projected_bbox None "B02_20m" a)
        as (Hhref & [(_ & Hmedia)|(Hext & _)])
  end.
  - vm_compute. reflexivity.
  - split; [exact Hhref | exact Hmedia].
  - exfalso. vm_compute in Hext. intuition discriminate.
Defined.

(** X2.  Without a media type, an href whose extension is none of
    [.jp2], [.tif], [.tiff] (in any letter case) is rejected before
    anything else is looked at, preview images included. *)
Theorem unknown_extension_is_fatal
    (K : Constants) (X : Collaborators) (href : string)
    (rts : Dict.t Z (Z * Z)) (bbox : list float) :
  ~ In (Py.lower (snd (Py.splitext href))) [".jp2"; ".tiff"; ".tif"] ->
  image_asset_from_href K X href rts bbox None
  = (Raise (PlainException ("Must supply a media type for asset : " ++ href)),
     [classifier_call href]).
Proof.
  intros Hext.
  assert (Hmt : resolve_media_type href None
                = Raise (PlainException
                           ("Must supply a media type for asset : " ++ href))).
  { unfold resolve_media_type.
    destruct (String.eqb_spec (Py.lower (snd (Py.splitext href))) ".jp2")
      as [E|_]; [exfalso; apply Hext; rewrite E; simpl; auto|].
    destruct (String.eqb_spec (Py.lower (snd (Py.splitext href))) ".tiff")
      as [E|_]; [exfalso; apply Hext; rewrite E; simpl; auto|].
    destruct (String.eqb_spec (Py.lower (snd (Py.splitext href))) ".tif")
      as [E|_]; [exfalso; apply Hext; rewrite E; simpl; auto|].
    reflexivity. }
  unfold image_asset_from_href. rewrite Hmt. reflexivity.
Qed.

Lemma unknown_extension_is_fatal_witness :
  image_asset_from_href Sample.constants Sample.collaborators
    "QI_DATA/T01CCV_PVI.png" Sample.shapes Sample.projected_bbox None
  = (Raise (PlainException
              "Must supply a media type for asset : QI_DATA/T01CCV_PVI.png"),
     [classifier_call "QI_DATA/T01CCV_PVI.png"]).
Proof.
  apply (unknown_extension_is_fatal Sample.constants Sample.collaborators
           "QI_DATA/T01CCV_PVI.png" Sample.shapes Sample.projected_bbox).
  vm_compute. intuition discriminate.
Defined.

(** X3.  The bands of an asset follow its kind: red, green, blue (B04,
    B03, B02, in this order) for the preview and the true color image, the
    one band of the table for a band image, none for AOT, WVP and SCL.  An
    href no rule matches never gives an asset. *)
Theorem asset_bands_by_kind
    (K : Constants) (X : Collaborators) (href : string)
    (rts : Dict.t Z (Z * Z)) (bbox : list float) (mt : option string)
    (key : string) (asset : Asset) :
  fst (image_asset_from_href K X href rts bbox mt) = Ok (key, asset) ->
  match first_match href with
  | Some Preview | Some TrueColor =>
      exists r g b,
        Dict.get "B04" (SENTINEL_BANDS K) = Some r
        /\ Dict.get "B03" (SENTINEL_BANDS K) = Some g
        /\ Dict.get "B02" (SENTINEL_BANDS K) = Some b
        /\ asset_eo_bands asset = Some [r; g; b]
  | Some BandImage =>
      exists band_id band,
        Dict.get band_id (SENTINEL_BANDS K) = Some band
        /\ asset_eo_bands asset = Some [band]
  | Some _ => asset_eo_bands asset = None
  | None => False
  end.
Proof.
  intros H. rewrite first_match_cases.
  apply image_asset_from_href_Ok in H as (amt & _ & H).
  destruct H as [(-> & H)|(-> & r & shape & tr & _ & H)].
  - apply preview_asset_Ok in H
      as (_ & _ & _ & _ & _ & _ & _ & bands & Hrgb & ->).
    apply rgb_bands_Ok in Hrgb as (cr & cg & cb & ? & ? & ? & ->).
    exists cr, cg, cb. auto.
  - unfold Re.matches at 1.
    destruct (Re.search BAND_ID_PATTERN href) as [g|].
    + apply band_asset_Ok in H
        as (_ & _ & band_id & asset_res & band & native & Hb & _ & _ & Hbands & _).
      exists band_id, band. split; [|assumption].
      exact (band_of_href_band K href g r band_id asset_res band Hb).
    + pose proof (auxiliary_asset_Ok K X href amt shape bbox tr key asset H)
        as (_ & _ & Hbands).
      unfold auxiliary_asset in H.
      destruct (Re.matches TCI_PATTERN href).
      { destruct (rgb_bands K) as [bands|] eqn:Hrgb; [|discriminate].
        apply rgb_bands_Ok in Hrgb as (cr & cg & cb & ? & ? & ? & ->).
        exists cr, cg, cb. auto. }
      destruct (Re.matches AOT_PATTERN href); [assumption|].
      destruct (Re.matches WVP_PATTERN href); [assumption|].
      destruct (Re.matches SCL_PATTERN href); [assumption|].
      discriminate.
Qed.

Lemma asset_bands_by_kind_witness :
  exists band_id band,
    Dict.get band_id (SENTINEL_BANDS Sample.constants) = Some band
    /\ asset_eo_bands Sample.b02_20m = Some [band].
Proof.
  assert (Hkind : first_match "IMG_DATA/R20m/T01CCV_B02_20m.jp2"
                  = Some BandImage) by (vm_compute; reflexivity).
  assert (Hrun : fst (image_asset_from_href Sample.constants
                        Sample.collaborators "IMG_DATA/R20m/T01CCV_B02_20m.jp2"
                        Sample.shapes Sample.projected_bbox None)
                 = Ok ("B02_20m", Sample.b02_20m)) by (vm_compute; reflexivity).
  pose proof (asset_bands_by_kind Sample.constants Sample.collaborators
                "IMG_DATA/R20m/T01CCV_B02_20m.jp2" Sample.shapes
                Sample.projected_bbox None "B02_20m" Sample.b02_20m Hrun) as H.
  rewrite Hkind in H. exact H.
Defined.

(** X4.  The preview carries no projection and no ground sample distance.
    Every other asset carries the shape the mapping gives for its
    resolution, the projected bounding box it was called with and the
    transform of the two. *)
Theorem asset_projection
    (K : Constants) (X : Collaborators) (href : string)
    (rts : Dict.t Z (Z * Z)) (bbox : list float) (mt : option string)
    (key : string) (asset : Asset) :
  fst (image_asset_from_href K X href rts bbox mt) = Ok (key, asset) ->
  if Py.contains "_PVI" href then
    key = "preview"
    /\ asset_gsd asset = None
    /\ asset_proj_shape asset = None
    /\ asset_proj_bbox asset = None
    /\ asset_proj_transform asset = None
  else
    exists r rows cols tr,
      detect_resolution K X href = Ok (Some r)
      /\ Dict.get r rts = Some (rows, cols)
      /\ asset_proj_shape asset = Some [rows; cols]
      /\ asset_proj_bbox asset = Some bbox
      /\ transform_from_bbox X bbox [rows; cols] = Ok tr
      /\ asset_proj_transform asset = Some tr.
Proof.
  intros H.
  apply image_asset_from_href_Ok in H as (amt & _ & H).
  destruct H as [(-> & H)|(-> & r & shape & tr & Hinfo & H)].
  - apply preview_asset_Ok in H. tauto.
  - apply projection_info_Ok in Hinfo as (rows & cols & Hres & Hget & -> & Htr).
    exists r, rows, cols, tr.
    assert (Hp : projected href amt [rows; cols] bbox tr asset).
    { destruct (Re.search BAND_ID_PATTERN href) as [g|].
      - now apply band_asset_Ok in H as (? & _).
      - now apply auxiliary_asset_Ok in H as (? & _). }
    destruct Hp as (_ & _ & ? & ? & ?). auto 7.
Qed.

Lemma asset_projection_witness :
  exists r rows cols tr,
    detect_resolution Sample.constants Sample.collaborators
      "IMG_DATA/R20m/T01CCV_B02_20m.jp2" = Ok (Some r)
    /\ Dict.get r Sample.shapes = Some (rows, cols)
    /\ asset_proj_shape Sample.b02_20m = Some [rows; cols]
    /\ asset_proj_bbox Sample.b02_20m = Some Sample.projected_bbox
    /\ transform_from_bbox Sample.collaborators Sample.projected_bbox
         [rows; cols] = Ok tr
    /\ asset_proj_transform Sample.b02_20m = Some tr.
Proof.
  assert (Hpvi : Py.contains "_PVI" "IMG_DATA/R20m/T01CCV_B02_20m.jp2" = false)
    by (vm_compute; reflexivity).
  assert (Hrun : fst (image_asset_from_href Sample.constants
                        Sample.collaborators "IMG_DATA/R20m/T01CCV_B02_20m.jp2"
                        Sample.shapes Sample.projected_bbox None)
                 = Ok ("B02_20m", Sample.b02_20m)) by (vm_compute; reflexivity).
  pose proof (asset_projection Sample.constants Sample.collaborators
                "IMG_DATA/R20m/T01CCV_B02_20m.jp2" Sample.shapes
                Sample.projected_bbox None "B02_20m" Sample.b02_20m Hrun) as H.
  rewrite Hpvi in H. exact H.
Defined.

(** *** Where the resolution comes from *)

Lemma search_None_incl {A B : Type} (m1 : string -> option A)
    (m2 : string -> option B) :
  (forall s, m2 s = None -> m1 s = None) ->
  forall s, Re.search m2 s = None -> Re.search m1 s = None.
Proof.
  intros Hincl s. induction s as [|c s IH]; simpl.
  - destruct (m2 "") eqn:E2; [discriminate|]. now rewrite (Hincl _ E2).
  - destruct (m2 (String c s)) eqn:E2; [discriminate|].
    rewrite (Hincl _ E2). exact IH.
Qed.

Lemma is_decimal_is_word c : Py.is_decimal c = true -> Py.is_word c = true.
Proof. unfold Py.is_word. now intros ->. Qed.

(** Whatever [BAND_ID_PATTERN] matches, [BAND_PATTERN] matches too. *)
Lemma BAND_PATTERN_covers_band_ids s :
  BAND_PATTERN s = None -> BAND_ID_PATTERN s = None.
Proof.
  unfold BAND_PATTERN, BAND_ID_PATTERN.
  destruct s as [|c0 [|b [|c1 [|c2 rest]]]]; try reflexivity.
  destruct (Py.char_in "_/" c0 && Ascii.eqb b "B"); simpl; [|reflexivity].
  destruct (Py.is_decimal c1) eqn:E1; simpl;
    [rewrite (is_decimal_is_word c1 E1)|now destruct (Py.is_word c1 && _)].
  destruct (Ascii.eqb_spec c2 "A") as [->|_]; simpl; [discriminate|].
  destruct (Py.is_decimal c2) eqn:E2;
    [rewrite (is_decimal_is_word c2 E2); discriminate|].
  now destruct (Py.is_word c2).
Qed.

(** Whatever [TCI_PATTERN] matches, [IS_TCI_PATTERN] matches too. *)
Lemma IS_TCI_PATTERN_covers_TCI s :
  IS_TCI_PATTERN s = None -> TCI_PATTERN s = None.
Proof.
  unfold IS_TCI_PATTERN, TCI_PATTERN, Re.marker_open, Re.marker_closed.
  destruct s as [|c0 r]; [reflexivity|].
  destruct (Py.char_in "_/" c0); [|reflexivity].
  now destruct (Re.strip "TCI" r).
Qed.

Lemma detect_resolution_None K X href :
  detect_resolution K X href = Ok None ->
  extract_gsd X href = None
  /\ Re.search BAND_PATTERN href = None
  /\ Re.matches IS_TCI_PATTERN href = false.
Proof.
  unfold detect_resolution.
  destruct (extract_gsd X href); [discriminate|].
  destruct (Re.search BAND_PATTERN href) as [g|].
  - destruct (native_resolution K g); discriminate.
  - destruct (Re.matches IS_TCI_PATTERN href); [discriminate | auto].
Qed.

(** X5.  The resolution can only stay undetermined for an href that is
    neither a band image nor a true color image: a band id or a TCI marker
    always gives one (or a lookup error of the band table). *)
Theorem undetermined_resolution_kinds
    (K : Constants) (X : Collaborators) (href : string) :
  detect_resolution K X href = Ok None ->
  first_match href <> Some BandImage /\ first_match href <> Some TrueColor.
Proof.
  intros H. apply detect_resolution_None in H as (_ & Hband & Htci).
  apply (search_None_incl BAND_ID_PATTERN BAND_PATTERN
           BAND_PATTERN_covers_band_ids) in Hband.
  assert (Htci' : Re.matches TCI_PATTERN href = false).
  { unfold Re.matches in *.
    destruct (Re.search IS_TCI_PATTERN href) eqn:E; [discriminate|].
    now rewrite (search_None_incl TCI_PATTERN IS_TCI_PATTERN
                   IS_TCI_PATTERN_covers_TCI href E). }
  assert (Hid : Re.matches BAND_ID_PATTERN href = false)
    by (unfold Re.matches; now rewrite Hband).
  rewrite first_match_cases, Hid, Htci'.
  destruct (Py.contains "_PVI" href); [split; discriminate|].
  destruct (Re.matches AOT_PATTERN href); [split; discriminate|].
  destruct (Re.matches WVP_PATTERN href); [split; discriminate|].
  destruct (Re.matches SCL_PATTERN href); split; discriminate.
Qed.

Lemma undetermined_resolution_kinds_witness :
  first_match "GRANULE/IMG_DATA/T01CCV_SCL.jp2" <> Some BandImage
  /\ first_match "GRANULE/IMG_DATA/T01CCV_SCL.jp2" <> Some TrueColor.
Proof.
  apply (undetermined_resolution_kinds Sample.constants Sample.collaborators).
  vm_compute. reflexivity.
Defined.

(** X6.  A band href without a resolution tag (the Level-1C layout) gets
    the native resolution of its band: the key is the bare band id, the
    ground sample distance is that resolution and the shape is the one of
    that resolution. *)
Theorem untagged_band_is_native
    (K : Constants) (X : Collaborators) (href : string)
    (rts : Dict.t Z (Z * Z)) (bbox : list float) (mt : option string)
    (amt g : string) (band : Band) (native rows cols : Z) (tr : list float) :
  resolve_media_type href mt = Ok amt ->
  Py.contains "_PVI" href = false ->
  extract_gsd X href = None ->
  Re.search BAND_PATTERN href = Some g ->
  Re.search BAND_ID_PATTERN href = Some g ->
  Dict.get g (SENTINEL_BANDS K) = Some band ->
  native_resolution K g = Ok native ->
  native <> 0 ->
  Dict.get native rts = Some (rows, cols) ->
  transform_from_bbox X bbox [rows; cols] = Ok tr ->
  exists asset,
    fst (image_asset_from_href K X href rts bbox mt) = Ok (g, asset)
    /\ asset_gsd asset = Some native
    /\ asset_eo_bands asset = Some [band]
    /\ asset_proj_shape asset = Some [rows; cols]
    /\ asset_proj_transform asset = Some tr.
Proof.
  intros Hmt Hpvi Hgsd Hband Hid Hb Hn H0 Hshape Htr.
  rewrite image_asset_from_href_fst, Hmt, Hpvi.
  unfold projection_info, detect_resolution, lookup_shape.
  rewrite Hgsd, Hband, Hn, Hshape, Htr, Hid.
  unfold band_asset, band_of_href. rewrite Hb, Hn.
  unfold band_key_gsd. rewrite Z.eqb_refl.
  eexists. split; [reflexivity|]. simpl.
  destruct (Z.eqb_spec native 0); [contradiction | auto].
Qed.

Lemma untagged_band_is_native_witness :
  exists asset,
    fst (image_asset_from_href Sample.constants Sample.collaborators
           "tiles/1/C/CV/2016/3/27/0/B05.jp2" Sample.shapes
           Sample.projected_bbox None) = Ok ("B05", asset)
    /\ asset_gsd asset = Some 20
    /\ asset_eo_bands asset
       = Some [Sample.band "B05" "rededge" "Band 5 - Vegetation red edge 1"]
    /\ asset_proj_shape asset = Some [5490; 5490]
    /\ asset_proj_transform asset
       = Some [20%float; 0%float; 300000%float; 0%float; (-20)%float;
               2100000%float].
Proof.
  apply (untagged_band_is_native Sample.constants Sample.collaborators
           "tiles/1/C/CV/2016/3/27/0/B05.jp2" Sample.shapes
           Sample.projected_bbox None MediaType.JPEG2000 "B05");
    try (vm_compute; reflexivity).
  discriminate.
Defined.



Lemma append_nonempty_neq (s t : string) (c : ascii) : s ++ String c t <> s.
Proof.
  induction s as [|a s IH]; simpl; [discriminate|].
  intros E. injection E as E. now apply IH.
Qed.

(** X8.  [mk_asset_id] returns the bare name exactly for no resolution, for
    0 and for 20; in every other case it appends [_{resolution}m]. *)
Theorem mk_asset_id_bare_iff (maybe_res : option Z) (name : string) :
  (mk_asset_id maybe_res name = name
   <-> maybe_res = None \/ maybe_res = Some 0 \/ maybe_res = Some 20)
  /\ forall r, maybe_res = Some r -> r <> 0 -> r <> 20 ->
       mk_asset_id maybe_res name = name ++ "_" ++ Py.str_of_int r ++ "m".
Proof.
  unfold mk_asset_id. split.
  - destruct maybe_res as [r|]; [|intuition].
    destruct (Z.eqb_spec r 0) as [->|H0]; simpl; [intuition|].
    destruct (Z.eqb_spec r 20) as [->|H20]; simpl; [intuition|].
    split.
    + intros E. exfalso. exact (append_nonempty_neq name _ "_" E).
    + intros [E|[E|E]]; congruence.
  - intros r -> H0 H20.
    destruct (Z.eqb_spec r 0); [contradiction|].
    destruct (Z.eqb_spec r 20); [contradiction|]. reflexivity.
Qed.

(* ------------------------------------------------------------------ *)
(** ** Further facts about dictionaries *)

Section DictMore.
Context {K V : Type} `{Key K}.
Implicit Types (k : K) (v : V) (d : Dict.t K V).

Lemma dict_get_In_keys k d v : Dict.get k d = Some v -> In k (Dict.keys d).
Proof.
  intros E. apply dict_mem_In. unfold Dict.mem. now rewrite E.
Qed.

Lemma dict_get_not_In k d : ~ In k (Dict.keys d) -> Dict.get k d = None.
Proof.
  intros Hn. destruct (Dict.get k d) eqn:E; [|reflexivity].
  exfalso. apply Hn. now apply (@dict_get_In_keys k d v).
Qed.

(** Updating with the items of a dictionary: its values win. *)
Lemma dict_get_update (k : K) (d : Dict.t K V) (l : list (K * V)) :
  NoDup (Dict.keys l) ->
  Dict.get k (Dict.update d l)
  = match Dict.get k l with
    | Some v => Some v
    | None => Dict.get k d
    end.
Proof.
  unfold Dict.update. revert d.
  induction l as [|[k0 v0] r IH]; intros d Hd; simpl; [reflexivity|].
  inversion Hd as [|? ? Hnot Hr]; subst.
  rewrite (IH _ Hr).
  destruct (key_eqb_spec k k0) as [->|Hn].
  - rewrite (@dict_get_not_In k0 r Hnot). apply dict_get_set_same.
  - destruct (Dict.get k r); [reflexivity|].
    apply dict_get_set_other. congruence.
Qed.

Lemma dict_get_of_pairs (k : K) (l : list (K * V)) :
  NoDup (Dict.keys l) -> Dict.get k (Dict.of_pairs l) = Dict.get k l.
Proof.
  intros Hd. unfold Dict.of_pairs. rewrite (dict_get_update k [] l Hd).
  now destruct (Dict.get k l).
Qed.

(** [{**a, **b}]: the values of [b] win. *)
Lemma dict_get_merge (k : K) (a b : Dict.t K V) :
  NoDup (Dict.keys a) -> NoDup (Dict.keys b) ->
  Dict.get k (Dict.merge a b)
  = match Dict.get k b with
    | Some v => Some v
    | None => Dict.get k a
    end.
Proof.
  intros Ha Hb. unfold Dict.merge.
  now rewrite (dict_get_update k _ b Hb), (dict_get_of_pairs k a Ha).
Qed.

Lemma dict_merge_NoDup (a b : Dict.t K V) : NoDup (Dict.keys (Dict.merge a b)).
Proof. apply dict_update_NoDup, dict_of_pairs_NoDup. Qed.

(** A key not yet in use goes to the end. *)
Lemma dict_set_fresh k v d :
  Dict.mem k d = false -> Dict.set k v d = (d ++ [(k, v)])%list.
Proof.
  unfold Dict.mem. induction d as [|[k0 v0] r IH]; simpl; [reflexivity|].
  destruct (key_eqb k k0); [discriminate|].
  intros E. now rewrite (IH E).
Qed.

Lemma dict_pop_absent k d : Dict.get k d = None -> Dict.pop k d = d.
Proof.
  induction d as [|[k0 v0] r IH]; simpl; [reflexivity|].
  destruct (key_eqb k k0); [discriminate|].
  intros E. now rewrite (IH E).
Qed.

(** The entries of [dict(pairs)] are among the pairs. *)
Lemma dict_set_In k v d (x : K * V) :
  In x (Dict.set k v d) -> x = (k, v) \/ In x d.
Proof.
  induction d as [|[k0 v0] r IH]; simpl.
  - intros [<-|[]]. now left.
  - destruct (key_eqb k k0); simpl.
    + intros [<-|Hin]; auto.
    + intros [<-|Hin]; auto. destruct (IH Hin); auto.
Qed.

Lemma dict_update_In d (l : list (K * V)) (x : K * V) :
  In x (Dict.update d l) -> In x l \/ In x d.
Proof.
  unfold Dict.update. revert d.
  induction l as [|[k0 v0] r IH]; intros d; simpl; [auto|].
  intros Hin. destruct (IH _ Hin) as [Hr|Hs]; [auto|].
  destruct (dict_set_In _ _ _ _ Hs) as [->|Hd]; auto.
Qed.

Lemma dict_of_pairs_In (l : list (K * V)) (x : K * V) :
  In x (Dict.of_pairs l) -> In x l.
Proof.
  intros Hin. destruct (dict_update_In [] l x Hin) as [?|[]]. assumption.
Qed.

End DictMore.

(* ------------------------------------------------------------------ *)
(** ** The readers of the metadata *)

Lemma lower_app (a b : string) : Py.lower (a ++ b) = Py.lower a ++ Py.lower b.
Proof. induction a as [|c a IH]; simpl; [reflexivity | now rewrite IH]. Qed.

Lemma length_app (a b : string) :
  String.length (a ++ b) = (String.length a + String.length b)%nat.
Proof. induction a as [|c a IH]; simpl; [reflexivity | now rewrite IH]. Qed.

Lemma length_lower (a : string) : String.length (Py.lower a) = String.length a.
Proof. induction a as [|c a IH]; simpl; [reflexivity | now rewrite IH]. Qed.

Lemma substring_all (b : string) : substring 0 (String.length b) b = b.
Proof. induction b as [|c b IH]; simpl; [reflexivity | now rewrite IH]. Qed.

Lemma substring_app_r (a b : string) :
  substring (String.length a) (String.length b) (a ++ b) = b.
Proof. induction a as [|c a IH]; simpl; [apply substring_all | exact IH]. Qed.

Lemma endswith_app (a b : string) : Py.endswith (a ++ b) b = true.
Proof.
  unfold Py.endswith. rewrite length_app.
  replace (String.length a + String.length b - String.length b)%nat
    with (String.length a) by lia.
  rewrite substring_app_r, String.eqb_refl, andb_true_r.
  apply Nat.leb_le. lia.
Qed.

(** X9.  The SAFE route is taken for an href that ends in [.safe] in any
    letter case, whatever comes before the suffix. *)
Theorem safe_suffix_in_any_case
    (K : Constants) (X : Collaborators) (W : World) (stem suffix : string)
    (tol : float) (rhm : option ReadHrefModifier) :
  Py.lower suffix = ".safe" ->
  read_metadata K X W (stem ++ suffix) tol rhm
  = metadata_from_safe_manifest K W (stem ++ suffix) rhm.
Proof.
  intros Hs. unfold read_metadata.
  now rewrite lower_app, Hs, endswith_app.
Qed.

Lemma safe_suffix_in_any_case_witness :
  read_metadata Sample.constants Sample.collaborators Sample.world_typical
    ("S2A_MSIL2A_20160327T204522_N0212_R128_T01CCV_20210214T042702" ++ ".SaFe")
    0%float None
  = metadata_from_safe_manifest Sample.constants Sample.world_typical
      ("S2A_MSIL2A_20160327T204522_N0212_R128_T01CCV_20210214T042702" ++ ".SaFe")
      None.
Proof.
  apply (safe_suffix_in_any_case Sample.constants Sample.collaborators
           Sample.world_typical
           "S2A_MSIL2A_20160327T204522_N0212_R128_T01CCV_20210214T042702"
           ".SaFe" 0%float None).
  reflexivity.
Defined.

(** The metadata mapping either reader builds has pairwise distinct
    keys. *)
Lemma read_metadata_dict_NoDup K X W href tol rhm md :
  read_metadata K X W href tol rhm = Ok md ->
  NoDup (Dict.keys (metadata_dict md)).
Proof.
  unfold read_metadata, metadata_from_safe_manifest,
    metadata_from_granule_metadata.
  destruct (Py.endswith (Py.lower href) ".safe").
  - destruct (read_SafeManifest W href rhm) as [m|]; [|discriminate].
    destruct (read_ProductMetadata W _ rhm) as [p|]; [|discriminate].
    destruct (read_GranuleMetadata W _ rhm) as [g|]; [|discriminate].
    intros E. apply Ok_inj in E. rewrite <- E. cbn [metadata_dict].
    apply dict_merge_NoDup.
  - destruct (read_GranuleMetadata W _ rhm) as [g|]; [|discriminate].
    destruct (read_TileInfoMetadata W _ rhm) as [t|]; [|discriminate].
    destruct (reproject_geom X _ _ _) as [rg|]; [|discriminate].
    destruct (simplify X rg tol) as [geom|]; [|discriminate].
    intros E. apply Ok_inj in E. rewrite <- E. cbn [metadata_dict].
    apply dict_set_NoDup, dict_merge_NoDup.
Qed.

(** X10.  In the SAFE route the metadata mapping is the product's overlaid
    by the granule's: on a shared key the granule's value wins.  The scene
    id and the platform are the product's, the EPSG code is the
    granule's. *)
Theorem safe_metadata_granule_wins
    (K : Constants) (W : World) (href : string)
    (rhm : option ReadHrefModifier)
    (m : SafeManifest) (p : ProductMetadata) (g : GranuleMetadata) :
  read_SafeManifest W href rhm = Ok m ->
  read_ProductMetadata W (product_metadata_href m) rhm = Ok p ->
  read_GranuleMetadata W (granule_metadata_href m) rhm = Ok g ->
  NoDup (Dict.keys (pm_metadata_dict p)) ->
  NoDup (Dict.keys (gm_metadata_dict g)) ->
  exists md,
    metadata_from_safe_manifest K W href rhm = Ok md
    /\ (forall k,
          Dict.get k (metadata_dict md)
          = match Dict.get k (gm_metadata_dict g) with
            | Some v => Some v
            | None => Dict.get k (pm_metadata_dict p)
            end)
    /\ scene_id md = pm_scene_id p
    /\ platform md = pm_platform p
    /\ epsg md = gm_epsg g.
Proof.
  intros Hm Hp Hg Hdp Hdg. unfold metadata_from_safe_manifest.
  rewrite Hm, Hp, Hg. eexists. split; [reflexivity|].
  cbn [metadata_dict scene_id platform epsg]. repeat split.
  intros k. now apply dict_get_merge.
Qed.

Lemma safe_metadata_granule_wins_witness :
  exists md,
    metadata_from_safe_manifest Sample.constants Sample.world_typical
      Sample.safe_href None = Ok md
    /\ (forall k,
          Dict.get k (metadata_dict md)
          = match Dict.get k
                    (gm_metadata_dict (Sample.granule (Some 32701))) with
            | Some v => Some v
            | None =>
                Dict.get k
                  (pm_metadata_dict
                     (Sample.product Sample.scene (Some "DESCENDING")
                        (Some 128) Sample.image_files))
            end)
    /\ scene_id md = Sample.scene
    /\ platform md = "Sentinel-2A"
    /\ epsg md = Some 32701.
Proof.
  apply (safe_metadata_granule_wins Sample.constants Sample.world_typical
           Sample.safe_href None (Sample.manifest None)
           (Sample.product Sample.scene (Some "DESCENDING") (Some 128)
              Sample.image_files)
           (Sample.granule (Some 32701))).
  - vm_compute. reflexivity.
  - vm_compute. reflexivity.
  - vm_compute. reflexivity.
  - simpl. repeat constructor. simpl. tauto.
  - simpl. repeat constructor. simpl. tauto.
Defined.

(** X11.  In the granule route the metadata mapping is the granule's
    overlaid by the tile info's, and the processing baseline of the granule
    is stored last, over any entry of that name.  The geometry is the
    reprojected tile geometry simplified with the tolerance, the bounding
    box is its bounds, and no orbit is recorded. *)
Theorem granule_metadata_overlay
    (K : Constants) (X : Collaborators) (W : World) (href : string)
    (rhm : option ReadHrefModifier) (tol : float)
    (g : GranuleMetadata) (t : TileInfoMetadata) (rg geom : Geometry) :
  read_GranuleMetadata W (Py.path_join href "metadata.xml") rhm = Ok g ->
  read_TileInfoMetadata W (Py.path_join href "tileInfo.json") rhm = Ok t ->
  reproject_geom X ("epsg:" ++ Py.format_opt_int (gm_epsg g)) "epsg:4326"
    (ti_geometry t) = Ok rg ->
  simplify X rg tol = Ok geom ->
  NoDup (Dict.keys (gm_metadata_dict g)) ->
  NoDup (Dict.keys (ti_metadata_dict t)) ->
  exists md,
    metadata_from_granule_metadata K X W href rhm tol = Ok md
    /\ Dict.get (s2_prefix K ++ ":processing_baseline") (metadata_dict md)
       = Some (gm_processing_baseline g)
    /\ (forall k, k <> s2_prefix K ++ ":processing_baseline" ->
          Dict.get k (metadata_dict md)
          = match Dict.get k (ti_metadata_dict t) with
            | Some v => Some v
            | None => Dict.get k (gm_metadata_dict g)
            end)
    /\ geometry md = geom
    /\ bbox md = bounds X geom
    /\ orbit_state md = None
    /\ relative_orbit md = None.
Proof.
  intros Hg Ht Hr Hs Hdg Hdt. unfold metadata_from_granule_metadata.
  rewrite Hg, Ht, Hr, Hs. eexists. split; [reflexivity|].
  cbn [metadata_dict geometry bbox orbit_state relative_orbit].
  split; [apply dict_get_set_same|]. split; [|auto].
  intros k Hk. rewrite dict_get_set_other by congruence.
  now apply dict_get_merge.
Qed.

Lemma granule_metadata_overlay_witness :
  exists md,
    metadata_from_granule_metadata Sample.constants Sample.collaborators
      Tiles.world Tiles.tile_href None 0%float = Ok md
    /\ Dict.get "s2:processing_baseline" (metadata_dict md)
       = Some (VStr "02.12")
    /\ Dict.get "s2:mean_solar_zenith" (metadata_dict md)
       = Some (VFloat 0%float).
Proof.
  destruct (granule_metadata_overlay Sample.constants Sample.collaborators
              Tiles.world Tiles.tile_href None 0%float
              (Sample.granule (Some 32701)) Tiles.tile_info
              Sample.footprint Sample.footprint)
    as (md & Hmd & Hbase & Hother & _).
  - vm_compute. reflexivity.
  - vm_compute. reflexivity.
  - reflexivity.
  - reflexivity.
  - simpl. repeat constructor. simpl. tauto.
  - simpl. repeat constructor; simpl; intuition discriminate.
  - exists md. split; [exact Hmd|]. split; [exact Hbase|].
    rewrite Hother by discriminate. reflexivity.
Defined.

(* ------------------------------------------------------------------ *)
(** ** Further properties of the item assembler *)

(** *** The extensions of an item *)

Lemma add_extension_fresh u item :
  existsb (String.eqb u) (item_stac_extensions item) = false ->
  item_stac_extensions (add_extension u item)
  = (item_stac_extensions item ++ [u])%list.
Proof. intros E. unfold add_extension. now rewrite E. Qed.

Lemma eo_stage_extensions K ap md :
  item_stac_extensions
    (eo_stage md (common_metadata_stage K ap md (new_item md)))
  = [Schema.EO].
Proof.
  unfold eo_stage, common_metadata_stage.
  rewrite set_property_extensions, add_extension_fresh;
    rewrite !set_property_extensions; reflexivity.
Qed.

Lemma sat_stage_extensions md item item' :
  sat_stage md item = Ok item' ->
  existsb (String.eqb Schema.SAT) (item_stac_extensions item) = false ->
  item_stac_extensions item'
  = (item_stac_extensions item
     ++ if truthy_str (orbit_state md) || truthy_int (relative_orbit md)
        then [Schema.SAT] else [])%list.
Proof.
  unfold sat_stage. intros H Hfresh.
  destruct (truthy_str (orbit_state md) || truthy_int (relative_orbit md)).
  - destruct (orbit_state md) as [s|];
      [destruct (negb (String.eqb s ""));
         [destruct (OrbitState (Py.lower s)); [|discriminate]|]|];
      ok_subst H; rewrite !set_property_extensions;
      now apply add_extension_fresh.
  - ok_subst H. now rewrite app_nil_r.
Qed.

Lemma proj_stage_extensions href md item item' :
  proj_stage href md item = Ok item' ->
  existsb (String.eqb Schema.PROJECTION) (item_stac_extensions item) = false ->
  item_stac_extensions item'
  = (item_stac_extensions item ++ [Schema.PROJECTION])%list.
Proof.
  intros H Hfresh. destruct (epsg md) as [code|] eqn:E.
  - rewrite (proj_stage_present href md item code E) in H. ok_subst H.
    rewrite set_property_extensions. now apply add_extension_fresh.
  - now rewrite (proj_stage_missing href md item E) in H.
Qed.

Lemma mgrs_stage_extensions md item item' :
  fst (mgrs_stage md item) = Ok item' ->
  existsb (String.eqb Schema.MGRS) (item_stac_extensions item) = false ->
  existsb (String.eqb Schema.GRID) (item_stac_extensions item) = false ->
  item_stac_extensions item'
  = (item_stac_extensions item
     ++ match Re.search MGRS_PATTERN (scene_id md) with
        | Some _ => [Schema.MGRS; Schema.GRID]
        | None => []
        end)%list.
Proof.
  unfold mgrs_stage. intros H Hm Hg.
  destruct (Re.search MGRS_PATTERN (scene_id md)) as [[[g0 g1] g2]|].
  - destruct (Py.int_of_str g0) as [zone|]; [|discriminate].
    cbn [fst ret] in H. ok_subst H. unfold set_grid, set_mgrs.
    rewrite set_property_extensions, add_extension_fresh;
      rewrite !set_property_extensions, (add_extension_fresh _ _ Hm).
    + now rewrite <- app_assoc.
    + rewrite existsb_app, Hg. reflexivity.
  - cbn in H. ok_subst H. now rewrite app_nil_r.
Qed.

Lemma view_stage_extensions K md item item' :
  view_stage K md item = Ok item' ->
  existsb (String.eqb Schema.VIEW) (item_stac_extensions item) = false ->
  item_stac_extensions item'
  = (item_stac_extensions item ++ [Schema.VIEW])%list.
Proof.
  unfold view_stage. intros H Hfresh.
  destruct (Dict.get (s2_prefix K ++ ":mean_solar_zenith") (metadata_dict md))
    as [msz|];
    [destruct (truthy msz); [destruct (sun_elevation msz); [|discriminate]|]|];
    ok_subst H; rewrite !set_property_extensions;
    now apply add_extension_fresh.
Qed.

Lemma assemble_extensions K X href ap prefix md item :
  fst (assemble K X href ap prefix md) = Ok item ->
  item_stac_extensions item = expected_extensions md.
Proof.
  intros H.
  destruct (assemble_Ok K X href ap prefix md item H)
    as (item1 & item2 & item3 & item4 & assets & item5
        & Hsat & Hproj & Hmgrs & Hview & _ & Hadd & ->).
  apply add_assets_Ok in Hadd as (_ & He & _).
  unfold append_link. cbn [item_stac_extensions]. rewrite He.
  unfold properties_stage, with_properties. cbn [item_stac_extensions].
  pose proof (eo_stage_extensions K ap md) as H0.
  apply sat_stage_extensions in Hsat; [|now rewrite H0].
  rewrite H0 in Hsat.
  unfold expected_extensions.
  destruct (truthy_str (orbit_state md) || truthy_int (relative_orbit md));
    destruct (Re.search MGRS_PATTERN (scene_id md)) as [groups|] eqn:Hs;
    (apply proj_stage_extensions in Hproj; [|now rewrite Hsat]);
    rewrite Hsat in Hproj;
    (apply mgrs_stage_extensions in Hmgrs;
       [|now rewrite Hproj|now rewrite Hproj]);
    rewrite Hproj, Hs in Hmgrs;
    (apply view_stage_extensions in Hview; [|now rewrite Hmgrs]);
    rewrite Hview, Hmgrs; reflexivity.
Qed.

(** X12.  The extensions an item declares are, in this order: eo; sat when
    the orbit state or the relative orbit is set; projection; mgrs and grid
    when the scene id holds a tile designator; view.  Nothing else and
    nothing twice. *)
Theorem item_extensions_exact
    (K : Constants) (X : Collaborators) (W : World) (href : string)
    (tol : float) (ap : option (list Provider))
    (rhm : option ReadHrefModifier) (prefix : option string)
    (md : Metadata) (item : Item) :
  read_metadata K X W href tol rhm = Ok md ->
  fst (create_item K X W href tol ap rhm prefix) = Ok item ->
  item_stac_extensions item = expected_extensions md.
Proof.
  intros Hread Hrun.
  rewrite (create_item_read K X W href tol ap rhm prefix md Hread) in Hrun.
  exact (assemble_extensions K X href ap prefix md item Hrun).
Qed.

Lemma item_extensions_exact_witness :
  item_stac_extensions Tiles.tile_item
  = [Schema.EO; Schema.PROJECTION; Schema.MGRS; Schema.GRID; Schema.VIEW].
Proof.
  rewrite (item_extensions_exact Sample.constants Sample.collaborators
             Tiles.world Tiles.tile_href 0%float None None None
             Tiles.tile_metadata Tiles.tile_item).
  - vm_compute. reflexivity.
  - vm_compute. reflexivity.
  - vm_compute. reflexivity.
Defined.

(** *** The assets of an item *)

Lemma add_assets_assets l item item' :
  add_assets l item = Ok item' ->
  item_assets item' = (item_assets item ++ l)%list.
Proof.
  revert item. induction l as [|[k a] r IH]; intros item; simpl.
  - intros E. injection E as <-. now rewrite app_nil_r.
  - destruct (Dict.mem k (item_assets item)) eqn:Hmem; [discriminate|].
    intros E. rewrite (IH _ E). simpl.
    rewrite (dict_set_fresh k a (item_assets item) Hmem).
    now rewrite <- app_assoc.
Qed.

Lemma add_assets_NoDup l item item' :
  add_assets l item = Ok item' ->
  NoDup (Dict.keys (item_assets item)) ->
  NoDup (Dict.keys (item_assets item')).
Proof.
  revert item. induction l as [|[k a] r IH]; intros item; simpl.
  - intros E. now injection E as <-.
  - destruct (Dict.mem k (item_assets item)); [discriminate|].
    intros E Hd. apply (IH _ E). simpl. now apply dict_set_NoDup.
Qed.

Lemma extensions_stage_Ok K href md item item' :
  fst (extensions_stage K href md item) = Ok item' ->
  exists item1 item2 item3 item4,
    sat_stage md (eo_stage md item) = Ok item1
    /\ proj_stage href md item1 = Ok item2
    /\ fst (mgrs_stage md item2) = Ok item3
    /\ view_stage K md item3 = Ok item4
    /\ item' = properties_stage md item4.
Proof.
  unfold extensions_stage. intros H.
  apply bind_Ok in H as (item1 & Hsat & H).
  apply bind_Ok in H as (item2 & Hproj & H).
  apply bind_Ok in H as (item3 & Hmgrs & H).
  apply bind_Ok in H as (item4 & Hview & H).
  simpl in H, Hsat, Hproj, Hview. injection H as <-.
  exists item1, item2, item3, item4. auto.
Qed.

Lemma extensions_stage_assets K href md item item' :
  fst (extensions_stage K href md item) = Ok item' ->
  item_assets item' = item_assets item.
Proof.
  intros H.
  apply extensions_stage_Ok in H
    as (item1 & item2 & item3 & item4 & Hsat & Hproj & Hmgrs & Hview & ->).
  rewrite (frame_assets (frame_properties_stage md item4)).
  rewrite (frame_assets (frame_view_stage K md item3 item4 Hview)).
  rewrite (frame_assets (frame_mgrs_stage md item2 item3 Hmgrs)).
  rewrite (frame_assets (frame_proj_stage href md item1 item2 Hproj)).
  rewrite (frame_assets (frame_sat_stage md _ item1 Hsat)).
  apply (frame_assets (frame_eo_stage md item)).
Qed.

Lemma assemble_parts K X href ap prefix md item :
  fst (assemble K X href ap prefix md) = Ok item ->
  exists item0 assets item5,
    fst (extensions_stage K href md
           (common_metadata_stage K ap md (new_item md))) = Ok item0
    /\ fst (image_assets_stage K X href prefix md) = Ok assets
    /\ add_assets (assets ++ extra_assets md)%list item0 = Ok item5
    /\ item = append_link (SENTINEL_LICENSE K) item5.
Proof.
  unfold assemble. cbv zeta. intros H.
  apply bind_Ok in H as (item0 & Hext & H).
  apply bind_Ok in H as (assets & Himg & H).
  apply bind_Ok in H as (item5 & Hadd & H).
  simpl in H, Hadd. injection H as <-.
  exists item0, assets, item5. auto.
Qed.

Lemma common_metadata_stage_assets K ap md :
  item_assets (common_metadata_stage K ap md (new_item md)) = [].
Proof.
  now rewrite (frame_assets (frame_common_metadata_stage K ap md _)).
Qed.

Lemma image_assets_stage_NoDup K X href prefix md assets :
  fst (image_assets_stage K X href prefix md) = Ok assets ->
  NoDup (Dict.keys assets).
Proof.
  unfold image_assets_stage. intros H.
  apply bind_Ok in H as (pairs & _ & H). simpl in H. injection H as <-.
  apply dict_of_pairs_NoDup.
Qed.

(** The extra assets either reader builds have pairwise distinct keys. *)
Lemma read_metadata_extra_NoDup K X W href tol rhm md :
  read_metadata K X W href tol rhm = Ok md ->
  NoDup (Dict.keys (extra_assets md)).
Proof.
  unfold read_metadata, metadata_from_safe_manifest,
    metadata_from_granule_metadata.
  destruct (Py.endswith (Py.lower href) ".safe").
  - destruct (read_SafeManifest W href rhm) as [m|]; [|discriminate].
    destruct (read_ProductMetadata W _ rhm) as [p|]; [|discriminate].
    destruct (read_GranuleMetadata W _ rhm) as [g|]; [|discriminate].
    intros E. apply Ok_inj in E. rewrite <- E. cbn [extra_assets].
    destruct (thumbnail_href m);
      [apply dict_set_NoDup|]; apply dict_of_pairs_NoDup.
  - destruct (read_GranuleMetadata W _ rhm) as [g|]; [|discriminate].
    destruct (read_TileInfoMetadata W _ rhm) as [t|]; [|discriminate].
    destruct (reproject_geom X _ _ _) as [rg|]; [|discriminate].
    destruct (simplify X rg tol) as [geom|]; [|discriminate].
    intros E. apply Ok_inj in E. rewrite <- E. cbn [extra_assets].
    apply dict_of_pairs_NoDup.
Qed.

Lemma NoDup_app_disjoint {A : Type} (l1 l2 : list A) (x : A) :
  NoDup (l1 ++ l2) -> In x l1 -> ~ In x l2.
Proof.
  induction l1 as [|a l1 IH]; simpl; [tauto|].
  intros Hd [<-|Hin] H2.
  - inversion Hd as [|? ? Hnot _]; subst. apply Hnot, in_or_app. now right.
  - inversion Hd; subst. now apply IH.
Qed.

Lemma NoDup_app_intro {A : Type} (l1 l2 : list A) :
  NoDup l1 -> NoDup l2 -> (forall x, In x l1 -> ~ In x l2) ->
  NoDup (l1 ++ l2).
Proof.
  induction l1 as [|a l1 IH]; simpl; [auto|].
  intros Hd1 Hd2 Hdis. inversion Hd1 as [|? ? Hnot Hd1']; subst.
  constructor.
  - intros Hin. apply in_app_or in Hin as [Hin|Hin]; [contradiction|].
    now apply (Hdis a); [left|].
  - apply IH; auto.
Qed.

(** X13.  The assets of an item are the image assets, in the order of
    their first image path, followed by the extra assets; no key occurs
    twice. *)
Theorem item_assets_are_image_then_extra
    (K : Constants) (X : Collaborators) (W : World) (href : string)
    (tol : float) (ap : option (list Provider))
    (rhm : option ReadHrefModifier) (prefix : option string)
    (md : Metadata) (item : Item) :
  read_metadata K X W href tol rhm = Ok md ->
  fst (create_item K X W href tol ap rhm prefix) = Ok item ->
  exists assets,
    fst (image_assets_stage K X href prefix md) = Ok assets
    /\ item_assets item = (assets ++ extra_assets md)%list
    /\ NoDup (Dict.keys (item_assets item)).
Proof.
  intros Hread Hrun.
  rewrite (create_item_read K X W href tol ap rhm prefix md Hread) in Hrun.
  apply assemble_parts in Hrun as (item0 & assets & item5 & Hext & Himg & Hadd & ->).
  exists assets. split; [assumption|].
  pose proof (extensions_stage_assets K href md _ item0 Hext) as H0.
  rewrite common_metadata_stage_assets in H0.
  unfold append_link. cbn [item_assets]. split.
  - rewrite (add_assets_assets _ _ _ Hadd), H0. reflexivity.
  - apply (add_assets_NoDup _ _ _ Hadd). rewrite H0. constructor.
Qed.

Lemma item_assets_are_image_then_extra_witness :
  exists assets,
    fst (image_assets_stage Sample.constants Sample.collaborators
           Tiles.tile_href None Tiles.tile_metadata) = Ok assets
    /\ item_assets Tiles.tile_item
       = (assets ++ extra_assets Tiles.tile_metadata)%list
    /\ NoDup (Dict.keys (item_assets Tiles.tile_item)).
Proof.
  apply (item_assets_are_image_then_extra Sample.constants
           Sample.collaborators Tiles.world Tiles.tile_href 0%float None None
           None Tiles.tile_metadata Tiles.tile_item).
  - vm_compute. reflexivity.
  - vm_compute. reflexivity.
Defined.

(** X14.  Once the extensions are set and every image path is classified,
    [create_item] returns an item if and only if no image asset key is also
    the key of an extra asset. *)
Theorem asset_loop_succeeds_iff_disjoint
    (K : Constants) (X : Collaborators) (W : World) (href : string)
    (tol : float) (ap : option (list Provider))
    (rhm : option ReadHrefModifier) (prefix : option string)
    (md : Metadata) (item0 : Item) (assets : Dict.t string Asset) :
  read_metadata K X W href tol rhm = Ok md ->
  fst (extensions_stage K href md
         (common_metadata_stage K ap md (new_item md))) = Ok item0 ->
  fst (image_assets_stage K X href prefix md) = Ok assets ->
  ((exists item, fst (create_item K X W href tol ap rhm prefix) = Ok item)
   <-> forall k, In k (Dict.keys assets) ->
                 ~ In k (Dict.keys (extra_assets md))).
Proof.
  intros Hread Hext Himg.
  rewrite (create_item_read K X W href tol ap rhm prefix md Hread).
  pose proof (extensions_stage_assets K href md _ item0 Hext) as H0.
  rewrite common_metadata_stage_assets in H0.
  split.
  - intros (item & Hrun) k Hk.
    apply assemble_parts in Hrun
      as (item0' & assets' & item5 & Hext' & Himg' & Hadd & _).
    rewrite Hext in Hext'. injection Hext' as <-.
    rewrite Himg in Himg'. injection Himg' as <-.
    pose proof (add_assets_NoDup _ _ _ Hadd) as Hd.
    rewrite H0 in Hd. specialize (Hd (NoDup_nil _)).
    rewrite (add_assets_assets _ _ _ Hadd), H0 in Hd.
    unfold Dict.keys in Hd. rewrite !map_app in Hd. simpl in Hd.
    apply (NoDup_app_disjoint _ _ k Hd Hk).
  - intros Hdis.
    destruct (add_assets_fresh (assets ++ extra_assets md)%list item0)
      as (item5 & Hadd).
    + unfold Dict.keys. rewrite map_app.
      apply NoDup_app_intro; [| |exact Hdis].
      * exact (image_assets_stage_NoDup K X href prefix md assets Himg).
      * exact (read_metadata_extra_NoDup K X W href tol rhm md Hread).
    + intros k _. now rewrite H0.
    + exists (append_link (SENTINEL_LICENSE K) item5).
      unfold assemble. cbv zeta.
      rewrite (bind_fst_Ok _ _ Hext), (bind_fst_Ok _ _ Himg).
      unfold Dict.items. rewrite Hadd. reflexivity.
Qed.

Lemma asset_loop_succeeds_iff_disjoint_witness :
  (exists item,
      fst (create_item Sample.constants Sample.collaborators Tiles.world
             Tiles.tile_href 0%float None None None) = Ok item)
  <-> forall k, In k (Dict.keys Tiles.tile_assets) ->
                ~ In k (Dict.keys (extra_assets Tiles.tile_metadata)).
Proof.
  apply (asset_loop_succeeds_iff_disjoint Sample.constants
           Sample.collaborators Tiles.world Tiles.tile_href 0%float None None
           None Tiles.tile_metadata Tiles.tile_item0 Tiles.tile_assets).
  - vm_compute. reflexivity.
  - vm_compute. reflexivity.
  - vm_compute. reflexivity.
Defined.

(** *** The log of a run *)

Lemma map_M_log {A B : Type} (f : A -> M B) (g : A -> Event) (l : list A)
    (bs : list B) :
  (forall a, snd (f a) = [g a]) ->
  fst (map_M f l) = Ok bs ->
  snd (map_M f l) = map g l.
Proof.
  intros Hlog. revert bs. induction l as [|a r IH]; intros bs; simpl.
  - reflexivity.
  - intros H. apply bind_Ok in H as (b & Hb & H).
    apply bind_Ok in H as (bs' & Hbs & _).
    rewrite (bind_snd_Ok _ _ Hb), Hlog.
    rewrite (bind_snd_Ok _ _ Hbs), (IH bs' Hbs). simpl.
    now rewrite app_nil_r.
Qed.

Lemma image_assets_stage_log K X href prefix md assets :
  fst (image_assets_stage K X href prefix md) = Ok assets ->
  snd (image_assets_stage K X href prefix md)
  = map (fun p => classifier_call (Py.path_join (asset_base href prefix) p))
      (image_paths md).
Proof.
  unfold image_assets_stage. intros H.
  apply bind_Ok in H as (pairs & Hmap & _).
  rewrite (bind_snd_Ok _ _ Hmap). simpl. rewrite app_nil_r.
  apply (map_M_log _ _ _ pairs); [|exact Hmap].
  intros p. apply image_asset_from_href_logged.
Qed.

Lemma extensions_stage_log K href md item item' :
  fst (extensions_stage K href md item) = Ok item' ->
  snd (extensions_stage K href md item)
  = match Re.search MGRS_PATTERN (scene_id md) with
    | Some _ => []
    | None => [LogError (mgrs_error_message (scene_id md))]
    end.
Proof.
  intros H. pose proof H as H'.
  apply extensions_stage_Ok in H'
    as (item1 & item2 & item3 & item4 & Hsat & Hproj & Hmgrs & Hview & _).
  unfold extensions_stage. cbv zeta.
  rewrite Hsat, bind_lift_Ok, Hproj, bind_lift_Ok.
  rewrite (bind_snd_Ok _ _ Hmgrs), Hview, bind_lift_Ok. simpl.
  rewrite app_nil_r.
  destruct (Re.search MGRS_PATTERN (scene_id md)) as [[[z b] q]|] eqn:Hs.
  - destruct (mgrs_stage_matched md item2 z b q Hs) as (i & -> & _).
    reflexivity.
  - now rewrite (mgrs_stage_unmatched md item2 Hs).
Qed.

(** X15.  The log of a successful run holds the MGRS error when the scene
    id has no tile designator, then one debug record for each image path,
    in the order of the paths, each naming the path joined to the asset
    href prefix, or to the granule href when the prefix is absent or
    empty. *)
Theorem successful_run_log
    (K : Constants) (X : Collaborators) (W : World) (href : string)
    (tol : float) (ap : option (list Provider))
    (rhm : option ReadHrefModifier) (prefix : option string)
    (md : Metadata) (item : Item) :
  read_metadata K X W href tol rhm = Ok md ->
  fst (create_item K X W href tol ap rhm prefix) = Ok item ->
  snd (create_item K X W href tol ap rhm prefix)
  = (match Re.search MGRS_PATTERN (scene_id md) with
     | Some _ => []
     | None => [LogError (mgrs_error_message (scene_id md))]
     end
     ++ map (fun p =>
               classifier_call (Py.path_join (asset_base href prefix) p))
          (image_paths md))%list.
Proof.
  intros Hread Hrun.
  rewrite (create_item_read K X W href tol ap rhm prefix md Hread) in *.
  apply assemble_parts in Hrun
    as (item0 & assets & item5 & Hext & Himg & Hadd & _).
  unfold assemble. cbv zeta.
  rewrite (bind_snd_Ok _ _ Hext), (bind_snd_Ok _ _ Himg).
  unfold Dict.items. rewrite Hadd, bind_lift_Ok. simpl.
  rewrite app_nil_r.
  rewrite (extensions_stage_log K href md _ item0 Hext).
  now rewrite (image_assets_stage_log K X href prefix md assets Himg).
Qed.

Lemma successful_run_log_witness :
  snd (create_item Sample.constants Sample.collaborators Tiles.world
         Tiles.tile_href 0%float None None (Some ""))
  = [ classifier_call "s3://sentinel-s2-l2a/tiles/1/C/CV/2016/3/27/0/R10m/B02.jp2";
      classifier_call "s3://sentinel-s2-l2a/tiles/1/C/CV/2016/3/27/0/R20m/SCL.jp2" ].
Proof.
  rewrite (successful_run_log Sample.constants Sample.collaborators
             Tiles.world Tiles.tile_href 0%float None None (Some "")
             Tiles.tile_metadata Tiles.tile_item).
  - vm_compute. reflexivity.
  - vm_compute. reflexivity.
  - vm_compute. reflexivity.
Defined.

(** *** Where the image assets point *)

Lemma map_M_In {A B : Type} (f : A -> M B) (l : list A) (bs : list B) :
  fst (map_M f l) = Ok bs ->
  forall b, In b bs -> exists a, In a l /\ fst (f a) = Ok b.
Proof.
  revert bs. induction l as [|x r IH]; intros bs; simpl.
  - intros E. injection E as <-. intros b [].
  - intros H. apply bind_Ok in H as (b0 & Hb0 & H).
    apply bind_Ok in H as (bs' & Hbs & H). simpl in H. injection H as <-.
    intros b [<-|Hin].
    + exists x. auto.
    + destruct (IH bs' Hbs b Hin) as (a & Ha & Hf). exists a. auto.
Qed.

Lemma image_asset_href_media K X href rts bbox m key asset :
  fst (image_asset_from_href K X href rts bbox (Some m)) = Ok (key, asset) ->
  asset_href asset = href /\ asset_media_type asset = Some m.
Proof.
  intros H. apply image_asset_from_href_Ok in H as (amt & Hmt & H).
  unfold resolve_media_type in Hmt. injection Hmt as <-.
  destruct H as [(_ & H)|(_ & r & shape & tr & _ & H)].
  - apply preview_asset_Ok in H. tauto.
  - destruct (Re.search BAND_ID_PATTERN href) as [g|].
    + apply band_asset_Ok in H as ((? & ? & _) & _). auto.
    + apply auxiliary_asset_Ok in H as ((? & ? & _) & _). auto.
Qed.

(** X16.  Every asset of an item is either an extra asset of the metadata,
    or the asset of an image path: its href is that path joined to the
    asset href prefix (to the granule href when the prefix is absent or
    empty) and its media type is the image media type of the metadata. *)
Theorem item_asset_origin
    (K : Constants) (X : Collaborators) (W : World) (href : string)
    (tol : float) (ap : option (list Provider))
    (rhm : option ReadHrefModifier) (prefix : option string)
    (md : Metadata) (item : Item) (key : string) (asset : Asset) :
  read_metadata K X W href tol rhm = Ok md ->
  fst (create_item K X W href tol ap rhm prefix) = Ok item ->
  In (key, asset) (item_assets item) ->
  In (key, asset) (extra_assets md)
  \/ exists path,
       In path (image_paths md)
       /\ asset_href asset = Py.path_join (asset_base href prefix) path
       /\ asset_media_type asset = Some (image_media_type md).
Proof.
  intros Hread Hrun Hin.
  rewrite (create_item_read K X W href tol ap rhm prefix md Hread) in Hrun.
  apply assemble_parts in Hrun
    as (item0 & assets & item5 & Hext & Himg & Hadd & ->).
  pose proof (extensions_stage_assets K href md _ item0 Hext) as H0.
  rewrite common_metadata_stage_assets in H0.
  unfold append_link in Hin. cbn [item_assets] in Hin.
  rewrite (add_assets_assets _ _ _ Hadd), H0 in Hin. simpl in Hin.
  apply in_app_or in Hin as [Hin|Hin]; [right | now left].
  unfold image_assets_stage in Himg.
  apply bind_Ok in Himg as (pairs & Hmap & Hret). simpl in Hret.
  injection Hret as <-. apply dict_of_pairs_In in Hin.
  destruct (map_M_In _ _ _ Hmap _ Hin) as (path & Hpath & Hcall).
  exists path. split; [assumption|].
  exact (image_asset_href_media K X _ _ _ _ key asset Hcall).
Qed.

Lemma item_asset_origin_witness :
  exists path,
    In path (image_paths Tiles.tile_metadata)
    /\ option_map asset_href (Dict.get "B02" (item_assets Tiles.tile_item))
       = Some (Py.path_join (asset_base Tiles.tile_href None) path).
Proof.
  assert (Hget : exists a, In ("B02", a) (item_assets Tiles.tile_item)
                           /\ Dict.get "B02" (item_assets Tiles.tile_item)
                              = Some a).
  { eexists. split; [left; reflexivity | reflexivity]. }
  destruct Hget as (a & Hin & Hget).
  destruct (item_asset_origin Sample.constants Sample.collaborators
              Tiles.world Tiles.tile_href 0%float None None None
              Tiles.tile_metadata Tiles.tile_item "B02" a)
    as [Hextra|(path & Hpath & Hhref & _)].
  - vm_compute. reflexivity.
  - vm_compute. reflexivity.
  - exact Hin.
  - exfalso. vm_compute in Hextra.
    repeat (destruct Hextra as [Hextra|Hextra]; [discriminate|]).
    exact Hextra.
  - exists path. split; [exact Hpath|].
    rewrite Hget. simpl. now rewrite Hhref.
Defined.

(** *** The fields and the properties of an item *)

Lemma same_scene_refl item : same_scene item item.
Proof. repeat split. Qed.

Lemma same_scene_trans item1 item2 item3 :
  same_scene item1 item2 -> same_scene item2 item3 -> same_scene item1 item3.
Proof.
  unfold same_scene. intros (? & ? & ? & ? & ?) (? & ? & ? & ? & ?).
  repeat split; congruence.
Qed.

Lemma same_scene_set_property k v p item :
  same_scene item (set_property k v p item).
Proof. unfold set_property. destruct v, p; repeat split. Qed.

Lemma same_scene_add_extension u item : same_scene item (add_extension u item).
Proof.
  unfold add_extension.
  destruct (existsb (String.eqb u) (item_stac_extensions item)); repeat split.
Qed.

Ltac scene_solve :=
  repeat first
    [ apply same_scene_refl
    | eapply same_scene_trans;
        [|first [apply same_scene_set_property | apply same_scene_add_extension]] ].

Lemma same_scene_add_assets l item item' :
  add_assets l item = Ok item' -> same_scene item item'.
Proof.
  revert item. induction l as [|[k a] r IH]; intros item; simpl.
  - intros E. injection E as <-. apply same_scene_refl.
  - destruct (Dict.mem k (item_assets item)); [discriminate|].
    intros E. apply same_scene_trans with (add_asset k a item);
      [repeat split | now apply IH].
Qed.

Lemma same_scene_extensions_stage K href md item item' :
  fst (extensions_stage K href md item) = Ok item' -> same_scene item item'.
Proof.
  intros H. apply extensions_stage_Ok in H
    as (item1 & item2 & item3 & item4 & Hsat & Hproj & Hmgrs & Hview & ->).
  assert (S1 : same_scene item item1).
  { unfold sat_stage, eo_stage in Hsat.
    destruct (truthy_str (orbit_state md) || truthy_int (relative_orbit md));
      [destruct (orbit_state md) as [s|];
         [destruct (negb (String.eqb s ""));
            [destruct (OrbitState (Py.lower s)); [|discriminate]|]|]|];
      ok_subst Hsat; scene_solve. }
  assert (S2 : same_scene item1 item2).
  { destruct (epsg md) as [code|] eqn:E.
    - rewrite (proj_stage_present href md item1 code E) in Hproj.
      ok_subst Hproj. scene_solve.
    - now rewrite (proj_stage_missing href md item1 E) in Hproj. }
  assert (S3 : same_scene item2 item3).
  { unfold mgrs_stage in Hmgrs.
    destruct (Re.search MGRS_PATTERN (scene_id md)) as [[[g0 g1] g2]|].
    - destruct (Py.int_of_str g0); [|discriminate].
      cbn [fst ret] in Hmgrs. ok_subst Hmgrs.
      unfold set_grid, set_mgrs. scene_solve.
    - cbn in Hmgrs. ok_subst Hmgrs. apply same_scene_refl. }
  assert (S4 : same_scene item3 item4).
  { unfold view_stage in Hview.
    destruct (Dict.get (s2_prefix K ++ ":mean_solar_zenith")
                (metadata_dict md)) as [msz|];
      [destruct (truthy msz);
         [destruct (sun_elevation msz); [|discriminate]|]|];
      ok_subst Hview; scene_solve. }
  apply same_scene_trans with item4; [|repeat split].
  apply same_scene_trans with item3; [|assumption].
  apply same_scene_trans with item2; [|assumption].
  apply same_scene_trans with item1; assumption.
Qed.

(** X17.  The item returned has the scene id of the metadata as its id,
    the geometry, the bounding box and the timestamp of the metadata, and
    the license link as its only link. *)
Theorem item_scene_fields
    (K : Constants) (X : Collaborators) (W : World) (href : string)
    (tol : float) (ap : option (list Provider))
    (rhm : option ReadHrefModifier) (prefix : option string)
    (md : Metadata) (item : Item) :
  read_metadata K X W href tol rhm = Ok md ->
  fst (create_item K X W href tol ap rhm prefix) = Ok item ->
  item_id item = scene_id md
  /\ item_geometry item = geometry md
  /\ item_bbox item = bbox md
  /\ item_datetime item = datetime md
  /\ item_links item = [SENTINEL_LICENSE K].
Proof.
  intros Hread Hrun.
  rewrite (create_item_read K X W href tol ap rhm prefix md Hread) in Hrun.
  apply assemble_parts in Hrun
    as (item0 & assets & item5 & Hext & _ & Hadd & ->).
  assert (S : same_scene (new_item md) item5).
  { apply same_scene_trans with item0; [|exact (same_scene_add_assets _ _ _ Hadd)].
    apply same_scene_trans with (common_metadata_stage K ap md (new_item md));
      [|exact (same_scene_extensions_stage K href md _ item0 Hext)].
    unfold common_metadata_stage. scene_solve. }
  destruct S as (Hid & Hg & Hb & Hd & Hl).
  unfold append_link. cbn [item_id item_geometry item_bbox item_datetime item_links].
  rewrite Hid, Hg, Hb, Hd, Hl. repeat split.
Qed.

Lemma item_scene_fields_witness :
  item_id Tiles.tile_item = scene_id Tiles.tile_metadata
  /\ item_geometry Tiles.tile_item = geometry Tiles.tile_metadata
  /\ item_bbox Tiles.tile_item = bbox Tiles.tile_metadata
  /\ item_datetime Tiles.tile_item = datetime Tiles.tile_metadata
  /\ item_links Tiles.tile_item = [SENTINEL_LICENSE Sample.constants].
Proof.
  apply (item_scene_fields Sample.constants Sample.collaborators Tiles.world
           Tiles.tile_href 0%float None None None).
  - vm_compute. reflexivity.
  - vm_compute. reflexivity.
Defined.

(** The properties of the item after the last stage that writes them. *)
Lemma assemble_properties K X href ap prefix md item :
  fst (assemble K X href ap prefix md) = Ok item ->
  exists item1 item2 item3 item4,
    sat_stage md (eo_stage md (common_metadata_stage K ap md (new_item md)))
    = Ok item1
    /\ proj_stage href md item1 = Ok item2
    /\ fst (mgrs_stage md item2) = Ok item3
    /\ view_stage K md item3 = Ok item4
    /\ item_properties item
       = Dict.update (item_properties item4) (metadata_dict md).
Proof.
  intros H.
  destruct (assemble_Ok K X href ap prefix md item H)
    as (item1 & item2 & item3 & item4 & assets & item5
        & Hsat & Hproj & Hmgrs & Hview & _ & Hadd & ->).
  exists item1, item2, item3, item4. do 4 (split; [assumption|]).
  apply add_assets_Ok in Hadd as (Hp & _ & _).
  unfold append_link. cbn [item_properties]. rewrite Hp. reflexivity.
Qed.

(** X18.  The metadata mapping is written into the properties last: every
    entry of it is a property of the item, also under a key an extension
    or the common metadata had set before. *)
Theorem metadata_overrides_properties
    (K : Constants) (X : Collaborators) (W : World) (href : string)
    (tol : float) (ap : option (list Provider))
    (rhm : option ReadHrefModifier) (prefix : option string)
    (md : Metadata) (item : Item) (k : string) (v : Value) :
  read_metadata K X W href tol rhm = Ok md ->
  fst (create_item K X W href tol ap rhm prefix) = Ok item ->
  Dict.get k (metadata_dict md) = Some v ->
  Dict.get k (item_properties item) = Some v.
Proof.
  intros Hread Hrun Hk.
  pose proof (read_metadata_dict_NoDup K X W href tol rhm md Hread) as Hd.
  rewrite (create_item_read K X W href tol ap rhm prefix md Hread) in Hrun.
  apply assemble_properties in Hrun as (i1 & i2 & i3 & i4 & _ & _ & _ & _ & ->).
  now rewrite (dict_get_update k _ (metadata_dict md) Hd), Hk.
Qed.

Lemma metadata_overrides_properties_witness :
  Dict.get "s2:processing_baseline" (item_properties Tiles.tile_item)
  = Some (VStr "02.12").
Proof.
  apply (metadata_overrides_properties Sample.constants Sample.collaborators
           Tiles.world Tiles.tile_href 0%float None None None
           Tiles.tile_metadata).
  - vm_compute. reflexivity.
  - vm_compute. reflexivity.
  - vm_compute. reflexivity.
Defined.

Lemma property_not_overridden K X href ap prefix md item k :
  NoDup (Dict.keys (metadata_dict md)) ->
  fst (assemble K X href ap prefix md) = Ok item ->
  ~ In k (Dict.keys (metadata_dict md)) ->
  exists item1 item2 item3 item4,
    sat_stage md (eo_stage md (common_metadata_stage K ap md (new_item md)))
    = Ok item1
    /\ proj_stage href md item1 = Ok item2
    /\ fst (mgrs_stage md item2) = Ok item3
    /\ view_stage K md item3 = Ok item4
    /\ Dict.get k (item_properties item) = Dict.get k (item_properties item4).
Proof.
  intros Hd Hrun Hk.
  apply assemble_properties in Hrun
    as (i1 & i2 & i3 & i4 & Hsat & Hproj & Hmgrs & Hview & ->).
  exists i1, i2, i3, i4. do 4 (split; [assumption|]).
  rewrite (dict_get_update k _ (metadata_dict md) Hd).
  now rewrite (dict_get_not_In k _ Hk).
Qed.

Lemma common_metadata_properties K ap md :
  let item := eo_stage md (common_metadata_stage K ap md (new_item md)) in
  Dict.get "platform" (item_properties item)
  = Some (VStr (Py.lower (platform md)))
  /\ Dict.get "constellation" (item_properties item)
     = Some (VStr (SENTINEL_CONSTELLATION K))
  /\ Dict.get "instruments" (item_properties item)
     = Some (VStrs (SENTINEL_INSTRUMENTS K))
  /\ Dict.get "eo:cloud_cover" (item_properties item)
     = option_map VFloat (cloudiness_percentage md).
Proof.
  cbv zeta. unfold eo_stage.
  repeat split.
  1-3: rewrite set_property_get_other by discriminate;
       rewrite add_extension_properties; unfold common_metadata_stage;
       repeat (rewrite set_property_get_other by discriminate);
       apply set_property_get_same.
  destruct (cloudiness_percentage md) as [c|]; simpl option_map.
  - apply set_property_get_same.
  - assert (Habsent : Dict.get "eo:cloud_cover"
                        (item_properties
                           (add_extension Schema.EO
                              (common_metadata_stage K ap md (new_item md))))
                      = None).
    { rewrite add_extension_properties.
      now rewrite (frame_properties (frame_common_metadata_stage K ap md _))
        by not_in_concrete. }
    unfold set_property, with_properties. cbn [item_properties].
    now rewrite (dict_pop_absent _ _ Habsent).
Qed.

(** X19.  Unless the metadata mapping has the key, the item carries the
    platform in lower case, the constellation and the instruments of the
    constants, the cloud cover when there is one, and the EPSG code, which
    is never missing from an item. *)
Theorem item_common_properties
    (K : Constants) (X : Collaborators) (W : World) (href : string)
    (tol : float) (ap : option (list Provider))
    (rhm : option ReadHrefModifier) (prefix : option string)
    (md : Metadata) (item : Item) :
  read_metadata K X W href tol rhm = Ok md ->
  fst (create_item K X W href tol ap rhm prefix) = Ok item ->
  (~ In "platform" (Dict.keys (metadata_dict md)) ->
   Dict.get "platform" (item_properties item)
   = Some (VStr (Py.lower (platform md))))
  /\ (~ In "constellation" (Dict.keys (metadata_dict md)) ->
      Dict.get "constellation" (item_properties item)
      = Some (VStr (SENTINEL_CONSTELLATION K)))
  /\ (~ In "instruments" (Dict.keys (metadata_dict md)) ->
      Dict.get "instruments" (item_properties item)
      = Some (VStrs (SENTINEL_INSTRUMENTS K)))
  /\ (~ In "eo:cloud_cover" (Dict.keys (metadata_dict md)) ->
      Dict.get "eo:cloud_cover" (item_properties item)
      = option_map VFloat (cloudiness_percentage md))
  /\ (exists code, epsg md = Some code
        /\ (~ In "proj:epsg" (Dict.keys (metadata_dict md)) ->
            Dict.get "proj:epsg" (item_properties item) = Some (VInt code))).
Proof.
  intros Hread Hrun.
  pose proof (read_metadata_dict_NoDup K X W href tol rhm md Hread) as Hd.
  rewrite (create_item_read K X W href tol ap rhm prefix md Hread) in Hrun.
  destruct (common_metadata_properties K ap md) as (Hpl & Hco & Hin & Hcc).
  assert (Hearly : forall k, ~ In k sat_keys -> k <> "proj:epsg" ->
            ~ In k mgrs_keys -> ~ In k view_keys ->
            ~ In k (Dict.keys (metadata_dict md)) ->
            Dict.get k (item_properties item)
            = Dict.get k (item_properties
                            (eo_stage md
                               (common_metadata_stage K ap md (new_item md))))).
  { intros k Hs Hp Hm Hv Hk.
    destruct (property_not_overridden K X href ap prefix md item k Hd Hrun Hk)
      as (i1 & i2 & i3 & i4 & Hsat & Hproj & Hmgrs & Hview & ->).
    rewrite (frame_properties (frame_view_stage K md i3 i4 Hview) k Hv).
    rewrite (frame_properties (frame_mgrs_stage md i2 i3 Hmgrs) k Hm).
    rewrite (frame_properties (frame_proj_stage href md i1 i2 Hproj) k)
      by (simpl; intuition congruence).
    exact (frame_properties (frame_sat_stage md _ i1 Hsat) k Hs). }
  split; [|split; [|split; [|split]]].
  - intros Hk. rewrite Hearly; (assumption || discriminate || not_in_concrete).
  - intros Hk. rewrite Hearly; (assumption || discriminate || not_in_concrete).
  - intros Hk. rewrite Hearly; (assumption || discriminate || not_in_concrete).
  - intros Hk. rewrite Hearly; (assumption || discriminate || not_in_concrete).
  - destruct (epsg md) as [code|] eqn:E.
    + exists code. split; [reflexivity|]. intros Hk.
      destruct (property_not_overridden K X href ap prefix md item
                  "proj:epsg" Hd Hrun Hk)
        as (i1 & i2 & i3 & i4 & Hsat & Hproj & Hmgrs & Hview & ->).
      rewrite (frame_properties (frame_view_stage K md i3 i4 Hview))
        by not_in_concrete.
      rewrite (frame_properties (frame_mgrs_stage md i2 i3 Hmgrs))
        by not_in_concrete.
      rewrite (proj_stage_present href md i1 code E) in Hproj.
      ok_subst Hproj. apply set_property_get_same.
    + exfalso.
      apply assemble_Ok in Hrun
        as (i1 & i2 & _ & _ & _ & _ & _ & Hproj & _).
      now rewrite (proj_stage_missing href md i1 E) in Hproj.
Qed.

Lemma item_common_properties_witness :
  Dict.get "platform" (item_properties Tiles.tile_item)
  = Some (VStr "sentinel-2a")
  /\ Dict.get "proj:epsg" (item_properties Tiles.tile_item)
     = Some (VInt 32701).
Proof.
  destruct (item_common_properties Sample.constants Sample.collaborators
              Tiles.world Tiles.tile_href 0%float None None None
              Tiles.tile_metadata Tiles.tile_item)
    as (Hplatform & _ & _ & _ & code & Hcode & Hepsg).
  - vm_compute. reflexivity.
  - vm_compute. reflexivity.
  - split.
    + apply Hplatform. vm_compute. intuition discriminate.
    + vm_compute in Hcode. injection Hcode as <-.
      apply Hepsg. vm_compute. intuition discriminate.
Defined.

Lemma view_stage_elevation K md item3 item4 :
  view_stage K md item3 = Ok item4 ->
  Dict.get "view:sun_elevation" (item_properties item3) = None ->
  Dict.get "view:sun_elevation" (item_properties item4)
  = match Dict.get (s2_prefix K ++ ":mean_solar_zenith") (metadata_dict md) with
    | Some msz =>
        if truthy msz then
          match sun_elevation msz with
          | Ok v => Some v
          | Raise _ => None
          end
        else None
    | None => None
    end.
Proof.
  unfold view_stage. intros H H3.
  assert (Haz : forall az,
            Dict.get "view:sun_elevation"
              (item_properties
                 (set_property "view:sun_azimuth" az true
                    (add_extension Schema.VIEW item3))) = None).
  { intros az. rewrite set_property_get_other by discriminate.
    now rewrite add_extension_properties. }
  destruct (Dict.get (s2_prefix K ++ ":mean_solar_zenith") (metadata_dict md))
    as [msz|].
  - destruct (truthy msz).
    + destruct (sun_elevation msz) as [v|]; [|discriminate].
      ok_subst H. apply set_property_get_same.
    + ok_subst H. apply Haz.
  - ok_subst H. apply Haz.
Qed.

(** X20.  The sun elevation of an item is 90 minus the mean solar zenith
    of the metadata mapping.  It is left out when the zenith is missing,
    and also when the zenith is 0 or any other value that counts as false.
    A run with a zenith that is a non-empty string does not return an
    item. *)
Theorem item_sun_elevation
    (K : Constants) (X : Collaborators) (W : World) (href : string)
    (tol : float) (ap : option (list Provider))
    (rhm : option ReadHrefModifier) (prefix : option string)
    (md : Metadata) (item : Item) :
  read_metadata K X W href tol rhm = Ok md ->
  fst (create_item K X W href tol ap rhm prefix) = Ok item ->
  (~ In "view:sun_elevation" (Dict.keys (metadata_dict md)) ->
   Dict.get "view:sun_elevation" (item_properties item)
   = match Dict.get (s2_prefix K ++ ":mean_solar_zenith")
             (metadata_dict md) with
     | Some (VInt n) => if n =? 0 then None else Some (VInt (90 - n))
     | Some (VFloat f) =>
         if PrimFloat.eqb f 0%float then None
         else Some (VFloat (PrimFloat.sub 90%float f))
     | Some (VBool true) => Some (VInt 89)
     | _ => None
     end)
  /\ (forall s,
        Dict.get (s2_prefix K ++ ":mean_solar_zenith") (metadata_dict md)
        = Some (VStr s) -> s = "").
Proof.
  intros Hread Hrun.
  pose proof (read_metadata_dict_NoDup K X W href tol rhm md Hread) as Hd.
  rewrite (create_item_read K X W href tol ap rhm prefix md Hread) in Hrun.
  split.
  - intros Hk.
    destruct (property_not_overridden K X href ap prefix md item
                "view:sun_elevation" Hd Hrun Hk)
      as (i1 & i2 & i3 & i4 & Hsat & Hproj & Hmgrs & Hview & ->).
    rewrite (view_stage_elevation K md i3 i4 Hview).
    + pose proof Hview as Hv. unfold view_stage in Hv.
      destruct (Dict.get (s2_prefix K ++ ":mean_solar_zenith")
                  (metadata_dict md)) as [[| [|] |n|f|s|l|l]|];
        try reflexivity; simpl.
      * now destruct (n =? 0).
      * now destruct (PrimFloat.eqb f 0%float).
      * simpl in Hv. now destruct (negb (String.eqb s "")).
      * now destruct l.
      * now destruct l.
    + rewrite (frame_properties (frame_mgrs_stage md i2 i3 Hmgrs))
        by not_in_concrete.
      rewrite (frame_properties (frame_proj_stage href md i1 i2 Hproj))
        by not_in_concrete.
      rewrite (frame_properties (frame_sat_stage md _ i1 Hsat))
        by not_in_concrete.
      apply new_item_properties; (not_in_concrete || discriminate).
  - intros s Hs.
    apply assemble_Ok in Hrun
      as (i1 & i2 & i3 & i4 & _ & _ & _ & _ & _ & Hview & _).
    unfold view_stage in Hview. rewrite Hs in Hview. simpl in Hview.
    destruct (String.eqb_spec s ""); [assumption | discriminate].
Qed.

Lemma item_sun_elevation_witness :
  Dict.get "view:sun_elevation" (item_properties Sample.typical_item)
  = Some (VFloat 30%float)
  /\ Dict.get "view:sun_elevation" (item_properties Tiles.tile_item) = None.
Proof.
  split.
  - rewrite (proj1 (item_sun_elevation Sample.constants Sample.collaborators
                      Sample.world_typical Sample.safe_href 0%float None None
                      None Sample.typical_metadata Sample.typical_item
                      ltac:(vm_compute; reflexivity)
                      ltac:(vm_compute; reflexivity))).
    + vm_compute. reflexivity.
    + vm_compute. intuition discriminate.
  - rewrite (proj1 (item_sun_elevation Sample.constants Sample.collaborators
                      Tiles.world Tiles.tile_href 0%float None None
                      None Tiles.tile_metadata Tiles.tile_item
                      ltac:(vm_compute; reflexivity)
                      ltac:(vm_compute; reflexivity))).
    + vm_compute. reflexivity.
    + vm_compute. intuition discriminate.
Defined.

(** X21.  An orbit state that is not empty and, in lower case, none of
    [ascending], [descending], [geostationary] is fatal: [create_item]
    raises the [ValueError] of the enumeration, before the EPSG code is
    looked at and before any image path is classified. *)
Theorem invalid_orbit_state_is_fatal
    (K : Constants) (X : Collaborators) (W : World) (href : string)
    (tol : float) (ap : option (list Provider))
    (rhm : option ReadHrefModifier) (prefix : option string)
    (md : Metadata) (s : string) :
  read_metadata K X W href tol rhm = Ok md ->
  orbit_state md = Some s ->
  s <> "" ->
  ~ In (Py.lower s) ["ascending"; "descending"; "geostationary"] ->
  create_item K X W href tol ap rhm prefix
  = (Raise (ValueError ("'" ++ Py.lower s ++ "' is not a valid OrbitState")),
     []).
Proof.
  intros Hread Hs Hne Hbad.
  rewrite (create_item_read K X W href tol ap rhm prefix md Hread).
  assert (Hsat : forall item,
            sat_stage md item
            = Raise (ValueError
                       ("'" ++ Py.lower s ++ "' is not a valid OrbitState"))).
  { intros item. unfold sat_stage, OrbitState. rewrite Hs. simpl.
    destruct (String.eqb_spec s ""); [contradiction|]. simpl.
    destruct (String.eqb_spec (Py.lower s) "ascending") as [E|_];
      [exfalso; apply Hbad; rewrite E; simpl; auto|].
    destruct (String.eqb_spec (Py.lower s) "descending") as [E|_];
      [exfalso; apply Hbad; rewrite E; simpl; auto|].
    destruct (String.eqb_spec (Py.lower s) "geostationary") as [E|_];
      [exfalso; apply Hbad; rewrite E; simpl; auto|].
    reflexivity. }
  unfold assemble, extensions_stage. cbv zeta.
  rewrite Hsat. reflexivity.
Qed.

Lemma invalid_orbit_state_is_fatal_witness :
  create_item Sample.constants Sample.collaborators
    (Sample.world (Sample.manifest None)
       (Sample.product Sample.scene (Some "Polar") (Some 128)
          Sample.image_files)
       (Sample.granule None))
    Sample.safe_href 0%float None None None
  = (Raise (ValueError "'polar' is not a valid OrbitState"), []).
Proof.
  apply (invalid_orbit_state_is_fatal Sample.constants Sample.collaborators
           (Sample.world (Sample.manifest None)
              (Sample.product Sample.scene (Some "Polar") (Some 128)
                 Sample.image_files)
              (Sample.granule None))
           Sample.safe_href 0%float None None None
           (Sample.metadata_or_empty
              (Sample.world (Sample.manifest None)
                 (Sample.product Sample.scene (Some "Polar") (Some 128)
                    Sample.image_files)
                 (Sample.granule None)))
           "Polar").
  - vm_compute. reflexivity.
  - vm_compute. reflexivity.
  - discriminate.
  - vm_compute. intuition discriminate.
Defined.

Lemma granule_route_orbit K X W href tol rhm md :
  Py.endswith (Py.lower href) ".safe" = false ->
  read_metadata K X W href tol rhm = Ok md ->
  orbit_state md = None /\ relative_orbit md = None
  /\ image_media_type md = MediaType.JPEG2000
  /\ (image_paths md = L2A_IMAGE_PATHS K \/ image_paths md = L1C_IMAGE_PATHS K).
Proof.
  intros Hsafe. unfold read_metadata, metadata_from_granule_metadata.
  rewrite Hsafe.
  destruct (read_GranuleMetadata W _ rhm) as [g|]; [|discriminate].
  destruct (read_TileInfoMetadata W _ rhm) as [t|]; [|discriminate].
  destruct (reproject_geom X _ _ _) as [rg|]; [|discriminate].
  destruct (simplify X rg tol) as [geom|]; [|discriminate].
  intros E. apply Ok_inj in E. rewrite <- E.
  cbn [orbit_state relative_orbit image_media_type image_paths].
  repeat split. destruct (Py.contains "_L2A_" (gm_scene_id g)); auto.
Qed.

(** X22.  An item built in the granule route (an href that does not end
    in [.safe]) never carries the sat group; its images are the Level-2A
    or the Level-1C paths of the constants, as JPEG 2000. *)
Theorem granule_route_item
    (K : Constants) (X : Collaborators) (W : World) (href : string)
    (tol : float) (ap : option (list Provider))
    (rhm : option ReadHrefModifier) (prefix : option string)
    (md : Metadata) (item : Item) :
  Py.endswith (Py.lower href) ".safe" = false ->
  read_metadata K X W href tol rhm = Ok md ->
  fst (create_item K X W href tol ap rhm prefix) = Ok item ->
  ~ In Schema.SAT (item_stac_extensions item)
  /\ image_media_type md = MediaType.JPEG2000
  /\ (image_paths md = L2A_IMAGE_PATHS K \/ image_paths md = L1C_IMAGE_PATHS K).
Proof.
  intros Hsafe Hread Hrun.
  destruct (granule_route_orbit K X W href tol rhm md Hsafe Hread)
    as (Ho & Hr & Hm & Hp).
  split; [|auto].
  rewrite (create_item_read K X W href tol ap rhm prefix md Hread) in Hrun.
  rewrite (assemble_extensions K X href ap prefix md item Hrun).
  unfold expected_extensions. rewrite Ho, Hr. simpl.
  destruct (Re.search MGRS_PATTERN (scene_id md)); simpl;
    intuition discriminate.
Qed.

Lemma granule_route_item_witness :
  ~ In Schema.SAT (item_stac_extensions Tiles.tile_item)
  /\ image_media_type Tiles.tile_metadata = MediaType.JPEG2000
  /\ (image_paths Tiles.tile_metadata = L2A_IMAGE_PATHS Sample.constants
      \/ image_paths Tiles.tile_metadata = L1C_IMAGE_PATHS Sample.constants).
Proof.
  apply (granule_route_item Sample.constants Sample.collaborators Tiles.world
           Tiles.tile_href 0%float None None None).
  - vm_compute. reflexivity.
  - vm_compute. reflexivity.
  - vm_compute. reflexivity.
Defined.

(** *** The errors of the classifier *)

Lemma native_resolution_raise K id e :
  native_resolution K id = Raise e -> table_error e.
Proof.
  unfold native_resolution, table_error.
  destruct (Dict.get id (BANDS_TO_RESOLUTIONS K)) as [[|r ?]|];
    intros E; try discriminate; injection E as <-; eauto.
Qed.

Lemma rgb_bands_raise K e : rgb_bands K = Raise e -> table_error e.
Proof.
  unfold rgb_bands, sentinel_band, table_error.
  destruct (Dict.get "B04" (SENTINEL_BANDS K));
    [|intros E; injection E as <-; eauto].
  destruct (Dict.get "B03" (SENTINEL_BANDS K));
    [|intros E; injection E as <-; eauto].
  destruct (Dict.get "B02" (SENTINEL_BANDS K));
    [discriminate|intros E; injection E as <-; eauto].
Qed.

Lemma detect_resolution_raise K X href e :
  detect_resolution K X href = Raise e -> table_error e.
Proof.
  unfold detect_resolution.
  destruct (extract_gsd X href); [discriminate|].
  destruct (Re.search BAND_PATTERN href) as [g|].
  - destruct (native_resolution K g) eqn:Hn; [discriminate|].
    intros E. injection E as <-. exact (native_resolution_raise K g _ Hn).
  - destruct (Re.matches IS_TCI_PATTERN href); discriminate.
Qed.

Lemma resolve_media_type_raise href mt e :
  resolve_media_type href mt = Raise e ->
  mt = None
  /\ e = PlainException ("Must supply a media type for asset : " ++ href).
Proof.
  unfold resolve_media_type. destruct mt; [discriminate|].
  destruct (String.eqb _ ".jp2"); [discriminate|].
  destruct (_ || _); [discriminate|].
  intros E. injection E as <-. auto.
Qed.

Lemma projection_info_raise K X href rts bbox e :
  projection_info K X href rts bbox = Raise e ->
  (exists msg, e = TypeError msg /\ detect_resolution K X href = Ok None)
  \/ table_error e
  \/ exists shape, transform_from_bbox X bbox shape = Raise e.
Proof.
  unfold projection_info, lookup_shape.
  destruct (detect_resolution K X href) as [[r|]|e0] eqn:Hres.
  - destruct (Dict.get r rts) as [[rows cols]|].
    + destruct (transform_from_bbox X bbox [rows; cols]) eqn:Htr;
        [discriminate|].
      intros E. injection E as <-. right. right. eauto.
    + intros E. injection E as <-. right. left. left. eauto.
  - intros E. injection E as <-. left. eauto.
  - intros E. injection E as <-. right. left.
    exact (detect_resolution_raise K X href _ Hres).
Qed.

Lemma auxiliary_asset_raise K X href amt shape bbox tr e :
  auxiliary_asset K X href amt shape bbox tr = Raise e ->
  table_error e
  \/ (e = ValueError ("Unexpected asset: " ++ href)
      /\ Re.matches TCI_PATTERN href = false
      /\ Re.matches AOT_PATTERN href = false
      /\ Re.matches WVP_PATTERN href = false
      /\ Re.matches SCL_PATTERN href = false).
Proof.
  unfold auxiliary_asset.
  destruct (Re.matches TCI_PATTERN href).
  { destruct (rgb_bands K) eqn:Hrgb; [discriminate|].
    intros E. injection E as <-. left. exact (rgb_bands_raise K _ Hrgb). }
  destruct (Re.matches AOT_PATTERN href); [discriminate|].
  destruct (Re.matches WVP_PATTERN href); [discriminate|].
  destruct (Re.matches SCL_PATTERN href); [discriminate|].
  intros E. injection E as <-. right. auto.
Qed.

(** X23.  The classifier fails in one of these ways only: the media type
    cannot be told; the resolution stays undetermined ([TypeError]); a
    band or a resolution is missing from a table ([KeyError],
    [IndexError]); the transform cannot be computed; no rule matches
    ([ValueError "Unexpected asset"]). *)
Theorem classifier_errors
    (K : Constants) (X : Collaborators) (href : string)
    (rts : Dict.t Z (Z * Z)) (bbox : list float) (mt : option string)
    (e : Exception) :
  fst (image_asset_from_href K X href rts bbox mt) = Raise e ->
  (mt = None
   /\ e = PlainException ("Must supply a media type for asset : " ++ href))
  \/ (exists msg, e = TypeError msg /\ detect_resolution K X href = Ok None)
  \/ table_error e
  \/ (exists shape, transform_from_bbox X bbox shape = Raise e)
  \/ (e = ValueError ("Unexpected asset: " ++ href) /\ first_match href = None).
Proof.
  rewrite image_asset_from_href_fst.
  destruct (resolve_media_type href mt) as [amt|e0] eqn:Hmt.
  2:{ intros E. injection E as <-. left.
      exact (resolve_media_type_raise href mt e0 Hmt). }
  intros H. right. rewrite first_match_cases.
  destruct (Py.contains "_PVI" href).
  { unfold preview_asset in H.
    destruct (rgb_bands K) eqn:Hrgb; [discriminate|].
    injection H as <-. right. left. exact (rgb_bands_raise K _ Hrgb). }
  destruct (projection_info K X href rts bbox) as [[[r shape] tr]|e1] eqn:Hinfo.
  2:{ injection H as <-.
      destruct (projection_info_raise K X href rts bbox e1 Hinfo)
        as [?|[?|?]]; auto. }
  unfold Re.matches at 1.
  destruct (Re.search BAND_ID_PATTERN href) as [g|].
  - destruct (band_asset_outcome K href amt g r shape bbox tr)
      as [(k & a & Hok & _)|(e2 & Hr & Ht)]; [congruence|].
    right. left. congruence.
  - destruct (auxiliary_asset_raise K X href amt shape bbox tr e H)
      as [Ht|(-> & -> & -> & -> & ->)]; auto 6.
Qed.

Lemma classifier_errors_witness :
  (@None string = None
   /\ ValueError "Unexpected asset: QI_DATA/MSK_CLDPRB_20m.jp2"
      = PlainException
          ("Must supply a media type for asset : " ++ "QI_DATA/MSK_CLDPRB_20m.jp2"))
  \/ (exists msg,
         ValueError "Unexpected asset: QI_DATA/MSK_CLDPRB_20m.jp2"
         = TypeError msg
         /\ detect_resolution Sample.constants Sample.collaborators
              "QI_DATA/MSK_CLDPRB_20m.jp2" = Ok None)
  \/ table_error (ValueError "Unexpected asset: QI_DATA/MSK_CLDPRB_20m.jp2")
  \/ (exists shape,
         transform_from_bbox Sample.collaborators Sample.projected_bbox shape
         = Raise (ValueError "Unexpected asset: QI_DATA/MSK_CLDPRB_20m.jp2"))
  \/ (ValueError "Unexpected asset: QI_DATA/MSK_CLDPRB_20m.jp2"
      = ValueError ("Unexpected asset: " ++ "QI_DATA/MSK_CLDPRB_20m.jp2")
      /\ first_match "QI_DATA/MSK_CLDPRB_20m.jp2" = None).
Proof.
  apply (classifier_errors Sample.constants Sample.collaborators
           "QI_DATA/MSK_CLDPRB_20m.jp2" Sample.shapes Sample.projected_bbox
           None).
  vm_compute. reflexivity.
Defined.

(** *** The first failure stops the classification *)

Lemma map_M_first_failure {A B : Type} (f : A -> M B) (g : A -> Event)
    (l1 l2 : list A) (a : A) (e : Exception) :
  (forall x, snd (f x) = [g x]) ->
  (forall x, In x l1 -> exists b, fst (f x) = Ok b) ->
  fst (f a) = Raise e ->
  map_M f (l1 ++ a :: l2) = (Raise e, map g (l1 ++ [a])).
Proof.
  intros Hlog. induction l1 as [|x l1 IH]; intros Hok Ha; simpl.
  - unfold bind. pose proof (Hlog a) as Hl.
    destruct (f a) as [r l]. simpl in Ha, Hl. now subst.
  - destruct (Hok x (or_introl eq_refl)) as (b & Hb).
    rewrite (IH (fun y Hy => Hok y (or_intror Hy)) Ha).
    unfold bind. pose proof (Hlog x) as Hl.
    destruct (f x) as [r l]. simpl in Hb, Hl. now subst.
Qed.

(** X24.  The image paths are classified in order and the first one that
    fails ends the run: the exception is that of the failing path, and the
    log of the classification holds the records of the paths up to and
    including it; no later path is looked at. *)
Theorem classification_stops_at_first_failure
    (K : Constants) (X : Collaborators) (href : string)
    (prefix : option string) (md : Metadata)
    (before after : list string) (path : string) (e : Exception) :
  image_paths md = (before ++ path :: after)%list ->
  (forall p, In p before ->
     exists r,
       fst (image_asset_from_href K X (Py.path_join (asset_base href prefix) p)
              (resolution_to_shape md) (proj_bbox md)
              (Some (image_media_type md))) = Ok r) ->
  fst (image_asset_from_href K X (Py.path_join (asset_base href prefix) path)
         (resolution_to_shape md) (proj_bbox md)
         (Some (image_media_type md))) = Raise e ->
  image_assets_stage K X href prefix md
  = (Raise e,
     map (fun p => classifier_call (Py.path_join (asset_base href prefix) p))
       (before ++ [path])).
Proof.
  intros Hpaths Hok Hfail. unfold image_assets_stage. rewrite Hpaths.
  fold (asset_base href prefix).
  rewrite (map_M_first_failure _
             (fun p => classifier_call
                         (Py.path_join (asset_base href prefix) p))
             before after path e); [reflexivity| |assumption|assumption].
  intros p. apply image_asset_from_href_logged.
Qed.

Lemma classification_stops_at_first_failure_witness :
  image_assets_stage Sample.constants Sample.collaborators Sample.safe_href
    None Sample.unexpected_metadata
  = (Raise (ValueError
              ("Unexpected asset: "
               ++ Py.path_join Sample.safe_href
                    "GRANULE/QI_DATA/MSK_CLDPRB_20m.jp2")),
     map (fun p =>
            classifier_call
              (Py.path_join (asset_base Sample.safe_href None) p))
       (["GRANULE/IMG_DATA/R10m/T01CCV_B02_10m.jp2"]
        ++ ["GRANULE/QI_DATA/MSK_CLDPRB_20m.jp2"])).
Proof.
  apply (classification_stops_at_first_failure Sample.constants
           Sample.collaborators Sample.safe_href None
           Sample.unexpected_metadata
           ["GRANULE/IMG_DATA/R10m/T01CCV_B02_10m.jp2"]
           ["GRANULE/IMG_DATA/R20m/T01CCV_SCL_20m.jp2"]
           "GRANULE/QI_DATA/MSK_CLDPRB_20m.jp2").
  - reflexivity.
  - intros p [<-|[]]. eexists. vm_compute. reflexivity.
  - vm_compute. reflexivity.
Defined.
